(** * Parrot Terminal: session and process engine

    A shallow embedding of [src/terminal.c] and [src/terminal.h]: the
    command queue, the history buffer, the terminal manager and
    [execute_command], with the properties of the specification proved
    about them.

    Conventions.
    - A C [int] is a [Z]; arithmetic that the source performs with [++],
      [--] or [*=] goes through [int_wrap] (two's complement on 32 bits),
      and [%] is [Z.rem] (truncating, as in C).
    - A C string (a NUL-terminated [char] buffer) is the [string] of the
      characters before its terminator.
    - A fixed-size C array is a [list] read with [!!!] and written with
      [<[i:=x]>].
    - C struct fields that share a name across structs carry a prefix
      ([cq_count], [hb_count]); everything else keeps the source's name. *)

From Stdlib Require Import ZArith Ascii String.
From stdpp Require Import base list strings pretty.

Open Scope Z_scope.

(** ** Machine integers and C strings *)

Definition int_wrap (z : Z) : Z := (z + 2 ^ 31) `mod` 2 ^ 32 - 2 ^ 31.

Definition strlen (s : string) : Z := Z.of_nat (String.length s).

(** [strncpy(dst, src, n); dst[n] = '\0';] leaves in [dst] the first [n]
    characters of [src] (all of it when it is shorter). *)
Fixpoint strncpy (n : nat) (src : string) : string :=
  match n, src with
  | S n', String c rest => String c (strncpy n' rest)
  | _, _ => EmptyString
  end.

(** [snprintf(buf, size, ...)] keeps at most [size - 1] characters of the
    formatted text. *)
Definition snprintf (size : nat) (formatted : string) : string :=
  strncpy (pred size) formatted.

(** [strcmp(a, b) == 0] *)
Definition strcmp_eq (a b : string) : bool := String.eqb a b.

(** [strncmp(s, lit, strlen(lit)) == 0] *)
Definition strncmp_eq (s lit : string) : bool := String.prefix lit s.

(** [%d] *)
Definition fmt_d (z : Z) : string := pretty z.

(** ** Constants of terminal.h *)

Definition MAX_CMD_INPUT : Z := 512.
Definition MAX_CMD_HISTORY : Z := 256.
Definition MAX_TERMINALS : Z := 8.
Definition COMMAND_QUEUE_SIZE : Z := 10.

Definition HISTORY_TYPE_NORMAL : Z := 0.
Definition HISTORY_TYPE_COMMAND : Z := 1.
Definition HISTORY_TYPE_RAW : Z := 2.

Definition CMD_STATE_READY : Z := 0.
Definition CMD_STATE_RUNNING : Z := 1.
Definition CMD_STATE_QUEUED : Z := 2.

Definition QUEUE_NORMAL : Z := 0.
Definition QUEUE_FULL : Z := 1.

(** ** Command queue *)

Record CommandQueue := mkCommandQueue {
  cq_commands : list string;   (* char commands[COMMAND_QUEUE_SIZE][MAX_CMD_INPUT] *)
  cq_count : Z;
  cq_head : Z;
  cq_tail : Z;
  cq_state : Z
}.

Definition set_cq_state (v : Z) (q : CommandQueue) : CommandQueue :=
  mkCommandQueue (cq_commands q) (cq_count q) (cq_head q) (cq_tail q) v.

(** The loop [for (i = 0; i < COMMAND_QUEUE_SIZE; i++) commands[i][0] = 0]. *)
Definition clear_slots (slots : list string) : list string :=
  foldl (fun acc i => <[i := EmptyString]> acc) slots
        (seq 0 (Z.to_nat COMMAND_QUEUE_SIZE)).

Definition init_command_queue (q : CommandQueue) : CommandQueue :=
  mkCommandQueue (clear_slots (cq_commands q)) 0 0 0 QUEUE_NORMAL.

Definition update_queue_state (q : CommandQueue) : CommandQueue :=
  set_cq_state (if cq_count q >=? COMMAND_QUEUE_SIZE then QUEUE_FULL
                else QUEUE_NORMAL) q.

Definition is_queue_full (q : CommandQueue) : bool :=
  cq_count q >=? COMMAND_QUEUE_SIZE.

Definition is_queue_empty (q : CommandQueue) : bool :=
  cq_count q =? 0.

(** Returns the C result (1 on success, 0 when full) and the queue. *)
Definition add_to_queue (q : CommandQueue) (cmd : string) : Z * CommandQueue :=
  if is_queue_full q then (0, set_cq_state QUEUE_FULL q)
  else
    let slots := <[Z.to_nat (cq_tail q) :=
                     strncpy (Z.to_nat (MAX_CMD_INPUT - 1)) cmd]> (cq_commands q) in
    let tail' := Z.rem (int_wrap (cq_tail q + 1)) COMMAND_QUEUE_SIZE in
    let count' := int_wrap (cq_count q + 1) in
    (1, update_queue_state
          (mkCommandQueue slots count' (cq_head q) tail' (cq_state q))).

(** Returns the command copied into the caller's buffer ([None] when the
    function returns 0 and leaves the buffer alone) and the queue. *)
Definition get_from_queue (q : CommandQueue) : option string * CommandQueue :=
  if is_queue_empty q then (None, q)
  else
    let cmd := strncpy (Z.to_nat (MAX_CMD_INPUT - 1))
                       (cq_commands q !!! Z.to_nat (cq_head q)) in
    let head' := Z.rem (int_wrap (cq_head q + 1)) COMMAND_QUEUE_SIZE in
    let count' := int_wrap (cq_count q - 1) in
    (Some cmd, update_queue_state
                 (mkCommandQueue (cq_commands q) count' head' (cq_tail q)
                                 (cq_state q))).

(** Sequences of queue operations. *)
Inductive queue_op :=
| Enqueue (cmd : string)
| Dequeue.

Definition apply_op (q : CommandQueue) (op : queue_op) : CommandQueue :=
  match op with
  | Enqueue cmd => (add_to_queue q cmd).2
  | Dequeue => (get_from_queue q).2
  end.

Definition run_ops (q : CommandQueue) (ops : list queue_op) : CommandQueue :=
  foldl apply_op q ops.

(** The same, also collecting what the successful dequeues returned. *)
Definition apply_op_out (st : CommandQueue * list string) (op : queue_op)
  : CommandQueue * list string :=
  match op with
  | Enqueue cmd => ((add_to_queue st.1 cmd).2, st.2)
  | Dequeue =>
      match get_from_queue st.1 with
      | (Some c, q') => (q', st.2 ++ [c])
      | (None, q') => (q', st.2)
      end
  end.

Definition run_ops_out (q : CommandQueue) (ops : list queue_op)
  : CommandQueue * list string :=
  foldl apply_op_out (q, []) ops.

(** The commands waiting in the queue, oldest first. *)
Definition pending (q : CommandQueue) : list string :=
  (fun i : nat =>
     cq_commands q !!! Z.to_nat ((cq_head q + Z.of_nat i) `mod` COMMAND_QUEUE_SIZE))
    <$> seq 0 (Z.to_nat (cq_count q)).

(** Index invariant of the circular buffer. *)
Record queue_inv (q : CommandQueue) : Prop := mk_queue_inv {
  qi_count : 0 <= cq_count q <= COMMAND_QUEUE_SIZE;
  qi_head : 0 <= cq_head q < COMMAND_QUEUE_SIZE;
  qi_tail : cq_tail q = (cq_head q + cq_count q) `mod` COMMAND_QUEUE_SIZE;
  qi_state : cq_state q =
             if cq_count q =? COMMAND_QUEUE_SIZE then QUEUE_FULL else QUEUE_NORMAL
}.

(** The storage is the declared array and every slot holds a terminated
    string. *)
Record queue_wf (q : CommandQueue) : Prop := mk_queue_wf {
  qw_inv : queue_inv q;
  qw_slots : length (cq_commands q) = Z.to_nat COMMAND_QUEUE_SIZE;
  qw_term : Forall (fun s => (String.length s < Z.to_nat MAX_CMD_INPUT)%nat)
                   (cq_commands q)
}.

(** ** History buffer *)

(** [lines], [line_types] and [timestamps] are heap arrays of [capacity]
    cells, of which the first [count] are in use. *)
Record HistoryBuffer := mkHistoryBuffer {
  hb_lines : list string;
  hb_line_types : list Z;
  hb_timestamps : list Z;
  hb_count : Z;
  hb_capacity : Z;
  hb_scroll_offset : Z
}.

(** [malloc(n * sizeof ..)]: fresh cells; what they hold is never read
    before it is written. *)
Definition malloc {A} (dflt : A) (n : Z) : list A := replicate (Z.to_nat n) dflt.

(** [realloc(a, n * sizeof ..)]: the old cells, then fresh ones. *)
Definition realloc {A} (dflt : A) (a : list A) (n : Z) : list A :=
  take (Z.to_nat n) a ++ replicate (Z.to_nat n - length a) dflt.

Definition init_history_buffer : HistoryBuffer :=
  mkHistoryBuffer (malloc EmptyString 500) (malloc 0 500) (malloc 0 500) 0 500 0.

Definition newline : ascii := "010"%char.
Definition space : ascii := " "%char.

(** The copy loop of add_history_line taken when line_break_enabled is 0. *)
Fixpoint collapse_line_breaks (src : string) : string :=
  match src with
  | EmptyString => EmptyString
  | String c rest =>
      String (if Ascii.eqb c newline then space else c) (collapse_line_breaks rest)
  end.

(** [strdup(text)], or the copy with its line breaks collapsed. *)
Definition stored_text (line_break_enabled : Z) (text : string) : string :=
  if line_break_enabled =? 0 then collapse_line_breaks text else text.

(** [now] is the value of [time(NULL)]. History counters are used without
    wrap-around: 2^31 lines do not fit the arrays. *)
Definition add_history_line (line_break_enabled : Z) (now : Z)
    (buf : HistoryBuffer) (text : string) (line_type : Z) : HistoryBuffer :=
  let grown :=
    if hb_count buf >=? hb_capacity buf then
      let cap := hb_capacity buf * 2 in
      mkHistoryBuffer (realloc EmptyString (hb_lines buf) cap)
                      (realloc 0 (hb_line_types buf) cap)
                      (realloc 0 (hb_timestamps buf) cap)
                      (hb_count buf) cap (hb_scroll_offset buf)
    else buf in
  let stored := stored_text line_break_enabled text in
  let i := Z.to_nat (hb_count grown) in
  mkHistoryBuffer (<[i := stored]> (hb_lines grown))
                  (<[i := line_type]> (hb_line_types grown))
                  (<[i := now]> (hb_timestamps grown))
                  (hb_count grown + 1) (hb_capacity grown)
                  (hb_scroll_offset grown).

(** The entries in use: text and classification, oldest first. *)
Definition entries (buf : HistoryBuffer) : list (string * Z) :=
  take (Z.to_nat (hb_count buf)) (zip (hb_lines buf) (hb_line_types buf)).

Record history_wf (buf : HistoryBuffer) : Prop := mk_history_wf {
  hw_count : 0 <= hb_count buf <= hb_capacity buf;
  hw_capacity : 0 < hb_capacity buf;
  hw_lines : length (hb_lines buf) = Z.to_nat (hb_capacity buf);
  hw_types : length (hb_line_types buf) = Z.to_nat (hb_capacity buf);
  hw_stamps : length (hb_timestamps buf) = Z.to_nat (hb_capacity buf)
}.

(** ** Input state *)

(** [input_text] is the line being edited: the bytes of [input] before
    index [input_len], which is what Enter terminates and submits and what
    the keys edit.  The bytes the buffer holds behind the line are not
    kept.  [cmd_history] is the array of MAX_CMD_HISTORY string pointers,
    [None] for NULL. *)
Record InputState := mkInputState {
  input_text : string;        (* char input[MAX_CMD_INPUT], up to input_len *)
  cursor_pos : Z;
  input_len : Z;
  display_start : Z;
  cmd_history : list (option string);
  cmd_history_count : Z;
  cmd_history_pos : Z;
  is_locked : Z
}.

Definition set_is_locked (v : Z) (i : InputState) : InputState :=
  mkInputState (input_text i) (cursor_pos i) (input_len i) (display_start i)
               (cmd_history i) (cmd_history_count i) (cmd_history_pos i) v.

Definition init_input_state : InputState :=
  mkInputState EmptyString 0 0 0 (replicate (Z.to_nat MAX_CMD_HISTORY) None) 0 (-1) 0.

(** [for (i = 1; i < MAX_CMD_HISTORY; i++) h[i-1] = h[i];] *)
Definition shift_cmd_history (h : list (option string)) : list (option string) :=
  foldl (fun acc i => <[pred i := acc !!! i]> acc) h
        (seq 1 (Z.to_nat MAX_CMD_HISTORY - 1)).

Definition add_to_cmd_history (i : InputState) (cmd : string) : InputState :=
  let '(h, n) :=
    if cmd_history_count i >=? MAX_CMD_HISTORY
    then (shift_cmd_history (cmd_history i), int_wrap (cmd_history_count i - 1))
    else (cmd_history i, cmd_history_count i) in
  let h' := <[Z.to_nat n := Some cmd]> h in
  let n' := int_wrap (n + 1) in
  mkInputState (input_text i) (cursor_pos i) (input_len i) (display_start i)
               h' n' n' (is_locked i).

Definition update_input_lock_state (i : InputState) (q : CommandQueue) : InputState :=
  set_is_locked (if cq_state q =? QUEUE_FULL then 1 else 0) i.

(** ** Terminals and the terminal manager *)

(** The pane geometry and the curses window of a Terminal belong to the
    display layer and are left out. *)
Record Terminal := mkTerminal {
  history : HistoryBuffer;
  input : InputState;
  term_id : Z;                 (* id *)
  split_with : Z;
  split_direction : Z;
  current_directory : string;
  cmd_queue : CommandQueue;
  current_process : Z;
  cmd_state : Z
}.

Definition set_history (v : HistoryBuffer) (t : Terminal) : Terminal :=
  mkTerminal v (input t) (term_id t) (split_with t) (split_direction t)
             (current_directory t) (cmd_queue t) (current_process t) (cmd_state t).
Definition set_input (v : InputState) (t : Terminal) : Terminal :=
  mkTerminal (history t) v (term_id t) (split_with t) (split_direction t)
             (current_directory t) (cmd_queue t) (current_process t) (cmd_state t).
Definition set_term_id (v : Z) (t : Terminal) : Terminal :=
  mkTerminal (history t) (input t) v (split_with t) (split_direction t)
             (current_directory t) (cmd_queue t) (current_process t) (cmd_state t).
Definition set_split_with (v : Z) (t : Terminal) : Terminal :=
  mkTerminal (history t) (input t) (term_id t) v (split_direction t)
             (current_directory t) (cmd_queue t) (current_process t) (cmd_state t).
Definition set_split_direction (v : Z) (t : Terminal) : Terminal :=
  mkTerminal (history t) (input t) (term_id t) (split_with t) v
             (current_directory t) (cmd_queue t) (current_process t) (cmd_state t).
Definition set_current_directory (v : string) (t : Terminal) : Terminal :=
  mkTerminal (history t) (input t) (term_id t) (split_with t) (split_direction t)
             v (cmd_queue t) (current_process t) (cmd_state t).
Definition set_cmd_queue (v : CommandQueue) (t : Terminal) : Terminal :=
  mkTerminal (history t) (input t) (term_id t) (split_with t) (split_direction t)
             (current_directory t) v (current_process t) (cmd_state t).
Definition set_current_process (v : Z) (t : Terminal) : Terminal :=
  mkTerminal (history t) (input t) (term_id t) (split_with t) (split_direction t)
             (current_directory t) (cmd_queue t) v (cmd_state t).
Definition set_cmd_state (v : Z) (t : Terminal) : Terminal :=
  mkTerminal (history t) (input t) (term_id t) (split_with t) (split_direction t)
             (current_directory t) (cmd_queue t) (current_process t) v.

(** A cell of the terminals array that has not been set up: the arrays
    declared inside the struct have their size, the heap pointers of the
    history point nowhere. *)
Definition blank_terminal : Terminal :=
  mkTerminal (mkHistoryBuffer [] [] [] 0 0 0)
             (mkInputState EmptyString 0 0 0
                           (replicate (Z.to_nat MAX_CMD_HISTORY) None) 0 0 0)
             0 0 0 EmptyString
             (mkCommandQueue (replicate (Z.to_nat COMMAND_QUEUE_SIZE) EmptyString)
                             0 0 0 0)
             0 0.

#[global] Instance Terminal_inhabited : Inhabited Terminal :=
  populate blank_terminal.

Record TerminalManager := mkTerminalManager {
  terminals : list Terminal;   (* MAX_TERMINALS cells *)
  terminal_count : Z;
  active_terminal : Z;
  split_layout : Z
}.

(** ** The operating system

    What the program asks of the system is answered by an [OS]; the
    answers may differ from one request to the next ([os_tick] counts the
    requests made so far).  The world also records what the program did to
    the system: the signals it sent and the commands it handed to a child
    process. *)

Definition PATH_MAX : Z := 4096.   (* <limits.h> *)
Definition SIGINT : Z := 2.        (* <signal.h> *)

(** The outcome of pipe() and fork() for a captured command.  For a child
    that was started: its pid, whether fdopen() gave a stream, what the
    successive read() calls returned until end-of-stream, and the status
    stored by waitpid(). *)
Inductive run_result :=
| PipeFailed (errno : Z)
| ForkFailed (errno : Z)
| Spawned (pid : Z) (stream_ok : bool) (reads : list string) (status : Z).

Record OS := mkOS {
  os_time : nat -> Z;                                 (* time(NULL) *)
  os_clock : Z -> string;                             (* strftime "[%H:%M:%S]" *)
  os_home : option string;                            (* getenv("HOME") *)
  os_chdir : nat -> string -> string -> string + Z;   (* from cwd to path: new cwd or errno *)
  os_strerror : Z -> string;
  os_system : nat -> string -> Z;                     (* system(cmd) *)
  os_run : nat -> string -> run_result
}.

Record World := mkWorld {
  terminal_manager : TerminalManager;
  line_break_enabled : Z;
  os_cwd : string;
  os_tick : nat;
  os_signals : list (Z * Z);    (* kill(pid, sig) calls *)
  os_children : list string     (* commands given to sh -c or system() *)
}.

Definition set_terminal_manager (v : TerminalManager) (w : World) : World :=
  mkWorld v (line_break_enabled w) (os_cwd w) (os_tick w) (os_signals w)
          (os_children w).
Definition set_os_cwd (v : string) (w : World) : World :=
  mkWorld (terminal_manager w) (line_break_enabled w) v (os_tick w)
          (os_signals w) (os_children w).
Definition tick (w : World) : World :=
  mkWorld (terminal_manager w) (line_break_enabled w) (os_cwd w) (S (os_tick w))
          (os_signals w) (os_children w).
Definition kill (pid sig : Z) (w : World) : World :=
  mkWorld (terminal_manager w) (line_break_enabled w) (os_cwd w) (S (os_tick w))
          (os_signals w ++ [(pid, sig)]) (os_children w).
Definition child_started (cmd : string) (w : World) : World :=
  mkWorld (terminal_manager w) (line_break_enabled w) (os_cwd w) (S (os_tick w))
          (os_signals w) (os_children w ++ [cmd]).

Definition set_terminals (v : list Terminal) (m : TerminalManager) : TerminalManager :=
  mkTerminalManager v (terminal_count m) (active_terminal m) (split_layout m).
Definition set_terminal_count (v : Z) (m : TerminalManager) : TerminalManager :=
  mkTerminalManager (terminals m) v (active_terminal m) (split_layout m).
Definition set_active_terminal (v : Z) (m : TerminalManager) : TerminalManager :=
  mkTerminalManager (terminals m) (terminal_count m) v (split_layout m).

(** [terminal_manager.terminals[i]], read and written. *)
Definition terminal_at (i : Z) (w : World) : Terminal :=
  terminals (terminal_manager w) !!! Z.to_nat i.

Definition update_terminal (i : Z) (f : Terminal -> Terminal) (w : World) : World :=
  set_terminal_manager
    (set_terminals (<[Z.to_nat i := f (terminal_at i w)]> (terminals (terminal_manager w)))
                   (terminal_manager w)) w.

Definition active_id (w : World) : Z := active_terminal (terminal_manager w).

Definition get_active_terminal (w : World) : Terminal := terminal_at (active_id w) w.

Definition update_active (f : Terminal -> Terminal) (w : World) : World :=
  update_terminal (active_id w) f w.

(** [add_history_line(&terminals[i].history, text, line_type)]; reading the
    clock is one request to the system. *)
Definition log_at (os : OS) (i : Z) (text : string) (line_type : Z) (w : World) : World :=
  let now := os_time os (os_tick w) in
  tick (update_terminal i
          (fun t => set_history
                      (add_history_line (line_break_enabled w) now (history t)
                                        text line_type) t) w).

(** The same on the active terminal: every caller of execute_command
    passes [&active->history] and [&active->input]. *)
Definition log_line (os : OS) (text : string) (line_type : Z) (w : World) : World :=
  log_at os (active_id w) text line_type w.

(** [chdir(path)]: the errno on failure. *)
Definition chdir (os : OS) (path : string) (w : World) : option Z * World :=
  match os_chdir os (os_tick w) (os_cwd w) path with
  | inl cwd' => (None, tick (set_os_cwd cwd' w))
  | inr errno => (Some errno, tick w)
  end.

(** [getcwd(buf, PATH_MAX)]: the system's working directory, taken to fit
    the buffer. *)
Definition getcwd (w : World) : string := os_cwd w.

(** ** Queueing and stopping commands *)

Definition add_command_to_queue (os : OS) (cmd : string) (w : World) : World :=
  let active := get_active_terminal w in
  let '(ok, q) := add_to_queue (cmd_queue active) cmd in
  let w1 := update_active (set_cmd_queue q) w in
  if ok =? 0 then
    let w2 := log_line os "Command queue is full! Maximum 10 commands allowed."
                       HISTORY_TYPE_RAW w1 in
    update_active (fun t => set_input (set_is_locked 1 (input t)) t) w2
  else
    log_line os
      (snprintf 128 ("Command added to queue. Queue size: " ++ fmt_d (cq_count q)
                     ++ "/" ++ fmt_d COMMAND_QUEUE_SIZE))
      HISTORY_TYPE_NORMAL w1.

Definition is_command_running (w : World) : bool :=
  cmd_state (get_active_terminal w) =? CMD_STATE_RUNNING.

Definition stop_current_command (os : OS) (w : World) : World :=
  let active := get_active_terminal w in
  if (cmd_state active =? CMD_STATE_RUNNING) && (current_process active >? 0) then
    let w1 := kill (current_process active) SIGINT w in
    let w2 := log_line os "Command interrupted (SIGINT sent)" HISTORY_TYPE_NORMAL w1 in
    update_active (fun t => set_current_process 0 (set_cmd_state CMD_STATE_READY t)) w2
  else
    log_line os "No command is currently running" HISTORY_TYPE_NORMAL w.

(** process_command_queue, with the call of execute_command left to
    [exec]. *)
Definition process_command_queue_with (exec : string -> World -> option World)
    (w : World) : option World :=
  let active := get_active_terminal w in
  if negb (is_command_running w) && negb (is_queue_empty (cmd_queue active)) then
    match get_from_queue (cmd_queue active) with
    | (Some next_cmd, q) =>
        let w1 := update_active (set_cmd_queue q) w in
        let w2 := if cq_state q =? QUEUE_NORMAL
                  then update_active (fun t => set_input (set_is_locked 0 (input t)) t) w1
                  else w1 in
        exec next_cmd w2
    | (None, q) => Some (update_active (set_cmd_queue q) w)
    end
  else Some w.

(** ** Pieces of execute_command *)

(** [s + n] *)
Fixpoint string_drop (n : nat) (s : string) : string :=
  match n, s with
  | S n', String _ rest => string_drop n' rest
  | _, _ => s
  end.

(** The "Add to command history" step (terminal.c 998-1002). *)
Definition record_command (cmd : string) (w : World) : World :=
  let inp := input (get_active_terminal w) in
  if (cmd_history_count inp =? 0)
     || negb (bool_decide (cmd_history inp !!! Z.to_nat (cmd_history_count inp - 1)
                           = Some cmd))
  then update_active (fun t => set_input (add_to_cmd_history (input t) cmd) t) w
  else w.

(** [while ( *start == ' ') start++;]: what is skipped, and where [start]
    ends up. *)
Fixpoint leading_spaces (s : string) : string :=
  match s with
  | String c rest => if Ascii.eqb c space then String c (leading_spaces rest)
                     else EmptyString
  | EmptyString => EmptyString
  end.

Fixpoint skip_spaces (s : string) : string :=
  match s with
  | String c rest => if Ascii.eqb c space then skip_spaces rest else s
  | EmptyString => EmptyString
  end.

Definition is_empty (s : string) : bool :=
  match s with EmptyString => true | _ => false end.

(** Removing the spaces and newlines at the end of a string. *)
Fixpoint rstrip (s : string) : string :=
  match s with
  | EmptyString => EmptyString
  | String c rest =>
      let rest' := rstrip rest in
      if (Ascii.eqb c space || Ascii.eqb c newline) && is_empty rest'
      then EmptyString else String c rest'
  end.

(** [end = start + strlen(start) - 1;
     while (end > start && ( *end == ' ' || *end == '\n')) { *end = 0; end--; }]:
    the first character of [start] always stays. *)
Definition trim_end (start : string) : string :=
  match start with
  | EmptyString => EmptyString
  | String c rest => String c (rstrip rest)
  end.

(** The directory given to chdir() for [cd <path>] (terminal.c 1006-1033).
    The buffer [clean_dir] still begins with the spaces that [start] has
    skipped. *)
Definition cd_target (home : option string) (cmd : string) : string :=
  let dir := string_drop 3 cmd in
  let clean_dir := strncpy (Z.to_nat (PATH_MAX - 1)) dir in
  let start := trim_end (skip_spaces clean_dir) in
  let clean_dir := (leading_spaces clean_dir ++ start)%string in
  if strcmp_eq start "~" then
    match home with
    | Some h => h
    | None => clean_dir
    end
  else if strncmp_eq start "~/" then
    match home with
    | Some h => snprintf (Z.to_nat PATH_MAX) (h ++ string_drop 1 start)
    | None => clean_dir
    end
  else clean_dir.

(** chdir() to [target], then the error line or the new directory
    (terminal.c 1035-1045 and 1050-1060). *)
Definition change_directory (os : OS) (target : string) (w : World) : World :=
  match chdir os target w with
  | (Some errno, w1) =>
      log_line os (snprintf 128 ("cd: " ++ target ++ ": " ++ os_strerror os errno))
               HISTORY_TYPE_NORMAL w1
  | (None, w1) => update_active (set_current_directory (getcwd w1)) w1
  end.

Definition cd_path (os : OS) (cmd : string) (w : World) : World :=
  change_directory os (cd_target (os_home os) cmd) w.

Definition cd_home (os : OS) (w : World) : World :=
  match os_home os with
  | Some home => change_directory os home w
  | None => w
  end.

(** The timestamped echo of the command (terminal.c 1065-1078). *)
Definition echo_command (os : OS) (cmd : string) (w : World) : World :=
  let now := os_time os (os_tick w) in
  let time_buf := os_clock os now in
  log_line os (snprintf 512 (time_buf ++ " " ++ cmd)) HISTORY_TYPE_COMMAND (tick w).

Definition interactive_commands : list string :=
  ["vim"; "nvim"; "nano"; "ranger"; "parrot"; "htop"; "top"; "sudo"; "ssh";
   "man"; "less"; "more"]%string.

Definition is_interactive (cmd : string) : bool :=
  existsb (fun ic => strcmp_eq cmd ic || strncmp_eq cmd ic) interactive_commands.

(** The interactive branch (terminal.c 1095-1121); the curses calls around
    system() belong to the display layer. *)
Definition run_interactive (os : OS) (cmd : string) (w : World) : World :=
  let w1 := log_line os "Starting interactive application..." HISTORY_TYPE_NORMAL w in
  let w2 := log_line os "Note: Use Ctrl+Z to suspend and 'fg' to return"
                     HISTORY_TYPE_NORMAL w1 in
  let result := os_system os (os_tick w2) cmd in
  let w3 := child_started cmd w2 in
  let w4 := if negb (result =? 0) then
              log_line os (snprintf 128 ("Command returned with exit code: "
                                         ++ fmt_d result))
                       HISTORY_TYPE_NORMAL w3
            else w3 in
  log_line os "Returned to Parrot Terminal" HISTORY_TYPE_NORMAL w4.

(** *** Reading the pipe *)

Definition NUL : ascii := "000"%char.
Definition ESC : ascii := "027"%char.   (* '\033' *)

(** A byte buffer read as a C string ends at its first NUL. *)
Fixpoint c_str (bytes : string) : string :=
  match bytes with
  | EmptyString => EmptyString
  | String c rest => if Ascii.eqb c NUL then EmptyString else String c (c_str rest)
  end.

(** strtok(.., "\n"): skip the delimiters in front; at the end of the text
    there is no token; otherwise the token runs up to the next delimiter
    and the scan resumes behind it. *)
Fixpoint skip_delims (s : string) : string :=
  match s with
  | String c rest => if Ascii.eqb c newline then skip_delims rest else s
  | EmptyString => EmptyString
  end.

Fixpoint split_token (s : string) : string * string :=
  match s with
  | EmptyString => (EmptyString, EmptyString)
  | String c rest =>
      if Ascii.eqb c newline then (EmptyString, rest)
      else let '(tok, after) := split_token rest in (String c tok, after)
  end.

Definition strtok (s : string) : option (string * string) :=
  match skip_delims s with
  | EmptyString => None
  | s' => Some (split_token s')
  end.

(** [line = strtok(buffer, "\n"); while (line != NULL) { ...; line = strtok(NULL, "\n"); }]:
    the lines the loop body sees.  [fuel] bounds the number of rounds. *)
Fixpoint strtok_lines (fuel : nat) (text : string) : list string :=
  match fuel with
  | O => []
  | S fuel' =>
      match strtok text with
      | None => []
      | Some (line, after) => line :: strtok_lines fuel' after
      end
  end.

Fixpoint strip_escape_from (in_escape : bool) (src : string) : string :=
  match src with
  | EmptyString => EmptyString
  | String c rest =>
      if Ascii.eqb c ESC then strip_escape_from true rest
      else if in_escape && Ascii.eqb c "m" then strip_escape_from false rest
      else if in_escape then strip_escape_from true rest
      else String c (strip_escape_from false rest)
  end.

Definition strip_escape_codes (str : string) : string := strip_escape_from false str.

(** The body of the strtok loop (terminal.c 1174-1178). *)
Definition clean_line (line : string) : string :=
  strip_escape_codes (strncpy 1023 line).

(** What one read() of [chunk] adds to the history. *)
Definition chunk_lines (chunk : string) : list string :=
  clean_line <$> strtok_lines (S (String.length chunk)) (c_str chunk).

Definition log_lines (os : OS) (lines : list string) (w : World) : World :=
  foldl (fun w line => log_line os line HISTORY_TYPE_NORMAL w) w lines.

(** [while ((bytes_read = read(..)) > 0) ..]: a read of no bytes ends the
    loop. *)
Fixpoint read_pipe (os : OS) (reads : list string) (w : World) : World :=
  match reads with
  | [] => w
  | chunk :: more =>
      if is_empty chunk then w
      else read_pipe os more (log_lines os (chunk_lines chunk) (tick w))
  end.

(** *** Wait status (glibc's <bits/waitstatus.h>) *)

Definition signed_char (z : Z) : Z := (z + 128) `mod` 256 - 128.
Definition WTERMSIG (status : Z) : Z := Z.land status 127.
Definition WEXITSTATUS (status : Z) : Z := Z.shiftr (Z.land status 65280) 8.
Definition WIFEXITED (status : Z) : bool := WTERMSIG status =? 0.
Definition WIFSIGNALED (status : Z) : bool :=
  Z.shiftr (signed_char (Z.land status 127 + 1)) 1 >? 0.

(** The parent after fork() (terminal.c 1159-1160). *)
Definition begin_command (pid : Z) (cmd : string) (w : World) : World :=
  update_active (fun t => set_current_process pid (set_cmd_state CMD_STATE_RUNNING t))
                (child_started cmd w).

(** After the pipe is closed (terminal.c 1187-1207). *)
Definition reap (os : OS) (status : Z) (w : World) : World :=
  let w1 := update_active
              (fun t => set_current_process 0 (set_cmd_state CMD_STATE_READY t))
              (tick w) in
  if WIFEXITED status && negb (WEXITSTATUS status =? 0) then
    log_line os (snprintf 128 ("Command exited with status: "
                               ++ fmt_d (WEXITSTATUS status)))
             HISTORY_TYPE_NORMAL w1
  else if WIFSIGNALED status then
    log_line os (snprintf 128 ("Command terminated by signal: "
                               ++ fmt_d (WTERMSIG status)))
             HISTORY_TYPE_NORMAL w1
  else w1.

Definition show_manual (os : OS) (w : World) : World :=
  foldl (fun w line => log_line os line HISTORY_TYPE_RAW w) w
    ["Parrot Terminal Usage:";
     "======================";
     "Shift+T: Create new terminal";
     "Shift+W: Close current terminal";
     "Alt+1-9: Switch to terminal 1-9";
     "Alt+/-: Switch to next/previous terminal";
     "Alt+Arrows: Switch between split panes";
     "Arrow Keys: Scroll terminal history";
     "Shift+Up/Down: Navigate command history";
     "Type 'stop' to interrupt running command";
     "Type 'exit' to quit";
     "Note: Commands queue automatically when another is running";
     "Queue size: 10 commands max"]%string.

(** ** execute_command

    The only recursion is through process_command_queue, once the command
    that ran has been waited for.  [execute_command_body] is the function
    body with that call left to [self]; [execute_command] closes the knot,
    [fuel] bounding the depth of the recursion (a queue of [n] commands
    needs [n + 1]). *)
Definition execute_command_body (os : OS) (self : string -> World -> option World)
    (cmd : string) (w : World) : option World :=
  if strlen cmd =? 0 then Some w
  else if strcmp_eq cmd "stop" then Some (stop_current_command os w)
  else if strcmp_eq cmd "manual" then Some (show_manual os w)
  else if is_command_running w then Some (add_command_to_queue os cmd w)
  else
    let w := record_command cmd w in
    if strncmp_eq cmd "cd " then Some (cd_path os cmd w)
    else if strcmp_eq cmd "cd" then Some (cd_home os w)
    else
      let w := echo_command os cmd w in
      if is_interactive cmd then Some (run_interactive os cmd w)
      else
        match os_run os (os_tick w) cmd with
        | PipeFailed errno =>
            Some (log_line os (snprintf 128 ("Failed to create pipe: "
                                             ++ os_strerror os errno))
                           HISTORY_TYPE_NORMAL (tick w))
        | ForkFailed errno =>
            Some (log_line os (snprintf 128 ("Failed to fork process: "
                                             ++ os_strerror os errno))
                           HISTORY_TYPE_NORMAL (tick w))
        | Spawned pid stream_ok reads status =>
            let w1 := begin_command pid cmd w in
            let w2 := if stream_ok then read_pipe os reads w1 else w1 in
            let w3 := reap os status w2 in
            process_command_queue_with self w3
        end.

Fixpoint execute_command (os : OS) (fuel : nat) (cmd : string) (w : World)
  : option World :=
  match fuel with
  | O => None
  | S fuel' => execute_command_body os (execute_command os fuel') cmd w
  end.

Definition process_command_queue (os : OS) (fuel : nat) (w : World) : option World :=
  process_command_queue_with (execute_command os fuel) w.

(** Fuel that always suffices for a submission. *)
Definition enough_fuel (w : World) : nat :=
  S (Z.to_nat (cq_count (cmd_queue (get_active_terminal w)))).

(** ** The terminal manager *)

Definition show_welcome_message (os : OS) (i : Z) (w : World) : World :=
  foldl (fun w line => log_at os i line HISTORY_TYPE_RAW w) w
    [snprintf 128 ("Welcome to Parrot Terminal Version " ++ "v6.0.0");
     "==========================================";
     "Type 'exit' to quit";
     "Shift+T: New terminal, Shift+W: Close terminal";
     "Alt+1-9: Switch terminals, Alt+/-: Next/Prev terminal";
     "Alt+Arrows: Switch between split panes";
     "Arrows: Scroll terminal history";
     "Shift+Up/Down: Command history";
     EmptyString]%string.

(** The assignments that set up the cell of a new terminal; the fields
    they do not mention keep what the cell held. *)
Definition fresh_terminal (new_id partner : Z) (cell : Terminal) : Terminal :=
  mkTerminal init_history_buffer init_input_state new_id partner
             (split_direction cell) (current_directory cell)
             (init_command_queue (cmd_queue cell)) 0 CMD_STATE_READY.

Definition init_terminal_manager (w : World) : World :=
  let cells := malloc blank_terminal MAX_TERMINALS in
  let t0 := set_current_directory (getcwd w)
              (fresh_terminal 0 (-1) (cells !!! 0%nat)) in
  set_terminal_manager
    (mkTerminalManager (<[0%nat := t0]> cells) 1 0
                       (split_layout (terminal_manager w))) w.

Definition create_new_terminal (os : OS) (w : World) : World :=
  let m := terminal_manager w in
  if terminal_count m >=? MAX_TERMINALS then w
  else
    let new_id := terminal_count m in
    let w0 := update_terminal new_id (fresh_terminal new_id (-1)) w in
    let dir := current_directory (get_active_terminal w0) in
    let w1 := update_terminal new_id (set_current_directory dir) w0 in
    let w2 := set_terminal_manager
                (set_terminal_count (int_wrap (terminal_count m + 1))
                                    (terminal_manager w1)) w1 in
    let w3 := show_welcome_message os new_id w2 in
    (chdir os (current_directory (terminal_at new_id w3)) w3).2.

Definition switch_terminal (os : OS) (terminal_id : Z) (w : World) : World :=
  if (terminal_id >=? 0) && (terminal_id <? terminal_count (terminal_manager w)) then
    let w1 := update_active (set_current_directory (getcwd w)) w in
    let w2 := set_terminal_manager
                (set_active_terminal terminal_id (terminal_manager w1)) w1 in
    (chdir os (current_directory (get_active_terminal w2)) w2).2
  else w.

Definition create_split_terminal (os : OS) (direction : Z) (w : World) : World :=
  let m := terminal_manager w in
  if terminal_count m >=? MAX_TERMINALS then w
  else
    let active_id := active_terminal m in
    let new_id := terminal_count m in
    let w0 := update_terminal new_id
                (fun cell => set_split_direction direction
                               (fresh_terminal new_id active_id cell)) w in
    let dir := current_directory (terminal_at active_id w0) in
    let w1 := update_terminal new_id (set_current_directory dir) w0 in
    let w2 := update_terminal active_id
                (fun t => set_split_direction direction (set_split_with new_id t)) w1 in
    let w3 := set_terminal_manager
                (set_terminal_count (int_wrap (terminal_count m + 1))
                                    (terminal_manager w2)) w2 in
    let w4 := show_welcome_message os new_id w3 in
    switch_terminal os new_id w4.

Definition next_terminal (os : OS) (w : World) : World :=
  let m := terminal_manager w in
  switch_terminal os (Z.rem (int_wrap (active_terminal m + 1)) (terminal_count m)) w.

Definition prev_terminal (os : OS) (w : World) : World :=
  let m := terminal_manager w in
  switch_terminal os
    (Z.rem (int_wrap (int_wrap (active_terminal m - 1) + terminal_count m))
           (terminal_count m)) w.

Definition switch_split_pane (os : OS) (w : World) : World :=
  let active := get_active_terminal w in
  if negb (split_with active =? -1) then switch_terminal os (split_with active) w
  else w.

(** What one round of the loop that closes the gap (terminal.c 531-540)
    does to the terminal it moves into cell [i]. *)
Definition renumbered (active_id i : Z) (t : Terminal) : Terminal :=
  let t := set_term_id i t in
  if negb (split_with t =? -1) && (split_with t >? active_id)
  then set_split_with (int_wrap (split_with t - 1)) t else t.

Definition shift_step (active_id : Z) (ts : list Terminal) (i : Z) : list Terminal :=
  <[Z.to_nat i := renumbered active_id i (ts !!! Z.to_nat (i + 1))]> ts.

(** [for (i = active_id; i < terminal_count - 1; i++)] *)
Definition shift_terminals (active_id count : Z) (ts : list Terminal) : list Terminal :=
  foldl (shift_step active_id) ts
        ((fun k : nat => active_id + Z.of_nat k)
           <$> seq 0 (Z.to_nat (count - 1 - active_id))).

(** Freeing the closed terminal's buffers leaves the other cells as they
    are. *)
Definition close_current_terminal (os : OS) (w : World) : World :=
  if terminal_count (terminal_manager w) <=? 1 then w
  else
    let active_id := active_terminal (terminal_manager w) in
    let w1 := if cmd_state (terminal_at active_id w) =? CMD_STATE_RUNNING
              then stop_current_command os w else w in
    let partner := split_with (terminal_at active_id w1) in
    let w2 := if negb (partner =? -1)
              then update_terminal partner (set_split_with (-1)) w1 else w1 in
    let m := terminal_manager w2 in
    let ts := shift_terminals active_id (terminal_count m) (terminals m) in
    let count' := int_wrap (terminal_count m - 1) in
    let active' := if active_terminal m >=? count' then int_wrap (count' - 1)
                   else active_terminal m in
    set_terminal_manager (mkTerminalManager ts count' active' (split_layout m)) w2.

(** ** Well-formed worlds *)

(** The active index designates a cell of the terminals array. *)
Definition active_ok (w : World) : Prop :=
  0 <= active_id w /\
  (Z.to_nat (active_id w) < length (terminals (terminal_manager w)))%nat.

(** The view of the active terminal's history: texts with their
    classification, oldest first. *)
Definition active_entries (w : World) : list (string * Z) :=
  entries (history (get_active_terminal w)).

(** The active terminal is addressable and its buffers are in order. *)
Record session_ok (w : World) : Prop := mk_session_ok {
  so_active : active_ok w;
  so_history : history_wf (history (get_active_terminal w));
  so_queue : queue_wf (cmd_queue (get_active_terminal w))
}.

(** A command that execute_command neither ignores nor handles itself. *)
Definition ordinary (cmd : string) : Prop :=
  cmd <> EmptyString /\ cmd <> "stop"%string /\ cmd <> "manual"%string.

(** Submitting commands one after the other. *)
Fixpoint submit_all (os : OS) (cmds : list string) (w : World) : option World :=
  match cmds with
  | [] => Some w
  | cmd :: more =>
      match execute_command os (enough_fuel w) cmd w with
      | Some w' => submit_all os more w'
      | None => None
      end
  end.

(** ** A concrete system and session *)

Definition LF : string := String newline EmptyString.

Definition sample_os : OS :=
  mkOS (fun n => 1700000000 + Z.of_nat n)
       (fun _ => "[12:00:00]"%string)
       (Some "/home/parrot"%string)
       (fun _ _ path => if String.eqb path "/tmp" then inl "/tmp"%string else inr 2)
       (fun _ => "No such file or directory"%string)
       (fun _ cmd => if String.eqb cmd "less /nonexistent" then 256 else 0)
       (fun _ cmd =>
          if String.eqb cmd "echo hello" then Spawned 4711 true ["hello" ++ LF]%string 0
          else if String.eqb cmd "printf 'a\n\nb\n'"
               then Spawned 4712 true ["a" ++ LF ++ LF ++ "b" ++ LF]%string 0
          else Spawned 4713 true [] 32512).

(** The world after init_terminal_manager, started in /home/parrot. *)
Definition sample_world : World :=
  init_terminal_manager
    (mkWorld (mkTerminalManager [] 0 0 0) 1 "/home/parrot" 0 [] []).

(** [w'] differs from [w] by history entries [added] on the active
    terminal (and by the requests counted in [os_tick]). *)
Record logged (w w' : World) (added : list (string * Z)) : Prop := mk_logged {
  lg_ok : session_ok w';
  lg_entries : active_entries w' = active_entries w ++ added;
  lg_terminal : exists h, get_active_terminal w' = set_history h (get_active_terminal w);
  lg_lbe : line_break_enabled w' = line_break_enabled w;
  lg_signals : os_signals w' = os_signals w;
  lg_children : os_children w' = os_children w;
  lg_cwd : os_cwd w' = os_cwd w
}.

(** The sample session while a child with pid 4711 runs. *)
Definition running_world : World := begin_command 4711 "sleep 60" sample_world.

(** The line logged when a command is queued at depth [k]. *)
Definition queue_depth_message (k : Z) : string :=
  snprintf 128 ("Command added to queue. Queue size: " ++ fmt_d k
                ++ "/" ++ fmt_d COMMAND_QUEUE_SIZE).

Definition queue_full_message : string :=
  "Command queue is full! Maximum 10 commands allowed.".

(** [strstr(hay, needle) != NULL] *)
Fixpoint is_substring (needle hay : string) : bool :=
  String.prefix needle hay ||
  match hay with
  | EmptyString => false
  | String _ rest => is_substring needle rest
  end.

Fixpoint repeat_char (n : nat) (c : ascii) : string :=
  match n with
  | O => EmptyString
  | S n' => String c (repeat_char n' c)
  end.

(** A directory name of 131 characters that does not exist. *)
Definition long_dir : string := String "/" (repeat_char 130 "a").

(** ** Lines of a byte stream *)

(** The pieces of [s] between its newlines (one more than there are
    newlines). *)
Fixpoint fields (s : string) : list string :=
  match s with
  | EmptyString => [EmptyString]
  | String c rest =>
      if Ascii.eqb c newline then EmptyString :: fields rest
      else match fields rest with
           | f :: fs => String c f :: fs
           | [] => [String c EmptyString]
           end
  end.


(** Everything the read loop logs for the successive reads. *)
Fixpoint captured_lines (reads : list string) : list string :=
  match reads with
  | [] => []
  | chunk :: more =>
      if is_empty chunk then [] else chunk_lines chunk ++ captured_lines more
  end.

(** The line, if any, that reports how the child ended. *)
Definition exit_report (status : Z) : list string :=
  if WIFEXITED status && negb (WEXITSTATUS status =? 0) then
    [snprintf 128 ("Command exited with status: " ++ fmt_d (WEXITSTATUS status))]
  else if WIFSIGNALED status then
    [snprintf 128 ("Command terminated by signal: " ++ fmt_d (WTERMSIG status))]
  else [].

(** The echo line of a command. *)
Definition echo_line (os : OS) (cmd : string) (w : World) : string :=
  snprintf 512 (os_clock os (os_time os (os_tick w)) ++ " " ++ cmd).

Definition normal_entry (line : string) : string * Z := (line, HISTORY_TYPE_NORMAL).

(** A command that reaches the fork: ordinary, not a cd, not interactive. *)
Definition captured_command (cmd : string) : Prop :=
  ordinary cmd /\ strncmp_eq cmd "cd " = false /\ strcmp_eq cmd "cd" = false /\
  is_interactive cmd = false.

(** The sample session, Ready again, with [echo hello] left in its queue:
    the command was submitted while the child ran, then the child was
    stopped. *)
Definition queued_world : World :=
  stop_current_command sample_os
    (add_command_to_queue sample_os "echo hello" running_world).

(** ** Well-formed managers *)

(** Between one and MAX_TERMINALS terminals in the array's first cells,
    the active index among them, ids equal to positions, and every split
    reference either -1 or the index of a terminal. *)
Record manager_ok (w : World) : Prop := mk_manager_ok {
  mo_count : 1 <= terminal_count (terminal_manager w) <= MAX_TERMINALS;
  mo_cells : length (terminals (terminal_manager w)) = Z.to_nat MAX_TERMINALS;
  mo_active : 0 <= active_terminal (terminal_manager w)
              < terminal_count (terminal_manager w);
  mo_ids : forall i, 0 <= i < terminal_count (terminal_manager w) ->
                     term_id (terminal_at i w) = i;
  mo_partners : forall i, 0 <= i < terminal_count (terminal_manager w) ->
                          split_with (terminal_at i w) = -1 \/
                          0 <= split_with (terminal_at i w)
                          < terminal_count (terminal_manager w)
}.

(** Three sessions, the first and the third split partners, the second
    active: a new terminal (the first stays active), a split of the first
    (the third becomes active), a switch to the second. *)
Definition three_sessions : World :=
  switch_terminal sample_os 1
    (create_split_terminal sample_os 1
       (create_new_terminal sample_os sample_world)).

(** [t'] is the session [t], up to its id and its split reference. *)
Definition same_session (t t' : Terminal) : Prop :=
  history t' = history t /\ input t' = input t /\
  split_direction t' = split_direction t /\
  current_directory t' = current_directory t /\
  cmd_queue t' = cmd_queue t /\
  current_process t' = current_process t /\ cmd_state t' = cmd_state t.

(** ** Scrolling the history *)

Definition scroll_terminal_up (h : HistoryBuffer) : HistoryBuffer :=
  if hb_scroll_offset h <? hb_count h - 1
  then mkHistoryBuffer (hb_lines h) (hb_line_types h) (hb_timestamps h)
                       (hb_count h) (hb_capacity h) (int_wrap (hb_scroll_offset h + 1))
  else h.

Definition scroll_terminal_down (h : HistoryBuffer) : HistoryBuffer :=
  if hb_scroll_offset h >? 0
  then mkHistoryBuffer (hb_lines h) (hb_line_types h) (hb_timestamps h)
                       (hb_count h) (hb_capacity h) (int_wrap (hb_scroll_offset h - 1))
  else h.

Inductive scroll_op := ScrollUp | ScrollDown.

Definition apply_scroll (h : HistoryBuffer) (op : scroll_op) : HistoryBuffer :=
  match op with
  | ScrollUp => scroll_terminal_up h
  | ScrollDown => scroll_terminal_down h
  end.

(** Appending a list of (text, classification) pairs, the clock read
    anew for each. *)
Definition add_history_lines (lbe : Z) (stamps : nat -> Z) (buf : HistoryBuffer)
    (items : list (string * Z)) : HistoryBuffer :=
  (foldl (fun (st : HistoryBuffer * nat) (item : string * Z) =>
            (add_history_line lbe (stamps st.2) st.1 item.1 item.2, S st.2))
         (buf, O) items).1.

(** ** The command history of the input state *)

(** The commands kept in the command history, oldest first. *)
Definition recorded (i : InputState) : list (option string) :=
  take (Z.to_nat (cmd_history_count i)) (cmd_history i).

Record cmd_history_wf (i : InputState) : Prop := mk_cmd_history_wf {
  ch_count : 0 <= cmd_history_count i <= MAX_CMD_HISTORY;
  ch_cells : length (cmd_history i) = Z.to_nat MAX_CMD_HISTORY
}.

(** ** The input line

    [input_text] holds the bytes [input[0 .. input_len)], the line as
    typed; handle_input writes the terminator at [input_len] only when the
    line is submitted, and the bytes behind it are not tracked. *)

Definition ERR : Z := -1.
(* <ncurses.h> *)
Definition KEY_DOWN : Z := 258.
Definition KEY_UP : Z := 259.
Definition KEY_LEFT : Z := 260.
Definition KEY_RIGHT : Z := 261.
Definition KEY_HOME : Z := 262.
Definition KEY_BACKSPACE : Z := 263.
Definition KEY_DC : Z := 330.
Definition KEY_SF : Z := 336.
Definition KEY_SR : Z := 337.
Definition KEY_END : Z := 360.

Definition set_line (text : string) (cursor len : Z) (i : InputState) : InputState :=
  mkInputState text cursor len (display_start i) (cmd_history i)
               (cmd_history_count i) (cmd_history_pos i) (is_locked i).

Definition set_cursor_pos (v : Z) (i : InputState) : InputState :=
  mkInputState (input_text i) v (input_len i) (display_start i) (cmd_history i)
               (cmd_history_count i) (cmd_history_pos i) (is_locked i).

Definition set_display_start (v : Z) (i : InputState) : InputState :=
  mkInputState (input_text i) (cursor_pos i) (input_len i) v (cmd_history i)
               (cmd_history_count i) (cmd_history_pos i) (is_locked i).

Definition set_cmd_history_pos (v : Z) (i : InputState) : InputState :=
  mkInputState (input_text i) (cursor_pos i) (input_len i) (display_start i)
               (cmd_history i) (cmd_history_count i) v (is_locked i).

(** The default case: a printable character is put in at the cursor,
    the bytes from the cursor on moving one cell to the right. *)
Definition insert_char (ch : Z) (i : InputState) : InputState :=
  if (ch >=? 32) && (ch <=? 126) && (input_len i <? MAX_CMD_INPUT - 1) then
    let pos := Z.to_nat (cursor_pos i) in
    let text := (strncpy pos (input_text i)
                 ++ String (ascii_of_nat (Z.to_nat ch)) (string_drop pos (input_text i)))%string in
    set_line text (int_wrap (cursor_pos i + 1)) (int_wrap (input_len i + 1)) i
  else i.

(** KEY_BACKSPACE and 127: the bytes from the cursor on move one cell to
    the left, over the character before the cursor. *)
Definition backspace (i : InputState) : InputState :=
  if cursor_pos i >? 0 then
    let pos := Z.to_nat (cursor_pos i) in
    let text := (strncpy (pred pos) (input_text i) ++ string_drop pos (input_text i))%string in
    set_line text (int_wrap (cursor_pos i - 1)) (int_wrap (input_len i - 1)) i
  else i.

(** KEY_DC: the bytes behind the cursor move one cell to the left, over
    the character at the cursor. *)
Definition delete_char (i : InputState) : InputState :=
  if cursor_pos i <? input_len i then
    let pos := Z.to_nat (cursor_pos i) in
    let text := (strncpy pos (input_text i) ++ string_drop (S pos) (input_text i))%string in
    set_line text (cursor_pos i) (int_wrap (input_len i - 1)) i
  else i.

Definition cursor_left (i : InputState) : InputState :=
  if cursor_pos i >? 0 then set_cursor_pos (int_wrap (cursor_pos i - 1)) i else i.

Definition cursor_right (i : InputState) : InputState :=
  if cursor_pos i <? input_len i then set_cursor_pos (int_wrap (cursor_pos i + 1)) i else i.

Definition cursor_home (i : InputState) : InputState :=
  set_display_start 0 (set_cursor_pos 0 i).

Definition cursor_end (i : InputState) : InputState :=
  set_cursor_pos (input_len i) i.

(** [strcpy(input->input, input->cmd_history[pos]); input_len = strlen(..);
     cursor_pos = input_len;]  (a NULL entry is never reached: the
    position stays below the count). *)
Definition recall (pos : Z) (i : InputState) : InputState :=
  match cmd_history i !!! Z.to_nat pos with
  | Some s => set_line s (strlen s) (strlen s) (set_cmd_history_pos pos i)
  | None => set_cmd_history_pos pos i
  end.

(** KEY_SR *)
Definition history_prev (i : InputState) : InputState :=
  if cmd_history_pos i >? 0 then recall (int_wrap (cmd_history_pos i - 1)) i else i.

(** KEY_SF *)
Definition history_next (i : InputState) : InputState :=
  if cmd_history_pos i <? cmd_history_count i - 1 then
    recall (int_wrap (cmd_history_pos i + 1)) i
  else if cmd_history_pos i =? cmd_history_count i - 1 then
    set_line EmptyString 0 0 (set_cmd_history_pos (cmd_history_count i) i)
  else i.

(** What handle_input does to the input state once the line has been
    executed. *)
Definition reset_line (i : InputState) : InputState :=
  mkInputState EmptyString 0 0 0 (cmd_history i) (cmd_history_count i)
               (cmd_history_count i) (is_locked i).

(** The line and its cursor are consistent. *)
Record line_ok (i : InputState) : Prop := mk_line_ok {
  lo_cursor : 0 <= cursor_pos i <= input_len i;
  lo_len : input_len i = strlen (input_text i);
  lo_room : input_len i < MAX_CMD_INPUT
}.

Inductive edit_key :=
| KeyChar (ch : Z)
| KeyBackspace
| KeyDelete
| KeyLeft
| KeyRight
| KeyHome
| KeyEnd
| KeyShiftUp
| KeyShiftDown.

Definition apply_edit (i : InputState) (k : edit_key) : InputState :=
  match k with
  | KeyChar ch => insert_char ch i
  | KeyBackspace => backspace i
  | KeyDelete => delete_char i
  | KeyLeft => cursor_left i
  | KeyRight => cursor_right i
  | KeyHome => cursor_home i
  | KeyEnd => cursor_end i
  | KeyShiftUp => history_prev i
  | KeyShiftDown => history_next i
  end.

(** The input state as handle_input keeps it: a consistent line, and a
    command history whose recorded entries are strings that fit the line
    buffer. *)
Record editor_ok (i : InputState) : Prop := mk_editor_ok {
  eo_line : line_ok i;
  eo_history : cmd_history_wf i;
  eo_pos : -1 <= cmd_history_pos i <= cmd_history_count i;
  eo_entries : forall k, (k < Z.to_nat (cmd_history_count i))%nat ->
               exists s, cmd_history i !! k = Some (Some s) /\ strlen s < MAX_CMD_INPUT
}.

Definition printable (ch : Z) : Prop := 32 <= ch <= 126.

Fixpoint printable_string (s : string) : Prop :=
  match s with
  | EmptyString => True
  | String c rest => printable (Z.of_nat (nat_of_ascii c)) /\ printable_string rest
  end.

(** Typing the characters of [s], one key each. *)
Fixpoint type_string (s : string) (i : InputState) : InputState :=
  match s with
  | EmptyString => i
  | String c rest => type_string rest (insert_char (Z.of_nat (nat_of_ascii c)) i)
  end.

(** The part of draw_interface that writes [display_start] (terminal.c
    331-337 and 349-358), for an input line drawn with its cursor in
    [available_width] columns. *)
Definition scroll_input_window (available_width : Z) (i : InputState) : InputState :=
  if negb (is_locked i =? 0) then i
  else
    let i1 :=
      if input_len i <=? available_width then i
      else
        let d := if display_start i + available_width >? input_len i
                 then int_wrap (input_len i - available_width)
                 else display_start i in
        set_display_start (if d <? 0 then 0 else d) i in
    let cursor_display_pos := int_wrap (cursor_pos i1 - display_start i1) in
    if cursor_display_pos <? 0 then set_display_start (cursor_pos i1) i1
    else if cursor_display_pos >=? available_width
         then set_display_start (int_wrap (int_wrap (cursor_pos i1 - available_width) + 1)) i1
         else i1.

(** ** handle_input

    The keys that getch() returns are a list, ERR once it is used up.
    [input] and [history] are the active terminal's: main passes
    [&active->input] and [&active->history]. *)

Definition getch (keys : list Z) : Z * list Z :=
  match keys with
  | [] => (ERR, [])
  | k :: rest => (k, rest)
  end.

Definition switch_to_terminal (os : OS) (terminal_id : Z) (w : World) : World :=
  if (terminal_id >=? 0) && (terminal_id <? terminal_count (terminal_manager w))
  then switch_terminal os terminal_id w else w.

Definition split_terminal_horizontal (os : OS) (w : World) : World :=
  create_split_terminal os 0 w.

Definition split_terminal_vertical (os : OS) (w : World) : World :=
  create_split_terminal os 1 w.

Definition on_input (f : InputState -> InputState) (w : World) : World :=
  update_active (fun t => set_input (f (input t)) t) w.

Definition on_history (f : HistoryBuffer -> HistoryBuffer) (w : World) : World :=
  update_active (fun t => set_history (f (history t)) t) w.

(** [case 27]: the keys after ESC. *)
Definition handle_escape (os : OS) (keys : list Z) (w : World) : list Z * World :=
  let '(next_ch, keys) := getch keys in
  if next_ch =? -1 then (keys, w)
  else if (next_ch >=? 49) && (next_ch <=? 57)
       then (keys, switch_to_terminal os (next_ch - 49) w)
  else if (next_ch =? 61) || (next_ch =? 43) then (keys, next_terminal os w)
  else if next_ch =? 45 then (keys, prev_terminal os w)
  else if next_ch =? 91 then
    let '(next_ch, keys) := getch keys in
    if (next_ch =? 65) || (next_ch =? 66) || (next_ch =? 67) || (next_ch =? 68)
    then (keys, switch_split_pane os w) else (keys, w)
  else (keys, w).

(** [case '\n']: the line is terminated at [input_len] and, unless it is
    empty or [exit], executed; then the input state is reset. *)
Definition submit_line (os : OS) (w : World) : option (Z * World) :=
  let inp := input (get_active_terminal w) in
  if input_len inp >? 0 then
    let cmd := strncpy (Z.to_nat (input_len inp)) (input_text inp) in
    if strcmp_eq cmd "exit" then Some (1, w)
    else
      match execute_command os (enough_fuel w) cmd w with
      | Some w' => Some (0, on_input reset_line w')
      | None => None
      end
  else Some (0, w).

(** Returns the C result (1 when exit is requested), the keys left and
    the world. *)
Definition handle_input (os : OS) (keys : list Z) (w : World)
  : option (Z * list Z * World) :=
  let '(ch, keys) := getch keys in
  if negb (is_locked (input (get_active_terminal w)) =? 0) then
    if ch =? 20 then Some (0, keys, create_new_terminal os w)
    else if ch =? 23 then Some (0, keys, close_current_terminal os w)
    else if ch =? 27 then
      let '(keys, w) := handle_escape os keys w in Some (0, keys, w)
    else if ch =? KEY_UP then Some (0, keys, on_history scroll_terminal_up w)
    else if ch =? KEY_DOWN then Some (0, keys, on_history scroll_terminal_down w)
    else Some (0, keys, w)
  else
    if ch =? 20 then Some (0, keys, create_new_terminal os w)
    else if ch =? 23 then Some (0, keys, close_current_terminal os w)
    else if ch =? KEY_UP then Some (0, keys, on_history scroll_terminal_up w)
    else if ch =? KEY_DOWN then Some (0, keys, on_history scroll_terminal_down w)
    else if ch =? KEY_SR then Some (0, keys, on_input history_prev w)
    else if ch =? KEY_SF then Some (0, keys, on_input history_next w)
    else if ch =? 27 then
      let '(keys, w) := handle_escape os keys w in Some (0, keys, w)
    else if ch =? 10 then
      match submit_line os w with
      | Some (r, w') => Some (r, keys, w')
      | None => None
      end
    else if (ch =? KEY_BACKSPACE) || (ch =? 127) then Some (0, keys, on_input backspace w)
    else if ch =? KEY_LEFT then Some (0, keys, on_input cursor_left w)
    else if ch =? KEY_RIGHT then Some (0, keys, on_input cursor_right w)
    else if ch =? KEY_HOME then Some (0, keys, on_input cursor_home w)
    else if ch =? KEY_END then Some (0, keys, on_input cursor_end w)
    else if ch =? KEY_DC then Some (0, keys, on_input delete_char w)
    else Some (0, keys, on_input (insert_char ch) w).

(** The state main starts the loop in: the zeroed globals, then
    init_terminal_manager and the welcome message. *)
Definition boot (os : OS) (cwd : string) : World :=
  show_welcome_message os 0
    (init_terminal_manager (mkWorld (mkTerminalManager [] 0 0 0) 1 cwd 0 [] [])).

(** What the line shows at the position of the command history: the
    command recorded there, or nothing behind the newest one. *)
Definition shows (i : InputState) : Prop :=
  cursor_pos i = input_len i /\
  (cmd_history_pos i < cmd_history_count i ->
   cmd_history i !! Z.to_nat (cmd_history_pos i) = Some (Some (input_text i))) /\
  (cmd_history_pos i = cmd_history_count i -> input_text i = EmptyString).


(** ** Steps that stay in the active terminal *)

(** [t'] is the terminal [t] after more lines have been written to its
    history: the same tab with the same input state and queue, nothing of
    the history lost.  The directory and the process fields are left
    open. *)
Record tab_grows (t t' : Terminal) : Prop := mk_tab_grows {
  tg_id : term_id t' = term_id t;
  tg_split : split_with t' = split_with t;
  tg_direction : split_direction t' = split_direction t;
  tg_queue : cmd_queue t' = cmd_queue t;
  tg_input : input t' = input t;
  tg_history : history_wf (history t) ->
               history_wf (history t') /\
               hb_scroll_offset (history t') = hb_scroll_offset (history t) /\
               exists added, entries (history t') = entries (history t) ++ added
}.

(** The process fields are as they were, or those of a terminal whose
    command has been waited for. *)
Definition settles (t t' : Terminal) : Prop :=
  (cmd_state t' = cmd_state t /\ current_process t' = current_process t) \/
  (cmd_state t' = CMD_STATE_READY /\ current_process t' = 0).

Definition tab_runs (t t' : Terminal) : Prop := tab_grows t t' /\ settles t t'.

(** A step of the world that writes the cell of the active terminal only,
    relating its old and new content by [R], and leaves the manager's
    counters alone. *)
Record tab_step (R : Terminal -> Terminal -> Prop) (w w' : World) : Prop := mk_tab_step {
  ts_count : terminal_count (terminal_manager w') = terminal_count (terminal_manager w);
  ts_active : active_terminal (terminal_manager w') = active_terminal (terminal_manager w);
  ts_layout : split_layout (terminal_manager w') = split_layout (terminal_manager w);
  ts_lbe : line_break_enabled w' = line_break_enabled w;
  ts_cells : exists t', R (get_active_terminal w) t' /\
             terminals (terminal_manager w')
             = <[Z.to_nat (active_id w) := t']> (terminals (terminal_manager w))
}.

(** The terminal once execute_command has recorded [cmd] in its command
    history, or has found it there as the newest entry. *)
Definition tab_records (cmd : string) (t t' : Terminal) : Prop :=
  t' = t \/ t' = set_input (add_to_cmd_history (input t) cmd) t.

(** ** The states between two rounds of the control loop *)

(** A terminal at rest: no command running, nothing queued, the input
    unlocked, no split partner, and its buffers in order. *)
Record tab_idle (t : Terminal) : Prop := mk_tab_idle {
  ti_state : cmd_state t = CMD_STATE_READY;
  ti_process : current_process t = 0;
  ti_queue : cq_count (cmd_queue t) = 0;
  ti_unlocked : is_locked (input t) = 0;
  ti_split : split_with t = -1;
  ti_input : editor_ok (input t);
  ti_history : history_wf (history t)
}.

Record calm (w : World) : Prop := mk_calm {
  calm_count : 1 <= terminal_count (terminal_manager w) <= MAX_TERMINALS;
  calm_cells : length (terminals (terminal_manager w)) = Z.to_nat MAX_TERMINALS;
  calm_active : 0 <= active_terminal (terminal_manager w)
                < terminal_count (terminal_manager w);
  calm_ids : forall i, 0 <= i < terminal_count (terminal_manager w) ->
                       term_id (terminal_at i w) = i;
  calm_tabs : forall i, 0 <= i < terminal_count (terminal_manager w) ->
                        tab_idle (terminal_at i w)
}.

(** The history of a terminal that has just been opened. *)
Definition welcome_entries : list (string * Z) :=
  (fun l => (l, HISTORY_TYPE_RAW)) <$>
  ["Welcome to Parrot Terminal Version v6.0.0";
   "==========================================";
   "Type 'exit' to quit";
   "Shift+T: New terminal, Shift+W: Close terminal";
   "Alt+1-9: Switch terminals, Alt+/-: Next/Prev terminal";
   "Alt+Arrows: Switch between split panes";
   "Arrows: Scroll terminal history";
   "Shift+Up/Down: Command history";
   EmptyString]%string.

(** ** Characters of a string *)

Fixpoint mentions (c : ascii) (s : string) : bool :=
  match s with
  | EmptyString => false
  | String d rest => Ascii.eqb d c || mentions c rest
  end.

(** ** shorten_path

    The text shown for a directory in the tab of a terminal; [home] is
    the value of HOME. *)

Definition slash : ascii := "/"%char.

Fixpoint skip_slashes (s : string) : string :=
  match s with
  | String c rest => if Ascii.eqb c slash then skip_slashes rest else s
  | EmptyString => EmptyString
  end.

Fixpoint split_slash (s : string) : string * string :=
  match s with
  | EmptyString => (EmptyString, EmptyString)
  | String c rest =>
      if Ascii.eqb c slash then (EmptyString, rest)
      else let '(tok, after) := split_slash rest in (String c tok, after)
  end.

(** [token = strtok(path_copy, "/"); while (token != NULL ..) { ..; token = strtok(NULL, "/"); }]:
    the tokens, [fuel] bounding their number. *)
Fixpoint path_components (fuel : nat) (s : string) : list string :=
  match fuel with
  | O => []
  | S fuel' =>
      match skip_slashes s with
      | EmptyString => []
      | s' => let '(tok, after) := split_slash s' in
              tok :: path_components fuel' after
      end
  end.

(** [strncat(dst, src, n)] *)
Definition strncat (dst src : string) (n : nat) : string := (dst ++ strncpy n src)%string.

(** [output_size - strlen(output) - 1] *)
Definition room (output_size : nat) (output : string) : nat :=
  output_size - String.length output - 1.

Definition first_letter (component : string) : string :=
  match component with
  | String c _ => String c EmptyString
  | EmptyString => EmptyString
  end.

(** The last component as it is shown: cut to twelve characters and three
    dots when it is longer. *)
Definition shortened (component : string) : string :=
  if strlen component >? 12 then (strncpy 12 component ++ "...")%string else component.

(** [for (int i = 0; i < count; i++)] *)
Fixpoint shorten_loop (output_size : nat) (components : list string) (output : string)
  : string :=
  match components with
  | [] => output
  | c :: rest =>
      match rest with
      | [] => strncat output (shortened c) (room output_size output)
      | _ :: _ =>
          let output :=
            if strlen c >? 0 then
              let output := strncat output (first_letter c) (room output_size output) in
              strncat output "/" (room output_size output)
            else output in
          shorten_loop output_size rest output
      end
  end.

Definition shorten_path (home : option string) (path : string) (output_size : nat)
  : string :=
  if strlen path =? 0 then strncpy output_size path
  else
    let modified_path :=
      match home with
      | Some h =>
          if strncmp_eq path h
          then snprintf (Z.to_nat PATH_MAX) ("~" ++ string_drop (String.length h) path)
          else strncpy (Z.to_nat PATH_MAX) path
      | None => strncpy (Z.to_nat PATH_MAX) path
      end in
    let components :=
      take 63 (path_components (S (String.length modified_path)) modified_path) in
    let output := EmptyString in
    let output :=
      match modified_path with
      | String c _ => if Ascii.eqb c slash
                      then strncat output "/" (output_size - 1) else output
      | EmptyString => output
      end in
    shorten_loop output_size components output.

(** A path written from its components, and what a tab shows for it. *)
Definition component (c : string) : Prop := c <> EmptyString /\ mentions slash c = false.

Fixpoint rel_path (cs : list string) : string :=
  match cs with
  | [] => EmptyString
  | c :: rest =>
      match rest with
      | [] => c
      | _ :: _ => (c ++ String slash (rel_path rest))%string
      end
  end.

Fixpoint initials_then_last (cs : list string) : string :=
  match cs with
  | [] => EmptyString
  | c :: rest =>
      match rest with
      | [] => shortened c
      | _ :: _ => (first_letter c ++ String slash (initials_then_last rest))%string
      end
  end.

(** ** The labels of the tabs

    draw_terminal_tabs, as far as it computes what is shown: the span of
    a tab on a screen of [max_x] columns and the text put into it. *)

Definition tab_width (max_x count : Z) : Z :=
  let w := Z.quot max_x count in
  if w <? 15 then 15 else w.

(** [start_x] and [width] of tab [i]; [None] once the loop has left at
    [break]. *)
Definition tab_span (max_x count i : Z) : option (Z * Z) :=
  let start_x := int_wrap (i * tab_width max_x count) in
  if start_x >=? max_x then None
  else Some (start_x,
             if i =? int_wrap (count - 1) then int_wrap (max_x - start_x)
             else tab_width max_x count).

(** [snprintf(tab_text, sizeof(tab_text), " [%d] %s ", i + 1, dir_buf)] *)
Definition tab_text (home : option string) (i : Z) (t : Terminal) : string :=
  let dir_buf := shorten_path home (current_directory t) (Z.to_nat PATH_MAX) in
  snprintf 128 (" [" ++ fmt_d (int_wrap (i + 1)) ++ "] " ++ dir_buf ++ " ").

(** The truncation of the text of a tab (terminal.c 906-913).  The dots
    are written from index [width - 7] on; [None] when that index lies
    before the buffer. *)
Definition cut_tab_text (width : Z) (text : string) : option string :=
  if strlen text >? width - 4 then
    if width - 7 <? 0 then None
    else Some (strncpy (Z.to_nat (width - 7)) text ++ "... ")%string
  else Some text.

(** What execute_command reports when the command cannot be started. *)
Definition start_failure (os : OS) (r : run_result) : option string :=
  match r with
  | PipeFailed errno =>
      Some (snprintf 128 ("Failed to create pipe: " ++ os_strerror os errno))
  | ForkFailed errno =>
      Some (snprintf 128 ("Failed to fork process: " ++ os_strerror os errno))
  | Spawned _ _ _ _ => None
  end.

(** A system that has run out of processes: fork() fails with EAGAIN. *)
Definition exhausted_os : OS :=
  mkOS (os_time sample_os) (os_clock sample_os) (os_home sample_os)
       (os_chdir sample_os)
       (fun _ => "Resource temporarily unavailable"%string)
       (os_system sample_os)
       (fun _ _ => ForkFailed 11).

(** What [manual] adds to the history. *)
Definition manual_entries : list (string * Z) :=
  (fun l => (l, HISTORY_TYPE_RAW)) <$>
  ["Parrot Terminal Usage:";
   "======================";
   "Shift+T: Create new terminal";
   "Shift+W: Close current terminal";
   "Alt+1-9: Switch to terminal 1-9";
   "Alt+/-: Switch to next/previous terminal";
   "Alt+Arrows: Switch between split panes";
   "Arrow Keys: Scroll terminal history";
   "Shift+Up/Down: Navigate command history";
   "Type 'stop' to interrupt running command";
   "Type 'exit' to quit";
   "Note: Commands queue automatically when another is running";
   "Queue size: 10 commands max"]%string.

(** ** Lines with colour and style sequences

    The specification's reading of a line of output: text in which
    colour/style sequences (ESC, an opening bracket, parameters of digits
    and semicolons, the letter m) are embedded.  [styled_line] is the line
    as the child writes it, [without_styles] the line with the sequences
    taken out. *)

Inductive piece :=
| Text (s : string)
| Style (params : string).










(** ** The steps of the main loop

    [loop_step os w w']: one of the calls the loop of main makes has been
    made in [w] and has returned, leaving [w'].  The calls are the part of
    draw_interface that writes [display_start], on a display that has at
    least one column for the input line; handle_input, whatever keys
    arrive; and process_command_queue.  What else drawing does is not
    part of the state, and a call that does not return makes no step. *)
Inductive loop_step (os : OS) : World -> World -> Prop :=
| step_draw (width : Z) (w : World) :
    1 <= width ->
    loop_step os w (on_input (scroll_input_window width) w)
| step_input (keys : list Z) (r : Z) (keys' : list Z) (w w' : World) :
    handle_input os keys w = Some (r, keys', w') ->
    loop_step os w w'
| step_queue (fuel : nat) (w w' : World) :
    process_command_queue os fuel w = Some w' ->
    loop_step os w w'.

Inductive loop_steps (os : OS) : World -> World -> Prop :=
| steps_none (w : World) : loop_steps os w w
| steps_more (w w1 w2 : World) :
    loop_step os w w1 -> loop_steps os w1 w2 -> loop_steps os w w2.

(** * Properties *)

(** ** Arithmetic and string helpers *)

Lemma int_wrap_small z : - 2 ^ 31 <= z < 2 ^ 31 -> int_wrap z = z.
Proof.
  intros Hz. unfold int_wrap.
  rewrite Z.mod_small by lia. lia.
Qed.

Lemma strncpy_length n s :
  String.length (strncpy n s) = Nat.min n (String.length s).
Proof.
  revert s. induction n as [|n IH]; intros [|c s]; simpl; auto.
Qed.

Lemma strncpy_fits n s : (String.length s <= n)%nat -> strncpy n s = s.
Proof.
  revert s. induction n as [|n IH]; intros [|c s]; simpl; intros Hl;
    try reflexivity; try lia.
  f_equal. apply IH. lia.
Qed.

Lemma strncpy_prefix n s : String.prefix (strncpy n s) s = true.
Proof.
  revert s. induction n as [|n IH]; intros [|c s]; simpl; auto.
  destruct (Ascii.ascii_dec c c); [apply IH | congruence].
Qed.

Lemma strncpy_substring n s : strncpy n s = String.substring 0 n s.
Proof.
  revert s. induction n as [|n IH]; intros [|c s]; simpl; try reflexivity.
  f_equal. apply IH.
Qed.

#[local] Arguments strncpy : simpl never.

Lemma rem_succ_mod a :
  0 <= a -> Z.rem (a `mod` 10 + 1) 10 = (a + 1) `mod` 10.
Proof.
  intros Ha.
  assert (0 <= a `mod` 10 < 10) by (apply Z.mod_pos_bound; lia).
  rewrite Z.rem_mod_nonneg by lia.
  rewrite Zplus_mod_idemp_l. reflexivity.
Qed.

Lemma mod10_cases x :
  0 <= x < 20 -> x `mod` 10 = if x <? 10 then x else x - 10.
Proof.
  intros Hx. destruct (Z.ltb_spec x 10).
  - apply Z.mod_small. lia.
  - symmetry. apply (Z.mod_unique_pos x 10 1 (x - 10)); lia.
Qed.

(** ** The queue invariant *)

Lemma init_command_queue_inv q : queue_inv (init_command_queue q).
Proof. split; simpl; unfold COMMAND_QUEUE_SIZE; try lia; reflexivity. Qed.

Lemma add_to_queue_inv q cmd :
  queue_inv q -> queue_inv (add_to_queue q cmd).2.
Proof.
  intros [Hc Hh Ht Hs]. unfold add_to_queue, is_queue_full, COMMAND_QUEUE_SIZE in *.
  destruct (Z.geb_spec (cq_count q) 10) as [Hfull|Hroom]; simpl.
  - assert (cq_count q = 10) as Hten by lia.
    split; simpl; unfold COMMAND_QUEUE_SIZE; try lia; try assumption.
    rewrite Hten. reflexivity.
  - assert (0 <= cq_tail q < 10) as Htb
        by (rewrite Ht; apply Z.mod_pos_bound; lia).
    rewrite !int_wrap_small by lia.
    split; simpl; unfold COMMAND_QUEUE_SIZE; try lia.
    + rewrite Ht, rem_succ_mod by lia. f_equal. lia.
    + destruct (Z.geb_spec (cq_count q + 1) 10), (Z.eqb_spec (cq_count q + 1) 10);
        try reflexivity; lia.
Qed.

Lemma get_from_queue_inv q :
  queue_inv q -> queue_inv (get_from_queue q).2.
Proof.
  intros [Hc Hh Ht Hs]. unfold get_from_queue, is_queue_empty, COMMAND_QUEUE_SIZE in *.
  destruct (Z.eqb_spec (cq_count q) 0) as [Hz|Hnz]; simpl.
  - split; assumption.
  - rewrite !int_wrap_small by lia.
    split; simpl; unfold COMMAND_QUEUE_SIZE; try lia.
    + rewrite Z.rem_mod_nonneg by lia.
      split; [apply Z.mod_pos_bound; lia|apply Z.mod_pos_bound; lia].
    + rewrite Ht, Z.rem_mod_nonneg by lia.
      rewrite Zplus_mod_idemp_l. f_equal. lia.
    + destruct (Z.geb_spec (cq_count q - 1) 10), (Z.eqb_spec (cq_count q - 1) 10);
        try reflexivity; lia.
Qed.

Lemma apply_op_inv q op : queue_inv q -> queue_inv (apply_op q op).
Proof.
  destruct op; simpl; [apply add_to_queue_inv | apply get_from_queue_inv].
Qed.

Lemma run_ops_inv ops : forall q, queue_inv q -> queue_inv (run_ops q ops).
Proof.
  unfold run_ops.
  induction ops as [|op ops IH]; intros q Hq; simpl; [assumption|].
  apply IH, apply_op_inv, Hq.
Qed.

(** C1. Whatever enqueues and dequeues are applied to an initialized
    command queue, its count stays within 0..10 and its state is
    QUEUE_FULL exactly when the count is 10. *)
Theorem queue_count_bounded_state_full_iff (q0 : CommandQueue) (ops : list queue_op) :
  let q := run_ops (init_command_queue q0) ops in
  0 <= cq_count q <= 10 /\ (cq_state q = QUEUE_FULL <-> cq_count q = 10).
Proof.
  intros q.
  destruct (run_ops_inv ops _ (init_command_queue_inv q0)) as [Hc _ _ Hs].
  fold q in Hc, Hs. unfold COMMAND_QUEUE_SIZE, QUEUE_FULL, QUEUE_NORMAL in *.
  split; [exact Hc|].
  rewrite Hs. destruct (Z.eqb_spec (cq_count q) 10); split; intros; lia.
Qed.

(** ** FIFO behaviour of the queue *)

Lemma pending_length q : length (pending q) = Z.to_nat (cq_count q).
Proof. unfold pending. rewrite length_fmap, length_seq. reflexivity. Qed.

Lemma add_to_queue_full q cmd :
  queue_inv q -> cq_count q = 10 -> add_to_queue q cmd = (0, q).
Proof.
  intros [Hc Hh Ht Hs] Hten. unfold add_to_queue, is_queue_full, COMMAND_QUEUE_SIZE in *.
  rewrite Hten in *. simpl. f_equal.
  destruct q as [cs c h t s]; simpl in *. unfold set_cq_state; simpl.
  rewrite Hs. reflexivity.
Qed.

Lemma add_to_queue_room q cmd :
  queue_wf q -> cq_count q < 10 ->
  (add_to_queue q cmd).1 = 1 /\
  cq_count (add_to_queue q cmd).2 = cq_count q + 1 /\
  queue_wf (add_to_queue q cmd).2 /\
  pending (add_to_queue q cmd).2 = pending q ++ [strncpy 511 cmd].
Proof.
  intros Hwf Hroom.
  pose proof (add_to_queue_inv q cmd (qw_inv q Hwf)) as Hinv'.
  destruct Hwf as [[Hc Hh Ht Hs] Hlen Hterm].
  unfold add_to_queue, is_queue_full, COMMAND_QUEUE_SIZE, MAX_CMD_INPUT in *.
  destruct (Z.geb_spec (cq_count q) 10) as [Hfull|_]; [lia|].
  assert (0 <= cq_tail q < 10) as Htb
      by (rewrite Ht; apply Z.mod_pos_bound; lia).
  rewrite !int_wrap_small in * by lia. simpl in *.
  split; [reflexivity|]. split; [reflexivity|]. split.
  - split; simpl; [exact Hinv'| rewrite length_insert; exact Hlen |].
    apply Forall_insert; [exact Hterm|]. cbv beta.
    rewrite strncpy_length. unfold MAX_CMD_INPUT. lia.
  - unfold pending; simpl. unfold COMMAND_QUEUE_SIZE.
    replace (Z.to_nat (cq_count q + 1)) with (S (Z.to_nat (cq_count q))) by lia.
    rewrite seq_S, fmap_app. simpl. f_equal.
    + apply list_fmap_ext. intros i k Hk.
      apply lookup_seq in Hk as [-> Hlt]. simpl.
      apply list_lookup_total_insert_ne.
      rewrite Ht.
      rewrite (mod10_cases (cq_head q + cq_count q)) by lia.
      rewrite (mod10_cases (cq_head q + Z.of_nat i)) by lia.
      destruct (Z.ltb_spec (cq_head q + cq_count q) 10),
               (Z.ltb_spec (cq_head q + Z.of_nat i) 10); lia.
    + f_equal. rewrite Z2Nat.id by lia.
      rewrite <- Ht. apply list_lookup_total_insert_eq. lia.
Qed.

Lemma get_from_queue_empty q : cq_count q = 0 -> get_from_queue q = (None, q).
Proof. intros H. unfold get_from_queue, is_queue_empty. rewrite H. reflexivity. Qed.

Lemma get_from_queue_some q :
  queue_wf q -> cq_count q <> 0 ->
  exists c, (get_from_queue q).1 = Some c /\
            cq_count (get_from_queue q).2 = cq_count q - 1 /\
            cq_state (get_from_queue q).2 = QUEUE_NORMAL /\
            queue_wf (get_from_queue q).2 /\
            pending q = c :: pending (get_from_queue q).2.
Proof.
  intros Hwf Hnz.
  pose proof (get_from_queue_inv q (qw_inv q Hwf)) as Hinv'.
  destruct Hwf as [[Hc Hh Ht Hs] Hlen Hterm].
  unfold get_from_queue, is_queue_empty, COMMAND_QUEUE_SIZE, MAX_CMD_INPUT in *.
  destruct (Z.eqb_spec (cq_count q) 0) as [Hz|_]; [lia|].
  rewrite !int_wrap_small in * by lia. simpl in *.
  exists (cq_commands q !!! Z.to_nat (cq_head q)).
  assert (strncpy (Z.to_nat (512 - 1)) (cq_commands q !!! Z.to_nat (cq_head q))
          = cq_commands q !!! Z.to_nat (cq_head q)) as Hcopy.
  { apply strncpy_fits.
    assert (Z.to_nat (cq_head q) < length (cq_commands q))%nat as Hlt by lia.
    destruct (lookup_lt_is_Some_2 _ _ Hlt) as [s Hs'].
    rewrite (list_lookup_total_correct _ _ _ Hs').
    pose proof (Forall_lookup_1 _ _ _ _ Hterm Hs') as Hb. simpl in Hb. lia. }
  rewrite Hcopy.
  split; [reflexivity|]. split; [reflexivity|]. split.
  { unfold COMMAND_QUEUE_SIZE.
    destruct (Z.geb_spec (cq_count q - 1) 10); [lia|reflexivity]. }
  split.
  - split; simpl; [exact Hinv'|exact Hlen|exact Hterm].
  - unfold pending; simpl. unfold COMMAND_QUEUE_SIZE.
    replace (Z.to_nat (cq_count q)) with (S (Z.to_nat (cq_count q - 1))) by lia.
    rewrite <- cons_seq. simpl. f_equal.
    + rewrite Z.add_0_r, Z.mod_small by lia. reflexivity.
    + rewrite <- fmap_S_seq, <- list_fmap_compose.
      apply list_fmap_ext. intros i k _. simpl.
      rewrite Z.rem_mod_nonneg by lia.
      rewrite Zplus_mod_idemp_l.
      replace (cq_head q + Z.of_nat (S k)) with (cq_head q + 1 + Z.of_nat k) by lia.
      reflexivity.
Qed.

Lemma apply_op_out_grows q outs op :
  queue_wf q ->
  queue_wf (apply_op_out (q, outs) op).1 /\
  exists extra,
    (apply_op_out (q, outs) op).2 ++ pending (apply_op_out (q, outs) op).1
    = outs ++ pending q ++ extra.
Proof.
  intros Hwf. destruct op as [cmd|]; simpl.
  - destruct (Z.eq_dec (cq_count q) 10) as [Hten|Hne].
    + rewrite (add_to_queue_full q cmd (qw_inv q Hwf) Hten). simpl.
      split; [exact Hwf|]. exists []. rewrite app_nil_r. reflexivity.
    + pose proof (qi_count q (qw_inv q Hwf)) as Hc. unfold COMMAND_QUEUE_SIZE in Hc.
      destruct (add_to_queue_room q cmd Hwf) as (_ & _ & Hwf' & Hp); [lia|].
      split; [exact Hwf'|]. eexists. rewrite Hp. reflexivity.
  - destruct (Z.eq_dec (cq_count q) 0) as [Hz|Hnz].
    + rewrite (get_from_queue_empty q Hz). simpl.
      split; [exact Hwf|]. exists []. rewrite app_nil_r. reflexivity.
    + destruct (get_from_queue_some q Hwf Hnz) as (c & Hr & _ & _ & Hwf' & Hp).
      destruct (get_from_queue q) as [r q']. simpl in *. subst r. simpl.
      split; [exact Hwf'|]. exists []. rewrite Hp, app_nil_r, <- app_assoc.
      reflexivity.
Qed.

Lemma run_ops_out_grows ops : forall q outs,
  queue_wf q ->
  queue_wf (foldl apply_op_out (q, outs) ops).1 /\
  exists extra,
    (foldl apply_op_out (q, outs) ops).2 ++ pending (foldl apply_op_out (q, outs) ops).1
    = outs ++ pending q ++ extra.
Proof.
  induction ops as [|op ops IH]; intros q outs Hwf; simpl.
  - split; [exact Hwf|]. exists []. rewrite app_nil_r. reflexivity.
  - destruct (apply_op_out_grows q outs op Hwf) as [Hwf1 [e1 He1]].
    destruct (apply_op_out (q, outs) op) as [q1 o1]. simpl in *.
    destruct (IH q1 o1 Hwf1) as [Hwf2 [e2 He2]].
    split; [exact Hwf2|]. exists (e1 ++ e2).
    rewrite He2, app_assoc, He1, <- !app_assoc. reflexivity.
Qed.

(** C10. A command of fewer than 512 characters that is accepted by a
    queue holding k < 10 commands comes back unchanged from the (k+1)-th
    successful dequeue that follows, whatever other operations are
    interleaved; a command of 512 or more characters is accepted as well,
    and what comes back is its first 511 characters. *)
Theorem enqueue_dequeue_fifo_roundtrip (q : CommandQueue) (cmd : string) :
  queue_wf q -> cq_count q < COMMAND_QUEUE_SIZE ->
  (add_to_queue q cmd).1 = 1 /\
  (forall ops, (Z.to_nat (cq_count q) < length (run_ops_out (add_to_queue q cmd).2 ops).2)%nat ->
     (run_ops_out (add_to_queue q cmd).2 ops).2 !! Z.to_nat (cq_count q)
     = Some (strncpy 511 cmd)) /\
  (strlen cmd < 512 -> strncpy 511 cmd = cmd) /\
  (512 <= strlen cmd ->
     strncpy 511 cmd = String.substring 0 511 cmd /\
     strlen (strncpy 511 cmd) = 511).
Proof.
  intros Hwf Hroom. unfold COMMAND_QUEUE_SIZE in Hroom.
  destruct (add_to_queue_room q cmd Hwf Hroom) as (Hr & _ & Hwf1 & Hp).
  split; [exact Hr|]. split; [|split].
  - intros ops Hlt. unfold run_ops_out in *.
    destruct (run_ops_out_grows ops _ [] Hwf1) as [_ [extra He]].
    rewrite Hp in He. simpl in He.
    rewrite <- (lookup_app_l _ (pending (foldl apply_op_out ((add_to_queue q cmd).2, []) ops).1))
      by exact Hlt.
    rewrite He, <- app_assoc. apply list_lookup_middle.
    rewrite pending_length. reflexivity.
  - unfold strlen. intros Hl. apply strncpy_fits. lia.
  - unfold strlen. intros Hl. split.
    + apply strncpy_substring.
    + rewrite strncpy_length. lia.
Qed.

Lemma enqueue_dequeue_fifo_roundtrip_witness :
  (run_ops_out (add_to_queue (init_command_queue (mkCommandQueue (replicate 10 EmptyString) 0 0 0 0)) "ls -la").2
               [Enqueue "pwd"; Dequeue; Dequeue]).2 !! 0%nat
  = Some (strncpy 511 "ls -la").
Proof.
  refine (proj1 (proj2 (enqueue_dequeue_fifo_roundtrip
            (init_command_queue (mkCommandQueue (replicate 10 EmptyString) 0 0 0 0))
            "ls -la" _ _)) [Enqueue "pwd"; Dequeue; Dequeue] _).
  - split; [apply init_command_queue_inv | reflexivity |].
    vm_compute. repeat constructor.
  - reflexivity.
  - vm_compute. lia.
Defined.

(** ** The history buffer *)

Lemma realloc_length {A} (d : A) (a : list A) n :
  (length a <= Z.to_nat n)%nat -> length (realloc d a n) = Z.to_nat n.
Proof.
  intros H. unfold realloc.
  rewrite length_app, length_take, length_replicate. lia.
Qed.

Lemma zip_insert {A B} (l : list A) (k : list B) i x y :
  zip (<[i:=x]> l) (<[i:=y]> k) = <[i:=(x, y)]> (zip l k).
Proof.
  revert k i. induction l as [|a l IH]; intros [|b k] [|i]; simpl; try reflexivity.
  f_equal. apply IH.
Qed.

Lemma take_insert_snoc {A} (l : list A) i x :
  (i < length l)%nat -> take (S i) (<[i:=x]> l) = take i l ++ [x].
Proof.
  revert i. induction l as [|a l IH]; intros [|i] Hl; simpl in *; try lia.
  - rewrite take_0. reflexivity.
  - f_equal. apply IH. lia.
Qed.

Lemma add_history_line_entries lbe now buf text ty :
  history_wf buf ->
  history_wf (add_history_line lbe now buf text ty) /\
  entries (add_history_line lbe now buf text ty)
  = entries buf ++ [(stored_text lbe text, ty)].
Proof.
  intros [Hc Hcap Hl Ht Hs]. unfold add_history_line, entries, stored_text.
  destruct (Z.geb_spec (hb_count buf) (hb_capacity buf)) as [Hfull|Hroom]; simpl.
  - assert (hb_count buf = hb_capacity buf) as Heq by lia.
    split.
    + split; simpl; rewrite ?length_insert, ?realloc_length; lia.
    + replace (Z.to_nat (hb_count buf + 1)) with (S (Z.to_nat (hb_count buf))) by lia.
      rewrite zip_insert, take_insert_snoc.
      * f_equal. unfold realloc.
        rewrite (take_ge (hb_lines buf)), (take_ge (hb_line_types buf)) by lia.
        rewrite zip_with_app by lia.
        rewrite take_app_le; [reflexivity|].
        rewrite length_zip_with. lia.
      * rewrite length_zip_with, !realloc_length; lia.
  - split.
    + split; simpl; rewrite ?length_insert; lia.
    + replace (Z.to_nat (hb_count buf + 1)) with (S (Z.to_nat (hb_count buf))) by lia.
      rewrite zip_insert, take_insert_snoc; [reflexivity|].
      rewrite length_zip_with. lia.
Qed.

Lemma init_history_buffer_wf : history_wf init_history_buffer.
Proof. split; simpl; unfold malloc; rewrite ?length_replicate; lia. Qed.

(** ** The active terminal under the world's primitives *)

Lemma terminal_at_update_eq i f w :
  (Z.to_nat i < length (terminals (terminal_manager w)))%nat ->
  terminal_at i (update_terminal i f w) = f (terminal_at i w).
Proof.
  intros Hi. unfold terminal_at, update_terminal. simpl.
  apply list_lookup_total_insert_eq. exact Hi.
Qed.

Lemma terminal_at_update_ne i j f w :
  Z.to_nat i <> Z.to_nat j ->
  terminal_at j (update_terminal i f w) = terminal_at j w.
Proof.
  intros Hij. unfold terminal_at, update_terminal. simpl.
  apply list_lookup_total_insert_ne. exact Hij.
Qed.

Lemma get_active_update_active f w :
  active_ok w -> get_active_terminal (update_active f w) = f (get_active_terminal w).
Proof.
  intros [_ Hlt]. unfold get_active_terminal, update_active.
  change (active_id (update_terminal (active_id w) f w)) with (active_id w).
  apply terminal_at_update_eq. exact Hlt.
Qed.

Lemma active_ok_update_active f w : active_ok w -> active_ok (update_active f w).
Proof.
  intros [H0 Hlt]. split; [exact H0|].
  unfold update_active, update_terminal, active_id in *. simpl.
  rewrite length_insert. exact Hlt.
Qed.

Lemma log_line_unfold os text ty w :
  log_line os text ty w =
  tick (update_active
          (fun t => set_history
                      (add_history_line (line_break_enabled w) (os_time os (os_tick w))
                                        (history t) text ty) t) w).
Proof. reflexivity. Qed.

Lemma get_active_log_line os text ty w :
  active_ok w ->
  get_active_terminal (log_line os text ty w) =
  set_history (add_history_line (line_break_enabled w) (os_time os (os_tick w))
                                (history (get_active_terminal w)) text ty)
              (get_active_terminal w).
Proof.
  intros Hok. rewrite log_line_unfold.
  change (get_active_terminal (tick ?x)) with (get_active_terminal x).
  rewrite get_active_update_active by exact Hok. reflexivity.
Qed.

Lemma active_ok_log_line os text ty w : active_ok w -> active_ok (log_line os text ty w).
Proof. intros H. apply (active_ok_update_active _ w H). Qed.

Lemma session_ok_log_line os text ty w :
  session_ok w ->
  session_ok (log_line os text ty w) /\
  active_entries (log_line os text ty w)
  = active_entries w ++ [(stored_text (line_break_enabled w) text, ty)].
Proof.
  intros [Ha Hh Hq]. unfold active_entries.
  pose proof (add_history_line_entries (line_break_enabled w) (os_time os (os_tick w))
                _ text ty Hh) as [Hwf He].
  split.
  - split; [apply active_ok_log_line, Ha| |]; rewrite get_active_log_line by exact Ha;
      simpl; assumption.
  - rewrite get_active_log_line by exact Ha. simpl. exact He.
Qed.

(** ** Worlds that share their terminals *)

Lemma session_ok_same_manager w w' :
  terminal_manager w' = terminal_manager w -> session_ok w -> session_ok w'.
Proof.
  intros Hm [[H0 Hlt] Hh Hq].
  unfold get_active_terminal, terminal_at, active_id in *.
  split; [split|..];
    unfold get_active_terminal, terminal_at, active_id; rewrite Hm; assumption.
Qed.

Lemma session_ok_update_active f w :
  session_ok w ->
  history_wf (history (f (get_active_terminal w))) ->
  queue_wf (cmd_queue (f (get_active_terminal w))) ->
  session_ok (update_active f w).
Proof.
  intros [Ha Hh Hq] Hh' Hq'.
  split; [apply active_ok_update_active, Ha|..];
    rewrite get_active_update_active by exact Ha; assumption.
Qed.

Lemma sample_world_ok : session_ok sample_world.
Proof.
  split.
  - split; [vm_compute; discriminate | vm_compute; lia].
  - apply init_history_buffer_wf.
  - split.
    + apply init_command_queue_inv.
    + reflexivity.
    + vm_compute. repeat constructor; lia.
Qed.

Lemma collapse_no_newline_literal lbe text :
  collapse_line_breaks text = text -> stored_text lbe text = text.
Proof. intros H. unfold stored_text. destruct (lbe =? 0); [exact H|reflexivity]. Qed.

(** ** Appending to the history *)

Lemma collapse_line_breaks_length text :
  String.length (collapse_line_breaks text) = String.length text.
Proof. induction text as [|c s IH]; simpl; [reflexivity|]. rewrite IH. reflexivity. Qed.

Lemma collapse_line_breaks_get text i :
  String.get i (collapse_line_breaks text)
  = (fun c => if Ascii.eqb c newline then space else c) <$> String.get i text.
Proof.
  revert i. induction text as [|c s IH]; intros i; simpl; [reflexivity|].
  destruct i as [|i]; [reflexivity|]. apply IH.
Qed.

(** C9. With line_break_enabled off, the entry that add_history_line
    appends holds the text with each newline replaced by a space and every
    other character in place (so "a\nb" is stored as "a b"); with the
    setting on it holds the text itself; in both cases the classification
    is stored as given and the earlier entries stay. *)
Theorem add_history_line_collapses_line_breaks
    (lbe now : Z) (buf : HistoryBuffer) (text : string) (ty : Z) :
  history_wf buf ->
  exists stored,
    entries (add_history_line lbe now buf text ty) = entries buf ++ [(stored, ty)] /\
    (lbe = 0 ->
       String.length stored = String.length text /\
       (forall i, String.get i stored
                  = (fun c => if Ascii.eqb c newline then space else c)
                      <$> String.get i text) /\
       (text = ("a" ++ LF ++ "b")%string -> stored = "a b"%string)) /\
    (lbe <> 0 -> stored = text).
Proof.
  intros Hwf. exists (stored_text lbe text).
  split; [apply add_history_line_entries, Hwf|].
  unfold stored_text. split.
  - intros ->. simpl. split; [apply collapse_line_breaks_length|].
    split; [apply collapse_line_breaks_get|].
    intros ->. reflexivity.
  - intros Hne. destruct (Z.eqb_spec lbe 0); [contradiction|reflexivity].
Qed.

Lemma add_history_line_collapses_line_breaks_witness :
  exists stored,
    entries (add_history_line 0 1700000000 init_history_buffer
                              ("a" ++ LF ++ "b")%string HISTORY_TYPE_COMMAND)
    = entries init_history_buffer ++ [(stored, HISTORY_TYPE_COMMAND)] /\
    stored = "a b"%string.
Proof.
  destruct (add_history_line_collapses_line_breaks 0 1700000000 init_history_buffer
              ("a" ++ LF ++ "b")%string HISTORY_TYPE_COMMAND init_history_buffer_wf)
    as [stored [He [H0 _]]].
  exists stored. split; [exact He|].
  destruct (H0 eq_refl) as (_ & _ & Hab). apply Hab. reflexivity.
Defined.

(** ** stop *)

Lemma session_ok_kill pid sig w : session_ok w -> session_ok (kill pid sig w).
Proof. apply session_ok_same_manager. reflexivity. Qed.

Lemma session_ok_tick w : session_ok w -> session_ok (tick w).
Proof. apply session_ok_same_manager. reflexivity. Qed.

Lemma session_ok_child_started cmd w : session_ok w -> session_ok (child_started cmd w).
Proof. apply session_ok_same_manager. reflexivity. Qed.

Lemma classic_running w :
  (cmd_state (get_active_terminal w) = CMD_STATE_RUNNING /\
   0 < current_process (get_active_terminal w)) \/
  ~ (cmd_state (get_active_terminal w) = CMD_STATE_RUNNING /\
     0 < current_process (get_active_terminal w)).
Proof.
  destruct (Z.eq_dec (cmd_state (get_active_terminal w)) CMD_STATE_RUNNING);
    destruct (Z_lt_dec 0 (current_process (get_active_terminal w)));
    [left; split; assumption | right; intros [? ?]; contradiction ..].
Qed.

Lemma stop_running os w :
  session_ok w ->
  cmd_state (get_active_terminal w) = CMD_STATE_RUNNING ->
  0 < current_process (get_active_terminal w) ->
  let w' := stop_current_command os w in
  session_ok w' /\
  os_signals w' = os_signals w ++ [(current_process (get_active_terminal w), SIGINT)] /\
  os_children w' = os_children w /\
  active_entries w' =
    active_entries w ++ [("Command interrupted (SIGINT sent)"%string, HISTORY_TYPE_NORMAL)] /\
  cmd_state (get_active_terminal w') = CMD_STATE_READY /\
  current_process (get_active_terminal w') = 0 /\
  cmd_queue (get_active_terminal w') = cmd_queue (get_active_terminal w) /\
  input (get_active_terminal w') = input (get_active_terminal w).
Proof.
  intros Hok Hrun Hpid. unfold stop_current_command.
  rewrite Hrun. simpl.
  destruct (Z.gtb_spec (current_process (get_active_terminal w)) 0) as [_|]; [|lia].
  set (w1 := kill _ _ w).
  assert (session_ok w1) as Hok1 by (apply session_ok_kill, Hok).
  destruct (session_ok_log_line os "Command interrupted (SIGINT sent)"
              HISTORY_TYPE_NORMAL w1 Hok1) as [Hok2 He].
  set (w2 := log_line _ _ _ w1) in *.
  pose proof (so_active _ Hok2) as Ha2.
  pose proof (get_active_log_line os "Command interrupted (SIGINT sent)"
                HISTORY_TYPE_NORMAL w1 (so_active _ Hok1)) as Hact. fold w2 in Hact.
  assert (get_active_terminal
            (update_active (fun t => set_current_process 0 (set_cmd_state CMD_STATE_READY t)) w2)
          = set_current_process 0 (set_cmd_state CMD_STATE_READY (get_active_terminal w2)))
    as Hfin by (apply get_active_update_active, Ha2).
  split.
  { apply session_ok_update_active; [exact Hok2|apply Hok2|apply Hok2]. }
  split; [reflexivity|]. split; [reflexivity|].
  unfold active_entries in *. rewrite Hfin. simpl.
  split.
  { rewrite He. f_equal. f_equal. f_equal.
    apply collapse_no_newline_literal. reflexivity. }
  rewrite Hact. simpl. repeat split; reflexivity.
Qed.

Lemma stop_idle os w :
  session_ok w ->
  ~ (cmd_state (get_active_terminal w) = CMD_STATE_RUNNING /\
     0 < current_process (get_active_terminal w)) ->
  let w' := stop_current_command os w in
  session_ok w' /\
  os_signals w' = os_signals w /\
  os_children w' = os_children w /\
  active_entries w' =
    active_entries w ++ [("No command is currently running"%string, HISTORY_TYPE_NORMAL)] /\
  cmd_state (get_active_terminal w') = cmd_state (get_active_terminal w) /\
  current_process (get_active_terminal w') = current_process (get_active_terminal w) /\
  cmd_queue (get_active_terminal w') = cmd_queue (get_active_terminal w) /\
  input (get_active_terminal w') = input (get_active_terminal w).
Proof.
  intros Hok Hidle. unfold stop_current_command.
  destruct ((cmd_state (get_active_terminal w) =? CMD_STATE_RUNNING)
            && (current_process (get_active_terminal w) >? 0)) eqn:Hc.
  { exfalso. apply Hidle. apply andb_true_iff in Hc as [H1 H2]. split; lia. }
  destruct (session_ok_log_line os "No command is currently running"
              HISTORY_TYPE_NORMAL w Hok) as [Hok' He].
  pose proof (get_active_log_line os "No command is currently running"
                HISTORY_TYPE_NORMAL w (so_active _ Hok)) as Hact.
  cbv zeta. split; [exact Hok'|].
  split; [reflexivity|]. split; [reflexivity|].
  split.
  { rewrite He. f_equal. f_equal. f_equal.
    apply collapse_no_newline_literal. reflexivity. }
  rewrite Hact. simpl. repeat split; reflexivity.
Qed.

(** C4. Submitting [stop] leaves the command queue as it is.  When the
    session is Running with a recorded process id, SIGINT is sent to that
    process, "Command interrupted (SIGINT sent)" is logged, the status
    becomes Ready and the process id 0.  In every other state the only
    effect is the logged "No command is currently running": no signal, and
    status, process id and queue unchanged. *)
Theorem stop_never_enqueues (os : OS) (fuel : nat) (w : World) :
  session_ok w ->
  exists w',
    execute_command os (S fuel) "stop" w = Some w' /\
    cmd_queue (get_active_terminal w') = cmd_queue (get_active_terminal w) /\
    (cmd_state (get_active_terminal w) = CMD_STATE_RUNNING /\
     0 < current_process (get_active_terminal w) ->
       os_signals w' = os_signals w ++ [(current_process (get_active_terminal w), SIGINT)] /\
       active_entries w' =
         active_entries w
         ++ [("Command interrupted (SIGINT sent)"%string, HISTORY_TYPE_NORMAL)] /\
       cmd_state (get_active_terminal w') = CMD_STATE_READY /\
       current_process (get_active_terminal w') = 0) /\
    (~ (cmd_state (get_active_terminal w) = CMD_STATE_RUNNING /\
        0 < current_process (get_active_terminal w)) ->
       os_signals w' = os_signals w /\
       active_entries w' =
         active_entries w
         ++ [("No command is currently running"%string, HISTORY_TYPE_NORMAL)] /\
       cmd_state (get_active_terminal w') = cmd_state (get_active_terminal w) /\
       current_process (get_active_terminal w') = current_process (get_active_terminal w)).
Proof.
  intros Hok. exists (stop_current_command os w).
  split; [reflexivity|].
  destruct (classic_running w) as [Hrun|Hidle].
  - destruct Hrun as [Hr Hp].
    destruct (stop_running os w Hok Hr Hp) as (_ & Hs & _ & He & Hst & Hpr & Hq & _).
    split; [exact Hq|]. split; [intros _; repeat split; assumption|].
    intros Hn. exfalso. apply Hn. split; assumption.
  - destruct (stop_idle os w Hok Hidle) as (_ & Hs & _ & He & Hst & Hpr & Hq & _).
    split; [exact Hq|]. split; [intros Hy; contradiction|].
    intros _. repeat split; assumption.
Qed.

Lemma stop_never_enqueues_witness :
  (exists w', execute_command sample_os 1 "stop" sample_world = Some w' /\
              os_signals w' = [] /\
              cmd_queue (get_active_terminal w') = cmd_queue (get_active_terminal sample_world)) /\
  (exists w', execute_command sample_os 1 "stop" running_world = Some w' /\
              os_signals w' = [(4711, SIGINT)] /\
              cmd_state (get_active_terminal w') = CMD_STATE_READY).
Proof.
  split.
  - destruct (stop_never_enqueues sample_os 0 sample_world sample_world_ok)
      as (w' & He & Hq & _ & Hidle).
    exists w'. split; [exact He|]. split; [|exact Hq].
    apply Hidle. intros [Hr _]. vm_compute in Hr. discriminate.
  - assert (session_ok running_world) as Hok.
    { apply session_ok_update_active;
        [apply session_ok_child_started, sample_world_ok|apply sample_world_ok ..]. }
    destruct (stop_never_enqueues sample_os 0 running_world Hok)
      as (w' & He & _ & Hrun & _).
    exists w'. split; [exact He|].
    destruct Hrun as (Hs & _ & Hst & _); [split; [reflexivity|vm_compute; reflexivity]|].
    split; [exact Hs|exact Hst].
Defined.

(** ** Logging steps *)

Lemma logged_refl w : session_ok w -> logged w w [].
Proof.
  intros Hok. split; try reflexivity; [exact Hok|symmetry; apply app_nil_r|].
  exists (history (get_active_terminal w)). destruct (get_active_terminal w); reflexivity.
Qed.

Lemma logged_trans w1 w2 w3 a b :
  logged w1 w2 a -> logged w2 w3 b -> logged w1 w3 (a ++ b).
Proof.
  intros [_ He1 [h1 Ht1] Hl1 Hs1 Hc1 Hd1] [Hok He2 [h2 Ht2] Hl2 Hs2 Hc2 Hd2].
  split; try congruence.
  - rewrite He2, He1, app_assoc. reflexivity.
  - exists h2. rewrite Ht2, Ht1. reflexivity.
Qed.

Lemma logged_same_manager w w' :
  terminal_manager w' = terminal_manager w ->
  line_break_enabled w' = line_break_enabled w ->
  os_signals w' = os_signals w -> os_children w' = os_children w ->
  os_cwd w' = os_cwd w ->
  session_ok w -> logged w w' [].
Proof.
  intros Hm Hl Hs Hc Hd Hok.
  assert (get_active_terminal w' = get_active_terminal w) as Ha
      by (unfold get_active_terminal, terminal_at, active_id; rewrite Hm; reflexivity).
  split; try assumption.
  - apply (session_ok_same_manager w w' Hm Hok).
  - unfold active_entries. rewrite Ha. symmetry; apply app_nil_r.
  - exists (history (get_active_terminal w)). rewrite Ha.
    destruct (get_active_terminal w); reflexivity.
Qed.

Lemma logged_tick w : session_ok w -> logged w (tick w) [].
Proof. apply logged_same_manager; reflexivity. Qed.

Lemma logged_log_line os text ty w :
  session_ok w ->
  logged w (log_line os text ty w) [(stored_text (line_break_enabled w) text, ty)].
Proof.
  intros Hok. destruct (session_ok_log_line os text ty w Hok) as [Hok' He].
  split; try reflexivity; [exact Hok'|exact He|].
  eexists. apply get_active_log_line, Hok.
Qed.

Lemma logged_foldl_log_line os ty lines : forall w,
  session_ok w ->
  logged w (foldl (fun w line => log_line os line ty w) w lines)
         ((fun l => (stored_text (line_break_enabled w) l, ty)) <$> lines).
Proof.
  induction lines as [|l lines IH]; intros w Hok; simpl.
  - apply logged_refl, Hok.
  - pose proof (logged_log_line os l ty w Hok) as H1.
    pose proof (IH _ (lg_ok _ _ _ H1)) as H2.
    rewrite (lg_lbe _ _ _ H1) in H2.
    apply (logged_trans _ _ _ [_] _ H1 H2).
Qed.

Lemma logged_fields w w' added :
  logged w w' added ->
  cmd_queue (get_active_terminal w') = cmd_queue (get_active_terminal w) /\
  input (get_active_terminal w') = input (get_active_terminal w) /\
  cmd_state (get_active_terminal w') = cmd_state (get_active_terminal w) /\
  current_process (get_active_terminal w') = current_process (get_active_terminal w) /\
  current_directory (get_active_terminal w') = current_directory (get_active_terminal w).
Proof.
  intros [_ _ [h Ht] _ _ _ _]. rewrite Ht. repeat split; reflexivity.
Qed.

(** ** Submitting while a command runs *)

Lemma queue_depth_message_text k :
  1 <= k <= 10 ->
  queue_depth_message k
  = ("Command added to queue. Queue size: " ++ fmt_d k ++ "/10")%string /\
  forall lbe, stored_text lbe (queue_depth_message k) = queue_depth_message k.
Proof.
  intros Hk.
  assert (k = 1 \/ k = 2 \/ k = 3 \/ k = 4 \/ k = 5 \/ k = 6 \/ k = 7 \/ k = 8
          \/ k = 9 \/ k = 10) as Hcases by lia.
  repeat (destruct Hcases as [->|Hcases]); try subst k;
    (split; [reflexivity|intros lbe; apply collapse_no_newline_literal; reflexivity]).
Qed.

Lemma ordinary_tests cmd :
  ordinary cmd ->
  (strlen cmd =? 0) = false /\
  strcmp_eq cmd "stop" = false /\ strcmp_eq cmd "manual" = false.
Proof.
  intros (Hne & Hstop & Hman). unfold strcmp_eq.
  apply String.eqb_neq in Hstop, Hman. rewrite Hstop, Hman.
  split; [|split; reflexivity].
  destruct cmd as [|c cmd]; [contradiction|].
  unfold strlen. apply Z.eqb_neq. simpl. lia.
Qed.

Lemma execute_command_running os fuel cmd w :
  ordinary cmd ->
  cmd_state (get_active_terminal w) = CMD_STATE_RUNNING ->
  execute_command os (S fuel) cmd w = Some (add_command_to_queue os cmd w).
Proof.
  intros Hord Hrun. change (execute_command os (S fuel) cmd w)
    with (execute_command_body os (execute_command os fuel) cmd w).
  unfold execute_command_body.
  destruct (ordinary_tests cmd Hord) as (-> & -> & ->).
  unfold is_command_running. rewrite Hrun. reflexivity.
Qed.

Lemma add_command_to_queue_room os cmd w :
  session_ok w ->
  cq_count (cmd_queue (get_active_terminal w)) < 10 ->
  let q := cmd_queue (get_active_terminal w) in
  let w' := add_command_to_queue os cmd w in
  session_ok w' /\
  active_entries w' = active_entries w
                      ++ [(queue_depth_message (cq_count q + 1), HISTORY_TYPE_NORMAL)] /\
  cq_count (cmd_queue (get_active_terminal w')) = cq_count q + 1 /\
  pending (cmd_queue (get_active_terminal w')) = pending q ++ [strncpy 511 cmd] /\
  input (get_active_terminal w') = input (get_active_terminal w) /\
  cmd_state (get_active_terminal w') = cmd_state (get_active_terminal w) /\
  os_children w' = os_children w.
Proof.
  intros Hok Hroom q w'. subst w'. unfold add_command_to_queue.
  pose proof (qi_count _ (qw_inv _ (so_queue _ Hok))) as Hc. fold q in Hc.
  destruct (add_to_queue_room q cmd (so_queue _ Hok) Hroom) as (Hr & Hcnt & Hwf & Hp).
  fold q. destruct (add_to_queue q cmd) as [r q'] eqn:Hadd. simpl in Hr, Hcnt, Hwf, Hp.
  subst r. change (1 =? 0) with false. cbv beta iota.
  fold (queue_depth_message (cq_count q')).
  set (w1 := update_active (set_cmd_queue q') w).
  assert (session_ok w1) as Hok1
      by (apply session_ok_update_active; [exact Hok|apply Hok|exact Hwf]).
  assert (get_active_terminal w1 = set_cmd_queue q' (get_active_terminal w)) as Ha1
      by (apply get_active_update_active, Hok).
  pose proof (logged_log_line os (queue_depth_message (cq_count q')) HISTORY_TYPE_NORMAL
                w1 Hok1) as Hlog.
  destruct (logged_fields _ _ _ Hlog) as (Hq & Hi & Hs & _ & _).
  destruct (queue_depth_message_text (cq_count q + 1)) as [_ Hst];
    [unfold COMMAND_QUEUE_SIZE in Hc; fold q in Hroom; lia|].
  rewrite Ha1 in Hq, Hi, Hs. simpl in Hq, Hi, Hs.
  split; [apply Hlog|]. split.
  { rewrite (lg_entries _ _ _ Hlog). unfold active_entries. rewrite Ha1. simpl.
    rewrite Hcnt, Hst. reflexivity. }
  rewrite Hq, Hi, Hs.
  repeat split; assumption.
Qed.

Lemma add_command_to_queue_full os cmd w :
  session_ok w ->
  cq_count (cmd_queue (get_active_terminal w)) = 10 ->
  let w' := add_command_to_queue os cmd w in
  session_ok w' /\
  active_entries w' = active_entries w ++ [(queue_full_message, HISTORY_TYPE_RAW)] /\
  cmd_queue (get_active_terminal w') = cmd_queue (get_active_terminal w) /\
  is_locked (input (get_active_terminal w')) = 1 /\
  cmd_state (get_active_terminal w') = cmd_state (get_active_terminal w) /\
  os_children w' = os_children w.
Proof.
  intros Hok Hfull w'. subst w'. unfold add_command_to_queue.
  rewrite (add_to_queue_full _ cmd (qw_inv _ (so_queue _ Hok)) Hfull). simpl.
  set (w1 := update_active (set_cmd_queue _) w).
  assert (session_ok w1) as Hok1
      by (apply session_ok_update_active; [exact Hok|apply Hok|apply Hok]).
  assert (get_active_terminal w1
          = set_cmd_queue (cmd_queue (get_active_terminal w)) (get_active_terminal w)) as Ha1
      by (apply get_active_update_active, Hok).
  pose proof (logged_log_line os queue_full_message HISTORY_TYPE_RAW w1 Hok1) as Hlog.
  fold queue_full_message.
  set (w2 := log_line os queue_full_message HISTORY_TYPE_RAW w1) in *.
  destruct (logged_fields _ _ _ Hlog) as (Hq & Hi & Hs & _ & _).
  rewrite Ha1 in Hq, Hi, Hs. simpl in Hq, Hi, Hs.
  pose proof (lg_ok _ _ _ Hlog) as Hok2.
  rewrite get_active_update_active by apply Hok2. simpl.
  split.
  { apply session_ok_update_active; [exact Hok2|apply Hok2|apply Hok2]. }
  split.
  { unfold active_entries. rewrite get_active_update_active by apply Hok2. simpl.
    fold (active_entries w2). rewrite (lg_entries _ _ _ Hlog).
    unfold active_entries. rewrite Ha1. simpl. f_equal. f_equal. f_equal.
    apply collapse_no_newline_literal. reflexivity. }
  repeat split; assumption.
Qed.

Lemma submit_all_while_running os : forall cmds w,
  session_ok w ->
  cmd_state (get_active_terminal w) = CMD_STATE_RUNNING ->
  Forall ordinary cmds ->
  cq_count (cmd_queue (get_active_terminal w)) + Z.of_nat (length cmds) <= 10 ->
  exists w',
    submit_all os cmds w = Some w' /\
    session_ok w' /\
    cmd_state (get_active_terminal w') = CMD_STATE_RUNNING /\
    cq_count (cmd_queue (get_active_terminal w'))
    = cq_count (cmd_queue (get_active_terminal w)) + Z.of_nat (length cmds) /\
    pending (cmd_queue (get_active_terminal w'))
    = pending (cmd_queue (get_active_terminal w)) ++ (strncpy 511 <$> cmds) /\
    active_entries w'
    = active_entries w
      ++ ((fun k : nat =>
             (queue_depth_message (cq_count (cmd_queue (get_active_terminal w)) + Z.of_nat k),
              HISTORY_TYPE_NORMAL)) <$> seq 1 (length cmds)) /\
    input (get_active_terminal w') = input (get_active_terminal w) /\
    os_children w' = os_children w.
Proof.
  induction cmds as [|cmd cmds IH]; intros w Hok Hrun Hord Hfit.
  - exists w. simpl. rewrite Z.add_0_r, !app_nil_r.
    repeat split; first [assumption | apply Hok].
  - apply Forall_cons in Hord as [Hcmd Hord]. simpl length in Hfit.
    pose proof (qi_count _ (qw_inv _ (so_queue _ Hok))) as Hc.
    destruct (add_command_to_queue_room os cmd w Hok) as (Hok1 & He1 & Hc1 & Hp1 & Hi1 & Hs1 & Hch1);
      [lia|].
    change (submit_all os (cmd :: cmds) w)
      with (match execute_command os (enough_fuel w) cmd w with
            | Some w' => submit_all os cmds w'
            | None => None
            end).
    unfold enough_fuel.
    rewrite (execute_command_running os _ cmd w Hcmd Hrun).
    destruct (IH (add_command_to_queue os cmd w) Hok1) as
        (w' & Hsub & Hok' & Hrun' & Hc' & Hp' & He' & Hi' & Hch');
      [congruence | exact Hord | lia |].
    exists w'. split; [exact Hsub|]. split; [exact Hok'|]. split; [exact Hrun'|].
    split; [rewrite Hc', Hc1; simpl length; lia|].
    split; [rewrite Hp', Hp1, <- app_assoc; reflexivity|].
    split; [|split; congruence].
    rewrite He', He1, <- app_assoc. f_equal. simpl length.
    rewrite <- cons_seq, fmap_cons. simpl. f_equal.
    rewrite <- (fmap_S_seq 1), <- list_fmap_compose.
    apply list_fmap_ext. intros _ k _. simpl. do 2 f_equal. rewrite Hc1. lia.
Qed.

(** C2. While the session is Running, every ordinary command (non-empty,
    neither [stop] nor [manual]) that is submitted goes to the queue.
    Starting from an empty queue, ten submissions are all queued, in
    order, each logging "Command added to queue. Queue size: k/10" with
    the new depth k = 1..10 and leaving the lock flag alone; the eleventh
    is refused: the queue is unchanged, "Command queue is full! Maximum 10
    commands allowed." is logged and the lock flag is set.  No child
    process is started. *)
Theorem eleven_submissions_while_running (os : OS) (w : World)
    (cmds : list string) (last : string) :
  session_ok w ->
  cmd_state (get_active_terminal w) = CMD_STATE_RUNNING ->
  cq_count (cmd_queue (get_active_terminal w)) = 0 ->
  length cmds = 10%nat ->
  Forall ordinary cmds -> ordinary last ->
  exists w10 w11,
    submit_all os cmds w = Some w10 /\
    pending (cmd_queue (get_active_terminal w10)) = strncpy 511 <$> cmds /\
    active_entries w10
    = active_entries w
      ++ ((fun k : nat => (queue_depth_message (Z.of_nat k), HISTORY_TYPE_NORMAL))
            <$> seq 1 10) /\
    is_locked (input (get_active_terminal w10)) = is_locked (input (get_active_terminal w)) /\
    execute_command os (enough_fuel w10) last w10 = Some w11 /\
    cmd_queue (get_active_terminal w11) = cmd_queue (get_active_terminal w10) /\
    active_entries w11 = active_entries w10 ++ [(queue_full_message, HISTORY_TYPE_RAW)] /\
    is_locked (input (get_active_terminal w11)) = 1 /\
    os_children w11 = os_children w.
Proof.
  intros Hok Hrun Hempty Hlen Hord Hlast.
  destruct (submit_all_while_running os cmds w Hok Hrun Hord) as
      (w10 & Hsub & Hok10 & Hrun10 & Hc10 & Hp10 & He10 & Hi10 & Hch10); [lia|].
  rewrite Hempty, Hlen in *.
  destruct (add_command_to_queue_full os last w10 Hok10) as
      (_ & He11 & Hq11 & Hl11 & _ & Hch11); [lia|].
  exists w10, (add_command_to_queue os last w10).
  split; [exact Hsub|]. split.
  { rewrite Hp10. unfold pending. rewrite Hempty. reflexivity. }
  split; [exact He10|]. split; [rewrite Hi10; reflexivity|].
  split; [apply execute_command_running; assumption|].
  repeat split; try assumption. congruence.
Qed.

Lemma running_world_ok : session_ok running_world.
Proof.
  apply session_ok_update_active;
    [apply session_ok_child_started, sample_world_ok|apply sample_world_ok ..].
Qed.

Lemma eleven_submissions_while_running_witness :
  exists w10 w11,
    submit_all sample_os ["a"; "b"; "c"; "d"; "e"; "f"; "g"; "h"; "i"; "j"]%string
               running_world = Some w10 /\
    execute_command sample_os (enough_fuel w10) "k" w10 = Some w11 /\
    is_locked (input (get_active_terminal w11)) = 1.
Proof.
  assert (forall s : string, String.length s = 1%nat -> ordinary s) as Hord.
  { intros s Hs. repeat split; intros ->; discriminate. }
  destruct (eleven_submissions_while_running sample_os running_world
              ["a"; "b"; "c"; "d"; "e"; "f"; "g"; "h"; "i"; "j"]%string "k"%string
              running_world_ok)
    as (w10 & w11 & H1 & _ & _ & _ & H2 & _ & _ & H3 & _);
    try reflexivity.
  - repeat constructor; apply Hord; reflexivity.
  - apply Hord. reflexivity.
  - exists w10, w11. repeat split; assumption.
Defined.

(** ** The steps of a submission while no command runs *)

Lemma record_command_frame cmd w :
  session_ok w ->
  session_ok (record_command cmd w) /\
  (exists i, get_active_terminal (record_command cmd w)
             = set_input i (get_active_terminal w)) /\
  line_break_enabled (record_command cmd w) = line_break_enabled w /\
  os_tick (record_command cmd w) = os_tick w /\
  os_cwd (record_command cmd w) = os_cwd w /\
  os_signals (record_command cmd w) = os_signals w /\
  os_children (record_command cmd w) = os_children w.
Proof.
  intros Hok. unfold record_command.
  destruct (_ || _).
  - split; [apply session_ok_update_active; [exact Hok|apply Hok..]|].
    split; [|repeat split; reflexivity].
    exists (add_to_cmd_history (input (get_active_terminal w)) cmd).
    rewrite get_active_update_active by apply Hok. reflexivity.
  - split; [exact Hok|]. split; [|repeat split; reflexivity].
    exists (input (get_active_terminal w)). destruct (get_active_terminal w); reflexivity.
Qed.

Lemma record_command_entries cmd w :
  session_ok w -> active_entries (record_command cmd w) = active_entries w.
Proof.
  intros Hok. destruct (record_command_frame cmd w Hok) as (_ & [i Hi] & _).
  unfold active_entries. rewrite Hi. reflexivity.
Qed.

Lemma echo_command_logged os cmd w :
  session_ok w ->
  logged w (echo_command os cmd w)
         [(stored_text (line_break_enabled w)
                       (snprintf 512 (os_clock os (os_time os (os_tick w)) ++ " " ++ cmd)),
           HISTORY_TYPE_COMMAND)].
Proof.
  intros Hok. unfold echo_command.
  apply (logged_trans _ _ _ [] _ (logged_tick w Hok)).
  apply (logged_log_line os _ _ (tick w)), session_ok_tick, Hok.
Qed.

Lemma not_running_tests os self cmd w :
  ordinary cmd ->
  cmd_state (get_active_terminal w) <> CMD_STATE_RUNNING ->
  execute_command_body os self cmd w =
    let w := record_command cmd w in
    if strncmp_eq cmd "cd " then Some (cd_path os cmd w)
    else if strcmp_eq cmd "cd" then Some (cd_home os w)
    else
      let w := echo_command os cmd w in
      if is_interactive cmd then Some (run_interactive os cmd w)
      else
        match os_run os (os_tick w) cmd with
        | PipeFailed errno =>
            Some (log_line os (snprintf 128 ("Failed to create pipe: "
                                             ++ os_strerror os errno))
                           HISTORY_TYPE_NORMAL (tick w))
        | ForkFailed errno =>
            Some (log_line os (snprintf 128 ("Failed to fork process: "
                                             ++ os_strerror os errno))
                           HISTORY_TYPE_NORMAL (tick w))
        | Spawned pid stream_ok reads status =>
            let w1 := begin_command pid cmd w in
            let w2 := if stream_ok then read_pipe os reads w1 else w1 in
            let w3 := reap os status w2 in
            process_command_queue_with self w3
        end.
Proof.
  intros Hord Hidle. unfold execute_command_body.
  destruct (ordinary_tests cmd Hord) as (-> & -> & ->).
  unfold is_command_running.
  destruct (Z.eqb_spec (cmd_state (get_active_terminal w)) CMD_STATE_RUNNING);
    [contradiction|reflexivity].
Qed.

(** ** Interactive commands *)

Lemma run_interactive_entries os cmd w :
  session_ok w ->
  let status := os_system os (S (S (os_tick w))) cmd in
  let w' := run_interactive os cmd w in
  session_ok w' /\
  os_children w' = os_children w ++ [cmd] /\
  active_entries w'
  = active_entries w
    ++ [("Starting interactive application..."%string, HISTORY_TYPE_NORMAL);
        ("Note: Use Ctrl+Z to suspend and 'fg' to return"%string, HISTORY_TYPE_NORMAL)]
    ++ (if status =? 0 then []
        else [(stored_text (line_break_enabled w)
                 (snprintf 128 ("Command returned with exit code: " ++ fmt_d status)),
               HISTORY_TYPE_NORMAL)])
    ++ [("Returned to Parrot Terminal"%string, HISTORY_TYPE_NORMAL)].
Proof.
  intros Hok status w'. subst w'. unfold run_interactive.
  pose proof (logged_log_line os "Starting interactive application..."
                HISTORY_TYPE_NORMAL w Hok) as H1.
  set (w1 := log_line os "Starting interactive application..." _ w) in *.
  pose proof (logged_log_line os "Note: Use Ctrl+Z to suspend and 'fg' to return"
                HISTORY_TYPE_NORMAL w1 (lg_ok _ _ _ H1)) as H2.
  set (w2 := log_line os "Note: Use Ctrl+Z to suspend and 'fg' to return" _ w1) in *.
  change (os_tick w2) with (S (S (os_tick w))). fold status.
  set (w3 := child_started cmd w2).
  assert (session_ok w3) as Hok3 by (apply session_ok_child_started, H2).
  assert (active_entries w3 = active_entries w2) as He3 by reflexivity.
  assert (line_break_enabled w3 = line_break_enabled w) as Hl3
      by (change (line_break_enabled w3) with (line_break_enabled w2);
          rewrite (lg_lbe _ _ _ H2); apply (lg_lbe _ _ _ H1)).
  assert (os_children w3 = os_children w ++ [cmd]) as Hc3
      by (change (os_children w3) with (os_children w2 ++ [cmd]);
          rewrite (lg_children _ _ _ H2), (lg_children _ _ _ H1); reflexivity).
  assert (active_entries w3
          = active_entries w
            ++ [("Starting interactive application..."%string, HISTORY_TYPE_NORMAL);
                ("Note: Use Ctrl+Z to suspend and 'fg' to return"%string,
                 HISTORY_TYPE_NORMAL)]) as He.
  { rewrite He3, (lg_entries _ _ _ H2), (lg_entries _ _ _ H1), <- app_assoc.
    rewrite !collapse_no_newline_literal by reflexivity. reflexivity. }
  assert (forall w4 added, logged w3 w4 added ->
            let w5 := log_line os "Returned to Parrot Terminal" HISTORY_TYPE_NORMAL w4 in
            session_ok w5 /\ os_children w5 = os_children w ++ [cmd] /\
            active_entries w5
            = active_entries w3 ++ added
              ++ [("Returned to Parrot Terminal"%string, HISTORY_TYPE_NORMAL)]) as Hfin.
  { intros w4 added H4.
    pose proof (logged_log_line os "Returned to Parrot Terminal"
                  HISTORY_TYPE_NORMAL w4 (lg_ok _ _ _ H4)) as H5.
    pose proof (logged_trans _ _ _ _ _ H4 H5) as H45.
    split; [apply H45|]. split; [rewrite (lg_children _ _ _ H45); exact Hc3|].
    rewrite (lg_entries _ _ _ H45).
    rewrite (collapse_no_newline_literal _ "Returned to Parrot Terminal") by reflexivity.
    reflexivity. }
  destruct (Z.eqb_spec status 0) as [Hz|Hnz]; simpl negb; cbv iota.
  - destruct (Hfin w3 [] (logged_refl w3 Hok3)) as (Ha & Hb & Hc).
    split; [exact Ha|]. split; [exact Hb|].
    rewrite Hc, He, <- !app_assoc. reflexivity.
  - destruct (Hfin _ _ (logged_log_line os
                (snprintf 128 ("Command returned with exit code: " ++ fmt_d status))
                HISTORY_TYPE_NORMAL w3 Hok3)) as (Ha & Hb & Hc).
    split; [exact Ha|]. split; [exact Hb|].
    rewrite Hc, He, Hl3, <- !app_assoc. reflexivity.
Qed.

(** C8. An interactive command is run through system() with nothing
    captured, and what is logged as its "exit code" is the value system()
    returned: the wait status.  [less /nonexistent] leaves with exit code
    1, system() returns 256, and the history shows
    "Command returned with exit code: 256". *)
Theorem interactive_logs_wait_status_as_exit_code :
  is_interactive "less /nonexistent" = true /\
  (forall n, os_system sample_os n "less /nonexistent" = 256) /\
  WIFEXITED 256 = true /\ WEXITSTATUS 256 = 1 /\
  exists w',
    execute_command sample_os 1 "less /nonexistent" sample_world = Some w' /\
    os_children w' = ["less /nonexistent"%string] /\
    active_entries w' =
      [("[12:00:00] less /nonexistent"%string, HISTORY_TYPE_COMMAND);
       ("Starting interactive application..."%string, HISTORY_TYPE_NORMAL);
       ("Note: Use Ctrl+Z to suspend and 'fg' to return"%string, HISTORY_TYPE_NORMAL);
       ("Command returned with exit code: 256"%string, HISTORY_TYPE_NORMAL);
       ("Returned to Parrot Terminal"%string, HISTORY_TYPE_NORMAL)].
Proof.
  split; [reflexivity|]. split; [intros n; reflexivity|].
  split; [reflexivity|]. split; [reflexivity|].
  eexists. split; [reflexivity|]. split; vm_compute; reflexivity.
Qed.

(** ** cd *)

Lemma cd_prefix_ordinary cmd : strncmp_eq cmd "cd " = true -> ordinary cmd.
Proof.
  intros H. repeat split; intros ->; discriminate.
Qed.

Lemma change_directory_failure os target w errno :
  session_ok w ->
  os_chdir os (os_tick w) (os_cwd w) target = inr errno ->
  let w' := change_directory os target w in
  session_ok w' /\
  active_entries w'
  = active_entries w
    ++ [(stored_text (line_break_enabled w)
           (snprintf 128 ("cd: " ++ target ++ ": " ++ os_strerror os errno)),
         HISTORY_TYPE_NORMAL)] /\
  current_directory (get_active_terminal w') = current_directory (get_active_terminal w) /\
  cmd_queue (get_active_terminal w') = cmd_queue (get_active_terminal w) /\
  cmd_state (get_active_terminal w') = cmd_state (get_active_terminal w) /\
  os_cwd w' = os_cwd w /\ os_children w' = os_children w.
Proof.
  intros Hok Hfail w'. subst w'. unfold change_directory, chdir. rewrite Hfail.
  pose proof (logged_trans _ _ _ _ _ (logged_tick w Hok)
                (logged_log_line os
                   (snprintf 128 ("cd: " ++ target ++ ": " ++ os_strerror os errno))
                   HISTORY_TYPE_NORMAL (tick w) (session_ok_tick w Hok))) as Hlog.
  destruct (logged_fields _ _ _ Hlog) as (Hq & _ & Hs & _ & Hd).
  split; [apply Hlog|]. split; [apply (lg_entries _ _ _ Hlog)|].
  repeat split; try assumption; apply Hlog.
Qed.

Lemma change_directory_success os target w cwd' :
  session_ok w ->
  os_chdir os (os_tick w) (os_cwd w) target = inl cwd' ->
  let w' := change_directory os target w in
  session_ok w' /\
  active_entries w' = active_entries w /\
  current_directory (get_active_terminal w') = cwd' /\
  cmd_queue (get_active_terminal w') = cmd_queue (get_active_terminal w) /\
  cmd_state (get_active_terminal w') = cmd_state (get_active_terminal w) /\
  os_cwd w' = cwd' /\ os_children w' = os_children w.
Proof.
  intros Hok Hgood w'. subst w'. unfold change_directory, chdir. rewrite Hgood.
  set (w1 := tick (set_os_cwd cwd' w)).
  assert (session_ok w1) as Hok1 by (apply (session_ok_same_manager w); [reflexivity|exact Hok]).
  assert (get_active_terminal w1 = get_active_terminal w) as Ha1 by reflexivity.
  split.
  { apply session_ok_update_active; [exact Hok1|rewrite Ha1; apply Hok ..]. }
  unfold active_entries.
  rewrite get_active_update_active by apply Hok1. rewrite Ha1.
  repeat split; reflexivity.
Qed.

Lemma cd_error_prefix lbe rest :
  String.prefix "cd: " (stored_text lbe (snprintf 128 ("cd: " ++ rest))) = true.
Proof.
  unfold stored_text, snprintf.
  change (strncpy (pred 128) ("cd: " ++ rest))
    with (String "c" (String "d" (String ":" (String " " (strncpy 123 rest))))).
  destruct (lbe =? 0); simpl;
    [destruct (collapse_line_breaks _)|destruct (strncpy 123 rest)]; reflexivity.
Qed.

(** C6, as the code has it.  When no command is running, submitting
    [cd <path>] starts no child process and logs no command echo.  If
    chdir() fails, the stored directory and the system's directory stay,
    and exactly one entry is appended, of normal type: the text
    "cd: <dir>: <OS error text>" cut to 127 characters (so it begins with
    "cd: ", and is the whole text when that is short enough).  If chdir()
    succeeds, nothing is logged and the new working directory is stored in
    the session. *)
Theorem cd_path_changes_or_logs (os : OS) (fuel : nat) (cmd : string) (w : World) :
  session_ok w ->
  cmd_state (get_active_terminal w) <> CMD_STATE_RUNNING ->
  strncmp_eq cmd "cd " = true ->
  let target := cd_target (os_home os) cmd in
  exists w',
    execute_command os (S fuel) cmd w = Some w' /\
    os_children w' = os_children w /\
    match os_chdir os (os_tick w) (os_cwd w) target with
    | inr errno =>
        let full := ("cd: " ++ target ++ ": " ++ os_strerror os errno)%string in
        current_directory (get_active_terminal w') = current_directory (get_active_terminal w) /\
        os_cwd w' = os_cwd w /\
        exists text,
          active_entries w' = active_entries w ++ [(text, HISTORY_TYPE_NORMAL)] /\
          text = stored_text (line_break_enabled w) (strncpy 127 full) /\
          String.prefix "cd: " text = true /\
          ((String.length full <= 127)%nat -> text = stored_text (line_break_enabled w) full)
    | inl cwd' =>
        current_directory (get_active_terminal w') = cwd' /\
        os_cwd w' = cwd' /\
        active_entries w' = active_entries w
    end.
Proof.
  intros Hok Hidle Hcd target.
  change (execute_command os (S fuel) cmd w)
    with (execute_command_body os (execute_command os fuel) cmd w).
  rewrite (not_running_tests os _ cmd w (cd_prefix_ordinary cmd Hcd) Hidle).
  cbv zeta. rewrite Hcd.
  destruct (record_command_frame cmd w Hok) as (Hok0 & [i Hi] & Hl0 & Ht0 & Hd0 & _ & Hc0).
  pose proof (record_command_entries cmd w Hok) as He0.
  set (w0 := record_command cmd w) in *.
  exists (cd_path os cmd w0). split; [reflexivity|].
  unfold cd_path. fold target. rewrite <- Ht0, <- Hd0.
  destruct (os_chdir os (os_tick w0) (os_cwd w0) target) as [cwd'|errno] eqn:Hch.
  - destruct (change_directory_success os target w0 cwd' Hok0 Hch)
      as (_ & He & Hdir & _ & _ & Hcwd & Hchild).
    split; [congruence|]. split; [exact Hdir|]. split; [exact Hcwd|]. congruence.
  - destruct (change_directory_failure os target w0 errno Hok0 Hch)
      as (_ & He & Hdir & _ & _ & Hcwd & Hchild).
    split; [congruence|]. cbv zeta.
    split; [rewrite Hdir, Hi; reflexivity|]. split; [exact Hcwd|].
    eexists. split; [rewrite He, He0, Hl0; reflexivity|].
    split; [reflexivity|]. split; [apply cd_error_prefix|].
    intros Hfit. unfold snprintf. simpl pred. rewrite strncpy_fits by exact Hfit.
    reflexivity.
Qed.

Lemma cd_path_changes_or_logs_witness :
  (exists w', execute_command sample_os 1 "cd /nonexistent" sample_world = Some w' /\
              current_directory (get_active_terminal w') = "/home/parrot"%string /\
              active_entries w' =
                [("cd: /nonexistent: No such file or directory"%string, HISTORY_TYPE_NORMAL)]) /\
  (exists w', execute_command sample_os 1 "cd /tmp" sample_world = Some w' /\
              current_directory (get_active_terminal w') = "/tmp"%string /\
              active_entries w' = []).
Proof.
  assert (cmd_state (get_active_terminal sample_world) <> CMD_STATE_RUNNING) as Hidle
      by (vm_compute; discriminate).
  split.
  - destruct (cd_path_changes_or_logs sample_os 0 "cd /nonexistent" sample_world
                sample_world_ok Hidle eq_refl) as (w' & He & _ & Hm).
    exists w'. split; [exact He|].
    change (os_chdir sample_os (os_tick sample_world) (os_cwd sample_world)
                     (cd_target (os_home sample_os) "cd /nonexistent"))
      with (@inr string Z 2) in Hm.
    destruct Hm as (Hd & _ & text & Hent & _ & _ & Hfit).
    split; [exact Hd|]. rewrite Hent, Hfit; [reflexivity|]. vm_compute. lia.
  - destruct (cd_path_changes_or_logs sample_os 0 "cd /tmp" sample_world
                sample_world_ok Hidle eq_refl) as (w' & He & _ & Hm).
    exists w'. split; [exact He|].
    change (os_chdir sample_os (os_tick sample_world) (os_cwd sample_world)
                     (cd_target (os_home sample_os) "cd /tmp"))
      with (@inl string Z "/tmp"%string) in Hm.
    destruct Hm as (Hd & _ & Hent). split; [exact Hd|exact Hent].
Defined.

(** C6 as stated fails for a long directory name: the text is cut
    before the OS error text begins. *)
Lemma cd_long_path_entry_lacks_error_text :
  os_chdir sample_os 0 "/home/parrot" long_dir = inr 2 /\
  exists w' entry,
    execute_command sample_os 1 ("cd " ++ long_dir) sample_world = Some w' /\
    active_entries w' = [(entry, HISTORY_TYPE_NORMAL)] /\
    is_substring (os_strerror sample_os 2) entry = false.
Proof.
  split; [reflexivity|].
  eexists. eexists. split; [reflexivity|].
  split; [vm_compute; reflexivity|]. vm_compute. reflexivity.
Qed.

(** ** strtok and the lines of a chunk *)

Lemma skip_delims_fields s :
  filter (fun l => l <> EmptyString) (fields (skip_delims s))
  = filter (fun l => l <> EmptyString) (fields s).
Proof.
  induction s as [|c s IH]; [reflexivity|]. simpl.
  destruct (Ascii.eqb c newline) eqn:Hc; [|simpl; rewrite Hc; reflexivity].
  rewrite IH, filter_cons_False by (intros H; apply H; reflexivity). reflexivity.
Qed.

Lemma skip_delims_length s : (String.length (skip_delims s) <= String.length s)%nat.
Proof.
  induction s as [|c s IH]; simpl; [lia|].
  destruct (Ascii.eqb c newline); simpl; lia.
Qed.

Lemma skip_delims_head s c rest :
  skip_delims s = String c rest -> Ascii.eqb c newline = false.
Proof.
  induction s as [|d s IH]; simpl; [discriminate|].
  destruct (Ascii.eqb d newline) eqn:Hd; [exact IH|].
  intros H. injection H as -> _. exact Hd.
Qed.

Lemma split_token_fields s :
  exists fs, fields s = (split_token s).1 :: fs /\
             filter (fun l => l <> EmptyString) fs
             = filter (fun l => l <> EmptyString) (fields (split_token s).2).
Proof.
  induction s as [|c s (fs & Hf & Hfs)]; simpl.
  - exists []. split; reflexivity.
  - destruct (Ascii.eqb c newline).
    + exists (fields s). split; reflexivity.
    + rewrite Hf. destruct (split_token s) as [tok rest]. simpl in *.
      exists fs. split; [reflexivity|exact Hfs].
Qed.

Lemma split_token_length s :
  (String.length (split_token s).2 <= String.length s)%nat.
Proof.
  induction s as [|c s IH]; simpl; [lia|].
  destruct (Ascii.eqb c newline); simpl; [lia|].
  destruct (split_token s) as [tok rest]. simpl in *. lia.
Qed.

Lemma strtok_lines_fields fuel : forall s,
  (String.length s < fuel)%nat ->
  strtok_lines fuel s = filter (fun l => l <> EmptyString) (fields s).
Proof.
  induction fuel as [|fuel IH]; intros s Hlen; [lia|].
  simpl. unfold strtok. rewrite <- skip_delims_fields.
  pose proof (skip_delims_length s) as Hsk.
  destruct (skip_delims s) as [|c rest] eqn:Hs; [reflexivity|].
  pose proof (skip_delims_head s c rest Hs) as Hc.
  destruct (split_token_fields (String c rest)) as (fs & Hf & Hfs).
  pose proof (split_token_length rest) as Hl.
  rewrite Hf. simpl in Hf, Hfs, Hsk |- *. rewrite Hc in Hf, Hfs |- *.
  destruct (split_token rest) as [tok after]. simpl in *.
  rewrite filter_cons_True by discriminate.
  rewrite IH by lia. rewrite Hfs. reflexivity.
Qed.

Lemma c_str_length s : (String.length (c_str s) <= String.length s)%nat.
Proof.
  induction s as [|c s IH]; simpl; [lia|].
  destruct (Ascii.eqb c NUL); simpl; lia.
Qed.

(** What one read() contributes: the non-empty pieces between the newlines
    of the chunk, each cleaned of escape sequences. *)
Lemma chunk_lines_fields chunk :
  chunk_lines chunk
  = clean_line <$> filter (fun l => l <> EmptyString) (fields (c_str chunk)).
Proof.
  unfold chunk_lines. rewrite strtok_lines_fields; [reflexivity|].
  pose proof (c_str_length chunk). lia.
Qed.

(** *** Captured lines hold no newline *)

Lemma collapse_cons_fixed c s :
  collapse_line_breaks (String c s) = String c s <->
  Ascii.eqb c newline = false /\ collapse_line_breaks s = s.
Proof.
  simpl. destruct (Ascii.eqb c newline) eqn:Hc.
  - apply Ascii.eqb_eq in Hc. subst c. split; [discriminate|intros [? _]; discriminate].
  - split; [intros H; injection H as H; split; [reflexivity|exact H]|].
    intros [_ ->]. reflexivity.
Qed.

Lemma split_token_no_newline s :
  collapse_line_breaks (split_token s).1 = (split_token s).1.
Proof.
  induction s as [|c s IH]; [reflexivity|]. simpl.
  destruct (Ascii.eqb c newline) eqn:Hc; [reflexivity|].
  destruct (split_token s) as [tok rest]. simpl in *.
  rewrite Hc, IH. reflexivity.
Qed.

Lemma strtok_lines_no_newline fuel : forall s,
  Forall (fun l => collapse_line_breaks l = l) (strtok_lines fuel s).
Proof.
  induction fuel as [|fuel IH]; intros s; simpl; [constructor|].
  unfold strtok. destruct (skip_delims s) as [|c rest]; [constructor|].
  pose proof (split_token_no_newline (String c rest)) as Htok.
  destruct (split_token (String c rest)) as [tok after].
  constructor; [exact Htok|apply IH].
Qed.

Lemma strncpy_no_newline n : forall s,
  collapse_line_breaks s = s -> collapse_line_breaks (strncpy n s) = strncpy n s.
Proof.
  induction n as [|n IH]; intros [|c s] H; try reflexivity.
  apply collapse_cons_fixed in H as [Hc Hs].
  change (strncpy (S n) (String c s)) with (String c (strncpy n s)).
  apply collapse_cons_fixed. split; [exact Hc|apply IH, Hs].
Qed.

Lemma strip_escape_no_newline s : forall b,
  collapse_line_breaks s = s ->
  collapse_line_breaks (strip_escape_from b s) = strip_escape_from b s.
Proof.
  induction s as [|c s IH]; intros b H; [reflexivity|].
  apply collapse_cons_fixed in H as [Hc Hs]. simpl.
  destruct (Ascii.eqb c ESC); [apply IH, Hs|].
  destruct (b && Ascii.eqb c "m"); [apply IH, Hs|].
  destruct b; [apply IH, Hs|].
  apply collapse_cons_fixed. split; [exact Hc|apply IH, Hs].
Qed.

Lemma chunk_lines_stored lbe chunk :
  (fun l => (stored_text lbe l, HISTORY_TYPE_NORMAL)) <$> chunk_lines chunk
  = normal_entry <$> chunk_lines chunk.
Proof.
  unfold chunk_lines. apply Forall_fmap_ext_1.
  rewrite Forall_fmap.
  eapply Forall_impl; [apply strtok_lines_no_newline|].
  intros l Hl. simpl. unfold normal_entry. f_equal.
  apply collapse_no_newline_literal. unfold clean_line, strip_escape_codes.
  apply strip_escape_no_newline, strncpy_no_newline, Hl.
Qed.

(** ** Running a captured command *)

Lemma read_pipe_logged os reads : forall w,
  session_ok w ->
  logged w (read_pipe os reads w) (normal_entry <$> captured_lines reads).
Proof.
  induction reads as [|chunk more IH]; intros w Hok; simpl.
  - apply logged_refl, Hok.
  - destruct (is_empty chunk); [apply logged_refl, Hok|].
    pose proof (logged_tick w Hok) as H1.
    pose proof (logged_foldl_log_line os HISTORY_TYPE_NORMAL (chunk_lines chunk)
                  (tick w) (lg_ok _ _ _ H1)) as H2.
    rewrite chunk_lines_stored in H2.
    pose proof (logged_trans _ _ _ _ _ H1 H2) as H12. simpl in H12.
    rewrite fmap_app.
    apply (logged_trans _ _ _ _ _ H12). apply IH, H12.
Qed.

Lemma begin_command_frame pid cmd w :
  session_ok w ->
  let w1 := begin_command pid cmd w in
  session_ok w1 /\
  get_active_terminal w1
  = set_current_process pid (set_cmd_state CMD_STATE_RUNNING (get_active_terminal w)) /\
  active_entries w1 = active_entries w /\
  line_break_enabled w1 = line_break_enabled w /\
  os_children w1 = os_children w ++ [cmd].
Proof.
  intros Hok w1. subst w1. unfold begin_command.
  pose proof (session_ok_child_started cmd w Hok) as Hok'.
  assert (get_active_terminal (child_started cmd w) = get_active_terminal w) as Ha
      by reflexivity.
  split; [apply session_ok_update_active; [exact Hok'|rewrite Ha; apply Hok ..]|].
  unfold active_entries.
  rewrite get_active_update_active by apply Hok'. rewrite Ha.
  repeat split; reflexivity.
Qed.

Lemma collapse_app a b :
  collapse_line_breaks (a ++ b) = (collapse_line_breaks a ++ collapse_line_breaks b)%string.
Proof. induction a as [|c a IH]; simpl; [reflexivity|]. rewrite IH. reflexivity. Qed.

Lemma pretty_N_go_no_newline x : forall s,
  collapse_line_breaks s = s ->
  collapse_line_breaks (pretty_N_go x s) = pretty_N_go x s.
Proof.
  induction (N.lt_wf_0 x) as [x _ IH]; intros s Hs.
  assert (x = 0 \/ 0 < x)%N as [->|Hpos] by lia.
  - rewrite pretty_N_go_0. exact Hs.
  - rewrite pretty_N_go_step by exact Hpos. apply IH.
    + apply N.div_lt; [exact Hpos|reflexivity].
    + apply collapse_cons_fixed. split; [|exact Hs].
      unfold pretty_N_char. repeat case_match; reflexivity.
Qed.

Lemma pretty_positive_no_newline (p : positive) :
  collapse_line_breaks (pretty p) = pretty p.
Proof.
  unfold pretty, pretty_positive, pretty, pretty_N.
  case_decide; [reflexivity|].
  apply pretty_N_go_no_newline. reflexivity.
Qed.

Lemma fmt_d_no_newline z : collapse_line_breaks (fmt_d z) = fmt_d z.
Proof.
  unfold fmt_d, pretty, pretty_Z. destruct z as [|p|p]; [reflexivity| |].
  - apply pretty_positive_no_newline.
  - change (collapse_line_breaks (String "-" (pretty p)) = String "-" (pretty p)).
    apply collapse_cons_fixed.
    split; [reflexivity|apply pretty_positive_no_newline].
Qed.

Lemma digits_no_newline (prefix : string) z :
  collapse_line_breaks prefix = prefix ->
  collapse_line_breaks (snprintf 128 (prefix ++ fmt_d z)) = snprintf 128 (prefix ++ fmt_d z).
Proof.
  intros Hp. unfold snprintf. apply strncpy_no_newline.
  rewrite collapse_app, Hp, fmt_d_no_newline. reflexivity.
Qed.

Lemma exit_report_stored lbe status :
  (fun l => (stored_text lbe l, HISTORY_TYPE_NORMAL)) <$> exit_report status
  = normal_entry <$> exit_report status.
Proof.
  unfold exit_report.
  destruct (WIFEXITED status && negb (WEXITSTATUS status =? 0));
    [|destruct (WIFSIGNALED status); [|reflexivity]];
    simpl; unfold normal_entry; do 2 f_equal; apply collapse_no_newline_literal.
  - apply (digits_no_newline "Command exited with status: " (WEXITSTATUS status)).
    reflexivity.
  - apply (digits_no_newline "Command terminated by signal: " (WTERMSIG status)).
    reflexivity.
Qed.

Lemma reap_frame os status w :
  session_ok w ->
  let w3 := reap os status w in
  session_ok w3 /\
  cmd_state (get_active_terminal w3) = CMD_STATE_READY /\
  current_process (get_active_terminal w3) = 0 /\
  cmd_queue (get_active_terminal w3) = cmd_queue (get_active_terminal w) /\
  input (get_active_terminal w3) = input (get_active_terminal w) /\
  active_entries w3 = active_entries w ++ (normal_entry <$> exit_report status) /\
  line_break_enabled w3 = line_break_enabled w /\
  os_children w3 = os_children w /\
  os_signals w3 = os_signals w.
Proof.
  intros Hok w3. subst w3. unfold reap.
  set (w1 := update_active _ (tick w)).
  pose proof (session_ok_tick w Hok) as Hokt.
  assert (get_active_terminal w1
          = set_current_process 0 (set_cmd_state CMD_STATE_READY (get_active_terminal w)))
    as Ha1 by (unfold w1; rewrite get_active_update_active by apply Hokt; reflexivity).
  assert (session_ok w1) as Hok1
      by (apply session_ok_update_active; [exact Hokt|apply Hok ..]).
  assert (active_entries w1 = active_entries w) as He1
      by (unfold active_entries; rewrite Ha1; reflexivity).
  pose proof (exit_report_stored (line_break_enabled w1) status) as Hst.
  assert (forall text,
            exit_report status = [text] ->
            let w3 := log_line os text HISTORY_TYPE_NORMAL w1 in
            session_ok w3 /\
            cmd_state (get_active_terminal w3) = CMD_STATE_READY /\
            current_process (get_active_terminal w3) = 0 /\
            cmd_queue (get_active_terminal w3) = cmd_queue (get_active_terminal w) /\
            input (get_active_terminal w3) = input (get_active_terminal w) /\
            active_entries w3 = active_entries w ++ (normal_entry <$> exit_report status) /\
            line_break_enabled w3 = line_break_enabled w /\
            os_children w3 = os_children w /\
            os_signals w3 = os_signals w) as Hlogged.
  { intros text Hrep w3.
    pose proof (logged_log_line os text HISTORY_TYPE_NORMAL w1 Hok1) as Hlog.
    destruct (logged_fields _ _ _ Hlog) as (Hq & Hi & Hs & Hp & _).
    rewrite Ha1 in Hq, Hi, Hs, Hp. simpl in Hq, Hi, Hs, Hp.
    rewrite Hrep in Hst. simpl in Hst. injection Hst as Hst.
    split; [apply Hlog|].
    split; [exact Hs|]. split; [exact Hp|]. split; [exact Hq|]. split; [exact Hi|].
    split.
    { subst w3. rewrite (lg_entries _ _ _ Hlog), He1, Hrep. simpl. rewrite Hst.
      reflexivity. }
    split; [apply (lg_lbe _ _ _ Hlog)|].
    split; [apply (lg_children _ _ _ Hlog)|apply (lg_signals _ _ _ Hlog)]. }
  unfold exit_report in *.
  destruct (WIFEXITED status && negb (WEXITSTATUS status =? 0));
    [apply Hlogged; reflexivity|].
  destruct (WIFSIGNALED status); [apply Hlogged; reflexivity|].
  rewrite Ha1. simpl. rewrite app_nil_r.
  repeat split; try assumption; try reflexivity; apply Hok1.
Qed.

(** ** Draining the queue *)

Lemma process_command_queue_with_empty exec w :
  cq_count (cmd_queue (get_active_terminal w)) = 0 ->
  process_command_queue_with exec w = Some w.
Proof.
  intros Hz. unfold process_command_queue_with, is_queue_empty. rewrite Hz.
  rewrite andb_false_r. reflexivity.
Qed.

(** The session once the next command has been taken from the queue. *)
Lemma process_command_queue_with_next exec w :
  session_ok w ->
  cmd_state (get_active_terminal w) <> CMD_STATE_RUNNING ->
  cq_count (cmd_queue (get_active_terminal w)) <> 0 ->
  exists next rest w4,
    pending (cmd_queue (get_active_terminal w)) = next :: rest /\
    process_command_queue_with exec w = exec next w4 /\
    session_ok w4 /\
    pending (cmd_queue (get_active_terminal w4)) = rest /\
    cq_count (cmd_queue (get_active_terminal w4))
    = cq_count (cmd_queue (get_active_terminal w)) - 1 /\
    cq_state (cmd_queue (get_active_terminal w4)) = QUEUE_NORMAL /\
    is_locked (input (get_active_terminal w4)) = 0 /\
    cmd_state (get_active_terminal w4) = cmd_state (get_active_terminal w) /\
    current_process (get_active_terminal w4) = current_process (get_active_terminal w) /\
    active_entries w4 = active_entries w /\
    os_children w4 = os_children w.
Proof.
  intros Hok Hidle Hnz.
  destruct (get_from_queue_some _ (so_queue _ Hok) Hnz) as (next & Hr & Hc & Hs & Hwf & Hp).
  unfold process_command_queue_with, is_command_running, is_queue_empty.
  destruct (Z.eqb_spec (cmd_state (get_active_terminal w)) CMD_STATE_RUNNING);
    [contradiction|].
  destruct (Z.eqb_spec (cq_count (cmd_queue (get_active_terminal w))) 0);
    [contradiction|].
  simpl negb. cbv iota beta. simpl andb. cbv iota.
  destruct (get_from_queue (cmd_queue (get_active_terminal w))) as [r q'].
  simpl in Hr, Hc, Hs, Hwf, Hp. subst r. rewrite Hs. simpl Z.eqb. cbv iota.
  set (w1 := update_active (set_cmd_queue q') w).
  assert (session_ok w1) as Hok1
      by (apply session_ok_update_active; [exact Hok|apply Hok|exact Hwf]).
  assert (get_active_terminal w1 = set_cmd_queue q' (get_active_terminal w)) as Ha1
      by (apply get_active_update_active, Hok).
  exists next, (pending q').
  exists (update_active (fun t => set_input (set_is_locked 0 (input t)) t) w1).
  split; [exact Hp|]. split; [reflexivity|].
  split; [apply session_ok_update_active; [exact Hok1|apply Hok1 ..]|].
  unfold active_entries.
  rewrite get_active_update_active by apply Hok1. rewrite Ha1. simpl.
  repeat split; try assumption; reflexivity.
Qed.

(** ** A captured command, step by step *)

Lemma execute_captured os self cmd w pid stream_ok reads status :
  cmd_state (get_active_terminal w) <> CMD_STATE_RUNNING ->
  captured_command cmd ->
  os_run os (os_tick (echo_command os cmd (record_command cmd w))) cmd
  = Spawned pid stream_ok reads status ->
  execute_command_body os self cmd w =
    let w0 := echo_command os cmd (record_command cmd w) in
    let w1 := begin_command pid cmd w0 in
    let w2 := if stream_ok then read_pipe os reads w1 else w1 in
    process_command_queue_with self (reap os status w2).
Proof.
  intros Hidle (Hord & Hcd & Hcd' & Hint) Hrun.
  rewrite (not_running_tests os self cmd w Hord Hidle).
  cbv zeta. rewrite Hcd, Hcd', Hint, Hrun. reflexivity.
Qed.

Lemma captured_run_facts os cmd w pid (stream_ok : bool) reads status :
  session_ok w ->
  let w0 := echo_command os cmd (record_command cmd w) in
  let w1 := begin_command pid cmd w0 in
  let w2 := if stream_ok then read_pipe os reads w1 else w1 in
  let w3 := reap os status w2 in
  let output : list string := if stream_ok then captured_lines reads else [] in
  (active_entries w0
   = active_entries w
     ++ [(stored_text (line_break_enabled w) (echo_line os cmd w), HISTORY_TYPE_COMMAND)]) /\
  (cmd_state (get_active_terminal w1) = CMD_STATE_RUNNING /\
   current_process (get_active_terminal w1) = pid /\
   active_entries w1 = active_entries w0) /\
  (session_ok w2 /\
   cmd_state (get_active_terminal w2) = CMD_STATE_RUNNING /\
   current_process (get_active_terminal w2) = pid /\
   active_entries w2 = active_entries w0 ++ (normal_entry <$> output)) /\
  (session_ok w3 /\
   cmd_state (get_active_terminal w3) = CMD_STATE_READY /\
   current_process (get_active_terminal w3) = 0 /\
   cmd_queue (get_active_terminal w3) = cmd_queue (get_active_terminal w) /\
   active_entries w3 = active_entries w2 ++ (normal_entry <$> exit_report status) /\
   os_children w3 = os_children w ++ [cmd] /\
   os_signals w3 = os_signals w).
Proof.
  intros Hok w0 w1 w2 w3 output.
  destruct (record_command_frame cmd w Hok) as (Hokr & [i Hi] & Hlr & Htr & _ & Hsr & Hcr).
  pose proof (record_command_entries cmd w Hok) as Her.
  pose proof (echo_command_logged os cmd (record_command cmd w) Hokr) as Hecho.
  fold w0 in Hecho.
  destruct (logged_fields _ _ _ Hecho) as (Hq0 & _ & _ & _ & _).
  rewrite Hi in Hq0. simpl in Hq0.
  destruct (begin_command_frame pid cmd w0 (lg_ok _ _ _ Hecho)) as (Hok1 & Ha1 & He1 & Hl1 & Hc1).
  fold w1 in Hok1, Ha1, He1, Hl1, Hc1.
  assert (logged w1 w2 (normal_entry <$> output)) as Hread.
  { subst w2 output. destruct stream_ok; [apply read_pipe_logged, Hok1|apply logged_refl, Hok1]. }
  destruct (logged_fields _ _ _ Hread) as (Hq2 & _ & Hs2 & Hp2 & _).
  rewrite Ha1 in Hq2, Hs2, Hp2. simpl in Hq2, Hs2, Hp2.
  destruct (reap_frame os status w2 (lg_ok _ _ _ Hread))
    as (Hok3 & Hs3 & Hp3 & Hq3 & _ & He3 & _ & Hc3 & Hsg3).
  fold w3 in Hok3, Hs3, Hp3, Hq3, He3, Hc3, Hsg3.
  split.
  { rewrite (lg_entries _ _ _ Hecho), Her, Hlr. unfold echo_line. rewrite Htr. reflexivity. }
  split.
  { rewrite Ha1. simpl. split; [reflexivity|]. split; [reflexivity|exact He1]. }
  split.
  { split; [apply Hread|]. split; [exact Hs2|]. split; [exact Hp2|].
    rewrite (lg_entries _ _ _ Hread), He1. reflexivity. }
  split; [exact Hok3|]. split; [exact Hs3|]. split; [exact Hp3|].
  split; [congruence|]. split; [exact He3|].
  split.
  - rewrite Hc3, (lg_children _ _ _ Hread), Hc1, (lg_children _ _ _ Hecho), Hcr.
    reflexivity.
  - rewrite Hsg3, (lg_signals _ _ _ Hread).
    change (os_signals w1) with (os_signals w0).
    rewrite (lg_signals _ _ _ Hecho), Hsr. reflexivity.
Qed.

(** ** execute_command returns *)

Lemma change_directory_ok os target w :
  session_ok w -> session_ok (change_directory os target w).
Proof.
  intros Hok.
  destruct (os_chdir os (os_tick w) (os_cwd w) target) as [cwd'|errno] eqn:Hch.
  - apply (change_directory_success os target w cwd' Hok Hch).
  - apply (change_directory_failure os target w errno Hok Hch).
Qed.

Lemma execute_command_body_total os self cmd w :
  session_ok w ->
  (cq_count (cmd_queue (get_active_terminal w)) = 0 \/
   forall next w4,
     session_ok w4 ->
     cq_count (cmd_queue (get_active_terminal w4))
     = cq_count (cmd_queue (get_active_terminal w)) - 1 ->
     exists w', self next w4 = Some w' /\ session_ok w') ->
  exists w', execute_command_body os self cmd w = Some w' /\ session_ok w'.
Proof.
  intros Hok Hself. unfold execute_command_body.
  destruct (strlen cmd =? 0); [exists w; split; [reflexivity|exact Hok]|].
  destruct (strcmp_eq cmd "stop").
  { eexists. split; [reflexivity|].
    destruct (classic_running w) as [[Hr Hp]|Hidle];
      [apply (stop_running os w Hok Hr Hp)|apply (stop_idle os w Hok Hidle)]. }
  destruct (strcmp_eq cmd "manual").
  { eexists. split; [reflexivity|].
    apply (lg_ok _ _ _ (logged_foldl_log_line os HISTORY_TYPE_RAW _ w Hok)). }
  destruct (is_command_running w).
  { eexists. split; [reflexivity|].
    pose proof (qi_count _ (qw_inv _ (so_queue _ Hok))) as Hc.
    unfold COMMAND_QUEUE_SIZE in Hc.
    destruct (Z.eq_dec (cq_count (cmd_queue (get_active_terminal w))) 10) as [Hfull|Hroom].
    - apply (add_command_to_queue_full os cmd w Hok Hfull).
    - apply (add_command_to_queue_room os cmd w Hok). lia. }
  destruct (record_command_frame cmd w Hok) as (Hokr & [i Hi] & _).
  cbv zeta.
  destruct (strncmp_eq cmd "cd ").
  { eexists. split; [reflexivity|]. apply change_directory_ok, Hokr. }
  destruct (strcmp_eq cmd "cd").
  { eexists. split; [reflexivity|]. unfold cd_home.
    destruct (os_home os); [apply change_directory_ok, Hokr|exact Hokr]. }
  pose proof (echo_command_logged os cmd _ Hokr) as Hecho.
  pose proof (lg_ok _ _ _ Hecho) as Hok0.
  destruct (is_interactive cmd).
  { eexists. split; [reflexivity|]. apply (run_interactive_entries os cmd _ Hok0). }
  destruct (os_run os _ cmd) as [errno|errno|pid stream_ok reads status].
  { eexists. split; [reflexivity|].
    apply (logged_log_line os _ _ _ (session_ok_tick _ Hok0)). }
  { eexists. split; [reflexivity|].
    apply (logged_log_line os _ _ _ (session_ok_tick _ Hok0)). }
  destruct (captured_run_facts os cmd w pid stream_ok reads status Hok)
    as (_ & _ & _ & Hok3 & Hs3 & _ & Hq3 & _).
  cbv zeta in Hok3, Hs3, Hq3.
  set (w3 := reap os status _) in *.
  destruct Hself as [Hempty|Hself].
  - exists w3. split; [|exact Hok3].
    apply process_command_queue_with_empty. rewrite Hq3. exact Hempty.
  - destruct (Z.eq_dec (cq_count (cmd_queue (get_active_terminal w3))) 0) as [Hz|Hnz].
    + exists w3. split; [|exact Hok3].
      apply process_command_queue_with_empty. exact Hz.
    + destruct (process_command_queue_with_next self w3 Hok3) as
          (next & rest & w4 & _ & Hstep & Hok4 & _ & Hc4 & _); [|exact Hnz|].
      { rewrite Hs3. discriminate. }
      rewrite Hstep. apply Hself; [exact Hok4|]. rewrite Hc4, Hq3. reflexivity.
Qed.

(** With one unit of fuel more than there are queued commands, a
    submission always comes back with a well-formed session. *)
Lemma execute_command_total os fuel : forall cmd w,
  session_ok w ->
  (Z.to_nat (cq_count (cmd_queue (get_active_terminal w))) <= fuel)%nat ->
  exists w', execute_command os (S fuel) cmd w = Some w' /\ session_ok w'.
Proof.
  induction fuel as [|fuel IH]; intros cmd w Hok Hfuel;
    change (execute_command os (S ?f) cmd w)
      with (execute_command_body os (execute_command os f) cmd w);
    apply execute_command_body_total; try exact Hok;
    pose proof (qi_count _ (qw_inv _ (so_queue _ Hok))) as Hc.
  - left. lia.
  - right. intros next w4 Hok4 Hc4. apply IH; [exact Hok4|]. lia.
Qed.

(** C3. Once the pipe of a captured command is closed and the child has
    been waited for, the session is Ready with process id 0 and its queue
    is still the one it had.  If the queue is empty the submission ends
    there.  Otherwise exactly the oldest command leaves the queue, the
    queue's state is then Normal and the lock flag is cleared, and the
    submission continues as execute_command on that command; with fuel for
    the queued commands this execution returns. *)
Theorem after_wait_one_queued_command_runs
    (os : OS) (fuel : nat) (cmd : string) (w : World)
    (pid : Z) (stream_ok : bool) (reads : list string) (status : Z) :
  session_ok w ->
  cmd_state (get_active_terminal w) <> CMD_STATE_RUNNING ->
  captured_command cmd ->
  os_run os (os_tick (echo_command os cmd (record_command cmd w))) cmd
  = Spawned pid stream_ok reads status ->
  let w0 := echo_command os cmd (record_command cmd w) in
  let w1 := begin_command pid cmd w0 in
  let w2 := if stream_ok then read_pipe os reads w1 else w1 in
  let w3 := reap os status w2 in
  let q := cmd_queue (get_active_terminal w) in
  cmd_state (get_active_terminal w3) = CMD_STATE_READY /\
  current_process (get_active_terminal w3) = 0 /\
  cmd_queue (get_active_terminal w3) = q /\
  (cq_count q = 0 -> execute_command os (S fuel) cmd w = Some w3) /\
  (cq_count q <> 0 ->
     exists next rest w4,
       pending q = next :: rest /\
       pending (cmd_queue (get_active_terminal w4)) = rest /\
       cq_count (cmd_queue (get_active_terminal w4)) = cq_count q - 1 /\
       cq_state (cmd_queue (get_active_terminal w4)) = QUEUE_NORMAL /\
       is_locked (input (get_active_terminal w4)) = 0 /\
       cmd_state (get_active_terminal w4) = CMD_STATE_READY /\
       current_process (get_active_terminal w4) = 0 /\
       active_entries w4 = active_entries w3 /\
       execute_command os (S fuel) cmd w = execute_command os fuel next w4 /\
       ((Z.to_nat (cq_count q) <= fuel)%nat ->
        exists w', execute_command os fuel next w4 = Some w' /\ session_ok w')).
Proof.
  intros Hok Hidle Hcap Hrun w0 w1 w2 w3 q.
  destruct (captured_run_facts os cmd w pid stream_ok reads status Hok)
    as (_ & _ & _ & Hok3 & Hs3 & Hp3 & Hq3 & _).
  fold w0 w1 w2 w3 q in Hok3, Hs3, Hp3, Hq3.
  change (execute_command os (S fuel) cmd w)
    with (execute_command_body os (execute_command os fuel) cmd w).
  rewrite (execute_captured os _ cmd w pid stream_ok reads status Hidle Hcap Hrun).
  fold w0 w1 w2 w3.
  split; [exact Hs3|]. split; [exact Hp3|]. split; [exact Hq3|].
  split.
  - intros Hz. apply process_command_queue_with_empty. rewrite Hq3. exact Hz.
  - intros Hnz.
    destruct (process_command_queue_with_next (execute_command os fuel) w3 Hok3)
      as (next & rest & w4 & Hpend & Hstep & Hok4 & Hrest & Hc4 & Hst4 & Hl4 & Hs4 & Hp4
          & He4 & _).
    { rewrite Hs3. discriminate. }
    { rewrite Hq3. exact Hnz. }
    rewrite Hq3 in Hpend, Hc4.
    exists next, rest, w4.
    split; [exact Hpend|]. split; [exact Hrest|]. split; [exact Hc4|].
    split; [exact Hst4|]. split; [exact Hl4|]. split; [congruence|].
    split; [congruence|]. split; [exact He4|]. split; [exact Hstep|].
    intros Hfuel.
    pose proof (qi_count _ (qw_inv _ (so_queue _ Hok))) as Hc. fold q in Hc.
    destruct fuel as [|fuel]; [lia|].
    apply execute_command_total; [exact Hok4|]. lia.
Qed.

Lemma queued_world_ok : session_ok queued_world.
Proof.
  destruct (add_command_to_queue_room sample_os "echo hello" running_world
              running_world_ok) as (Hok1 & _ & _ & _ & _ & Hs1 & _);
    [vm_compute; reflexivity|].
  apply (stop_running sample_os _ Hok1).
  - rewrite Hs1. reflexivity.
  - vm_compute. reflexivity.
Qed.

Lemma after_wait_one_queued_command_runs_witness :
  exists w4 w',
    execute_command sample_os 2 "ls" queued_world
    = execute_command sample_os 1 "echo hello" w4 /\
    is_locked (input (get_active_terminal w4)) = 0 /\
    pending (cmd_queue (get_active_terminal w4)) = [] /\
    execute_command sample_os 1 "echo hello" w4 = Some w'.
Proof.
  assert (captured_command "ls") as Hcap.
  { split; [repeat split; discriminate|repeat split; reflexivity]. }
  destruct (after_wait_one_queued_command_runs sample_os 1 "ls" queued_world
              4713 true [] 32512 queued_world_ok) as (_ & _ & _ & _ & Hnext);
    [vm_compute; discriminate | exact Hcap | reflexivity |].
  destruct Hnext as (next & rest & w4 & Hp & Hr & _ & _ & Hl & _ & _ & _ & Hstep & Htot);
    [vm_compute; discriminate|].
  vm_compute in Hp. injection Hp as <- <-.
  destruct Htot as (w' & Hw' & _); [vm_compute; lia|].
  exists w4, w'. repeat split; assumption.
Defined.

Lemma captured_lines_cons chunk more :
  chunk <> EmptyString ->
  captured_lines (chunk :: more)
  = (clean_line <$> filter (fun l => l <> EmptyString) (fields (c_str chunk)))
    ++ captured_lines more.
Proof.
  intros Hne. simpl. destruct chunk; [contradiction|]. simpl is_empty. cbv iota.
  rewrite chunk_lines_fields. reflexivity.
Qed.

(** An escape sequence that runs from ESC to its final [m] disappears
    from a line; the text around it stays. *)
Lemma strip_escape_codes_sequence (before params after : string) :
  strip_escape_codes before = before ->
  (forall c, is_substring (String c EmptyString) params = true ->
             c <> ESC /\ c <> "m"%char) ->
  strip_escape_codes (before ++ String ESC params ++ "m" ++ after)
  = (before ++ strip_escape_codes after)%string.
Proof.
  unfold strip_escape_codes. intros Hb Hp.
  assert (forall s, strip_escape_from true (params ++ "m" ++ s)
                    = strip_escape_from false s) as Hparams.
  { intros s. induction params as [|c ps IH]; [reflexivity|].
    destruct (Hp c) as [Hesc Hm].
    { simpl. destruct (Ascii.ascii_dec c c); [|congruence].
      destruct ps; reflexivity. }
    simpl. apply Ascii.eqb_neq in Hesc, Hm. rewrite Hesc, Hm. apply IH.
    intros d Hd. apply Hp. simpl. rewrite Hd. apply orb_true_r. }
  induction before as [|c bs IH]; simpl.
  - apply Hparams.
  - simpl in Hb. destruct (Ascii.eqb c ESC) eqn:Hc.
    + exfalso. clear -Hb. revert Hb.
      assert (forall b s, (String.length (strip_escape_from b s) <= String.length s)%nat) as Hlen.
      { intros b s. revert b. induction s as [|d s IHs]; intros b; simpl; [lia|].
        destruct (Ascii.eqb d ESC); [specialize (IHs true); lia|].
        destruct (b && Ascii.eqb d "m"); [specialize (IHs false); lia|].
        destruct b; [specialize (IHs true); lia|].
        simpl. specialize (IHs false). lia. }
      intros Hb. pose proof (Hlen true bs) as Hl. rewrite Hb in Hl. simpl in Hl. lia.
    + injection Hb as Hb. rewrite IH by exact Hb. reflexivity.
Qed.

(** What a captured command that starts Ready leaves behind, read by
    read: the status is Running from the fork until the pipe is closed and
    Ready after the wait, and each read() contributes the non-empty pieces
    between the newlines of its bytes (up to a NUL byte), in order, each
    copied (at most 1023 characters), passed to strip_escape_codes and
    appended as a normal-output entry after the command echo. *)
Lemma captured_output_logged_per_read
    (os : OS) (fuel : nat) (cmd : string) (w : World)
    (pid : Z) (reads : list string) (status : Z) :
  session_ok w ->
  cmd_state (get_active_terminal w) = CMD_STATE_READY ->
  captured_command cmd ->
  os_run os (os_tick (echo_command os cmd (record_command cmd w))) cmd
  = Spawned pid true reads status ->
  let w0 := echo_command os cmd (record_command cmd w) in
  let w1 := begin_command pid cmd w0 in
  let w2 := read_pipe os reads w1 in
  let w3 := reap os status w2 in
  let echo := (stored_text (line_break_enabled w) (echo_line os cmd w),
               HISTORY_TYPE_COMMAND) in
  execute_command os (S fuel) cmd w = process_command_queue os fuel w3 /\
  cmd_state (get_active_terminal w1) = CMD_STATE_RUNNING /\
  cmd_state (get_active_terminal w2) = CMD_STATE_RUNNING /\
  cmd_state (get_active_terminal w3) = CMD_STATE_READY /\
  active_entries w2
  = active_entries w ++ [echo] ++ (normal_entry <$> captured_lines reads) /\
  captured_lines [] = [] /\
  (forall more, captured_lines (EmptyString :: more) = []) /\
  (forall chunk more,
     chunk <> EmptyString ->
     captured_lines (chunk :: more)
     = ((fun piece => strip_escape_codes (strncpy 1023 piece))
          <$> filter (fun l => l <> EmptyString) (fields (c_str chunk)))
       ++ captured_lines more) /\
  (cmd = "echo hello"%string -> reads = ["hello" ++ LF]%string -> status = 0 ->
   cq_count (cmd_queue (get_active_terminal w)) = 0 ->
   execute_command os (S fuel) cmd w = Some w3 /\
   active_entries w3 = active_entries w ++ [echo; ("hello"%string, HISTORY_TYPE_NORMAL)]).
Proof.
  intros Hok Hready Hcap Hrun w0 w1 w2 w3 echo.
  assert (cmd_state (get_active_terminal w) <> CMD_STATE_RUNNING) as Hidle
      by (rewrite Hready; discriminate).
  destruct (captured_run_facts os cmd w pid true reads status Hok)
    as (He0 & (Hs1 & _ & _) & (_ & Hs2 & _ & He2) & (_ & Hs3 & _ & Hq3 & He3 & _)).
  fold w0 w1 w2 w3 echo in He0, Hs1, Hs2, He2, Hs3, Hq3, He3.
  assert (execute_command os (S fuel) cmd w = process_command_queue os fuel w3) as Hexec
      by apply (execute_captured os _ cmd w pid true reads status Hidle Hcap Hrun).
  split; [exact Hexec|].
  split; [exact Hs1|]. split; [exact Hs2|]. split; [exact Hs3|].
  split; [rewrite He2, He0, <- app_assoc; reflexivity|].
  split; [reflexivity|]. split; [reflexivity|].
  split; [intros chunk more Hne; apply captured_lines_cons, Hne|].
  intros -> -> -> Hempty. split.
  - rewrite Hexec. apply process_command_queue_with_empty. rewrite Hq3. exact Hempty.
  - rewrite He3, He2, He0, <- !app_assoc. reflexivity.
Qed.

Lemma captured_output_logged_per_read_witness :
  exists w3,
    execute_command sample_os 1 "echo hello" sample_world = Some w3 /\
    active_entries w3 = [("[12:00:00] echo hello"%string, HISTORY_TYPE_COMMAND);
                         ("hello"%string, HISTORY_TYPE_NORMAL)] /\
    cmd_state (get_active_terminal w3) = CMD_STATE_READY.
Proof.
  assert (captured_command "echo hello") as Hcap.
  { split; [repeat split; discriminate|repeat split; reflexivity]. }
  destruct (captured_output_logged_per_read sample_os 0 "echo hello" sample_world
              4711 ["hello" ++ LF]%string 0 sample_world_ok eq_refl Hcap eq_refl)
    as (_ & _ & _ & Hs3 & _ & _ & _ & _ & Hecho).
  destruct (Hecho eq_refl eq_refl eq_refl eq_refl) as (Hexec & Hent).
  eexists. split; [exact Hexec|]. split; [exact Hent|exact Hs3].
Defined.


(** ** Closing a terminal *)

(** Case analysis on the integer tests of the goal. *)
Ltac ztests :=
  repeat match goal with
         | |- context [?x <=? ?y] => destruct (Z.leb_spec x y)
         | |- context [?x <? ?y] => destruct (Z.ltb_spec x y)
         | |- context [?x >? ?y] => destruct (Z.gtb_spec x y)
         | |- context [?x >=? ?y] => destruct (Z.geb_spec x y)
         | |- context [?x =? ?y] => destruct (Z.eqb_spec x y)
         end; simpl.

Lemma shift_loop_length a ts (rounds : list Z) :
  length (foldl (shift_step a) ts rounds) = length ts.
Proof.
  revert ts. induction rounds as [|i rounds IH]; intros ts; simpl; [reflexivity|].
  rewrite IH. unfold shift_step. apply length_insert.
Qed.

Lemma shift_loop_lookup a ts k : forall j,
  0 <= a -> 0 <= j ->
  (Z.to_nat a + k <= length ts)%nat ->
  foldl (shift_step a) ts ((fun i : nat => a + Z.of_nat i) <$> seq 0 k)
    !!! Z.to_nat j
  = if (a <=? j) && (j <? a + Z.of_nat k)
    then renumbered a j (ts !!! Z.to_nat (j + 1))
    else ts !!! Z.to_nat j.
Proof.
  induction k as [|k IH]; intros j Ha Hj Hlen.
  - simpl. ztests; try reflexivity; lia.
  - rewrite seq_S, fmap_app, foldl_app. simpl foldl. unfold shift_step at 1.
    set (res := foldl (shift_step a) ts _) in *.
    assert (length res = length ts) as Hres by apply shift_loop_length.
    destruct (Z.eq_dec j (a + Z.of_nat k)) as [->|Hne].
    + rewrite list_lookup_total_insert_eq by lia.
      unfold res. rewrite IH by lia.
      ztests; try reflexivity; lia.
    + rewrite list_lookup_total_insert_ne by lia.
      unfold res. rewrite IH by lia.
      ztests; try reflexivity; lia.
Qed.

Lemma shift_terminals_lookup a n ts j :
  0 <= a < n -> 0 <= j -> (Z.to_nat n <= length ts)%nat ->
  shift_terminals a n ts !!! Z.to_nat j
  = if (a <=? j) && (j <? n - 1)
    then renumbered a j (ts !!! Z.to_nat (j + 1))
    else ts !!! Z.to_nat j.
Proof.
  intros Ha Hj Hlen. unfold shift_terminals.
  rewrite shift_loop_lookup by lia.
  replace (a + Z.of_nat (Z.to_nat (n - 1 - a))) with (n - 1) by lia.
  reflexivity.
Qed.

(** stop_current_command touches the active cell only, and not its split
    reference. *)
Lemma stop_current_command_cells os w :
  terminal_count (terminal_manager (stop_current_command os w))
  = terminal_count (terminal_manager w) /\
  active_terminal (terminal_manager (stop_current_command os w))
  = active_terminal (terminal_manager w) /\
  split_layout (terminal_manager (stop_current_command os w))
  = split_layout (terminal_manager w) /\
  exists t,
    terminals (terminal_manager (stop_current_command os w))
    = <[Z.to_nat (active_id w) := t]> (terminals (terminal_manager w)) /\
    split_with t = split_with (get_active_terminal w).
Proof.
  unfold stop_current_command.
  destruct (_ && _).
  - split; [reflexivity|]. split; [reflexivity|]. split; [reflexivity|].
    eexists. split.
    + unfold update_active, update_terminal, log_line, log_at, update_terminal. simpl.
      rewrite list_insert_insert_eq. reflexivity.
    + unfold terminal_at, log_line, log_at, update_terminal, active_id. simpl.
      destruct (decide (Z.to_nat (active_terminal (terminal_manager w))
                        < length (terminals (terminal_manager w)))%nat) as [Hlt|Hge].
      * rewrite list_lookup_total_insert_eq by exact Hlt. reflexivity.
      * rewrite list_insert_ge by lia. reflexivity.
  - split; [reflexivity|]. split; [reflexivity|]. split; [reflexivity|].
    eexists. split; reflexivity.
Qed.

Lemma close_stop_phase os w :
  let a := active_terminal (terminal_manager w) in
  let w1 := if cmd_state (terminal_at a w) =? CMD_STATE_RUNNING
            then stop_current_command os w else w in
  terminal_count (terminal_manager w1) = terminal_count (terminal_manager w) /\
  active_terminal (terminal_manager w1) = a /\
  split_layout (terminal_manager w1) = split_layout (terminal_manager w) /\
  length (terminals (terminal_manager w1)) = length (terminals (terminal_manager w)) /\
  split_with (terminal_at a w1) = split_with (terminal_at a w) /\
  forall o, Z.to_nat o <> Z.to_nat a -> terminal_at o w1 = terminal_at o w.
Proof.
  intros a w1. subst w1.
  destruct (cmd_state (terminal_at a w) =? CMD_STATE_RUNNING).
  - destruct (stop_current_command_cells os w) as (Hc & Ha & Hl & t & Ht & Hsw).
    split; [exact Hc|]. split; [exact Ha|]. split; [exact Hl|].
    unfold terminal_at. rewrite Ht. fold a. unfold active_id. fold a.
    split; [apply length_insert|]. split.
    + destruct (decide (Z.to_nat a < length (terminals (terminal_manager w)))%nat).
      * rewrite list_lookup_total_insert_eq by assumption. exact Hsw.
      * rewrite list_insert_ge by lia. reflexivity.
    + intros o Ho. apply list_lookup_total_insert_ne. lia.
  - repeat split; reflexivity.
Qed.

Lemma same_session_refl t : same_session t t.
Proof. repeat split; reflexivity. Qed.

Lemma same_session_set_split_with v t : same_session t (set_split_with v t).
Proof. repeat split; reflexivity. Qed.

Lemma same_session_renumbered a i t t0 :
  same_session t0 t -> same_session t0 (renumbered a i t).
Proof.
  intros H. unfold renumbered.
  destruct (_ && _); simpl; exact H.
Qed.

Lemma renumbered_fields a i t :
  term_id (renumbered a i t) = i /\
  split_with (renumbered a i t)
  = if negb (split_with t =? -1) && (split_with t >? a)
    then int_wrap (split_with t - 1) else split_with t.
Proof.
  unfold renumbered. simpl. destruct (_ && _); split; reflexivity.
Qed.

(** What close_current_terminal does to the cells.  With a single terminal
    it does nothing.  With N > 1 terminals, the active one at index a: N - 1
    terminals remain, the active index stays unless it was the last and
    then becomes N - 2, and cell j holds the session that was at index j
    (for j < a) or j + 1 (for j >= a), with id j.  The terminal the closed
    one was split with has its split reference set to -1.  A terminal
    that moved down (original index above a) has its split reference
    decremented by one exactly when that reference was itself above a.  A
    terminal below a is not visited by the loop and keeps its reference,
    whatever it refers to. *)
Lemma close_current_terminal_compacts (os : OS) (w : World) :
  manager_ok w ->
  let m := terminal_manager w in
  let N := terminal_count m in
  let a := active_terminal m in
  let partner := split_with (terminal_at a w) in
  let w' := close_current_terminal os w in
  (N = 1 -> w' = w) /\
  (1 < N ->
     terminal_count (terminal_manager w') = N - 1 /\
     active_terminal (terminal_manager w') = (if a =? N - 1 then N - 2 else a) /\
     forall j, 0 <= j < N - 1 ->
       let o := if j <? a then j else j + 1 in
       let old := terminal_at o w in
       let new := terminal_at j w' in
       term_id new = j /\
       same_session old new /\
       (o = partner -> split_with new = -1) /\
       (o <> partner -> a < o ->
          split_with new = if split_with old >? a then split_with old - 1
                           else split_with old) /\
       (o <> partner -> o < a -> split_with new = split_with old)).
Proof.
  intros [Hcount Hcells Hactive Hids Hpartners] m N a partner w'. subst m.
  fold N a in Hcount, Hactive, Hids, Hpartners. unfold MAX_TERMINALS in *.
  subst w'. unfold close_current_terminal. fold N a.
  split.
  { intros ->. reflexivity. }
  intros HN. destruct (Z.leb_spec N 1) as [|_]; [lia|].
  destruct (close_stop_phase os w) as (Hc1 & Ha1 & Hl1 & Hlen1 & Hsw1 & Hoth1).
  fold N a in Hc1, Ha1, Hl1, Hlen1, Hsw1, Hoth1.
  set (w1 := if cmd_state (terminal_at a w) =? CMD_STATE_RUNNING
             then stop_current_command os w else w) in *.
  fold partner in Hsw1. rewrite Hsw1.
  set (w2 := if negb (partner =? -1)
             then update_terminal partner (set_split_with (-1)) w1 else w1).
  assert (terminal_count (terminal_manager w2) = N) as Hc2
      by (subst w2; destruct (negb (partner =? -1)); exact Hc1).
  assert (active_terminal (terminal_manager w2) = a) as Ha2
      by (subst w2; destruct (negb (partner =? -1)); exact Ha1).
  assert (length (terminals (terminal_manager w2)) = 8%nat) as Hlen2.
  { subst w2. destruct (negb (partner =? -1)); simpl; rewrite ?length_insert; lia. }
  assert (partner = -1 \/ 0 <= partner < N) as Hp by (apply Hpartners; lia).
  assert (forall o, 0 <= o < N -> o <> a ->
            terminal_at o w2
            = if o =? partner then set_split_with (-1) (terminal_at o w)
              else terminal_at o w) as Hcell.
  { intros o Ho Hoa. subst w2.
    destruct (Z.eqb_spec partner (-1)) as [Hp1|Hp1]; simpl negb; cbv iota.
    - destruct (Z.eqb_spec o partner); [lia|]. apply Hoth1. lia.
    - destruct (Z.eqb_spec o partner) as [->|Hop].
      + rewrite terminal_at_update_eq by lia. f_equal. apply Hoth1. lia.
      + rewrite terminal_at_update_ne by lia. apply Hoth1. lia. }
  rewrite Hc2, Ha2. rewrite !int_wrap_small by lia.
  simpl terminal_count. simpl active_terminal.
  split; [reflexivity|]. split.
  { destruct (Z.geb_spec a (N - 1)), (Z.eqb_spec a (N - 1)); try reflexivity; lia. }
  intros j Hj.
  match goal with
  | |- context [terminal_at j ?x] =>
      assert (terminal_at j x
              = if (a <=? j) && (j <? N - 1)
                then renumbered a j (terminal_at (j + 1) w2)
                else terminal_at j w2) as Hnew
          by (unfold terminal_at at 1; simpl terminals;
              apply shift_terminals_lookup; lia);
      rewrite Hnew; clear Hnew
  end.
  destruct (Z.ltb_spec j a) as [Hlt|Hge].
  - (* below the closed terminal: the cell is not moved *)
    destruct (Z.leb_spec a j); [lia|]. simpl andb. cbv iota.
    rewrite Hcell by lia.
    destruct (Z.eqb_spec j partner) as [Hjp|Hjp].
    + split; [apply Hids; lia|]. split; [apply same_session_set_split_with|].
      split; [reflexivity|]. split; [contradiction|contradiction].
    + split; [apply Hids; lia|]. split; [apply same_session_refl|].
      split; [contradiction|]. split; [lia|]. reflexivity.
  - (* at or above: the next terminal moves down *)
    destruct (Z.leb_spec a j); [|lia]. destruct (Z.ltb_spec j (N - 1)); [|lia].
    simpl andb. cbv iota.
    rewrite Hcell by lia.
    destruct (renumbered_fields a j
                (if j + 1 =? partner then set_split_with (-1) (terminal_at (j + 1) w)
                 else terminal_at (j + 1) w)) as [Hid Hsw].
    split; [exact Hid|]. rewrite Hsw.
    destruct (Hpartners (j + 1)) as [Hnone|Hsome]; [lia| |];
      (destruct (Z.eqb_spec (j + 1) partner) as [Hjp|Hjp];
       [split; [apply same_session_renumbered, same_session_set_split_with|];
        split; [reflexivity|]; split; [contradiction|contradiction]
       |split; [apply same_session_renumbered, same_session_refl|];
        split; [contradiction|]; split; [|lia]]).
    + intros _ _. rewrite Hnone. simpl.
      destruct (Z.gtb_spec (-1) a); [lia|reflexivity].
    + intros _ _.
      destruct (Z.eqb_spec (split_with (terminal_at (j + 1) w)) (-1)); [lia|].
      simpl negb. simpl andb.
      destruct (Z.gtb_spec (split_with (terminal_at (j + 1) w)) a);
        [apply int_wrap_small; lia|reflexivity].
Qed.

Lemma three_sessions_shape :
  terminal_count (terminal_manager three_sessions) = 3 /\
  active_terminal (terminal_manager three_sessions) = 1 /\
  length (terminals (terminal_manager three_sessions)) = 8%nat /\
  (term_id (terminal_at 0 three_sessions) = 0 /\
   term_id (terminal_at 1 three_sessions) = 1 /\
   term_id (terminal_at 2 three_sessions) = 2) /\
  (split_with (terminal_at 0 three_sessions) = 2 /\
   split_with (terminal_at 1 three_sessions) = -1 /\
   split_with (terminal_at 2 three_sessions) = 0).
Proof. repeat split; vm_compute; reflexivity. Qed.

Lemma three_sessions_ok : manager_ok three_sessions.
Proof.
  destruct three_sessions_shape as (Hc & Ha & Hl & (I0 & I1 & I2) & (S0 & S1 & S2)).
  split; rewrite ?Hc, ?Ha; unfold MAX_TERMINALS; try lia.
  - intros i Hi.
    assert (i = 0 \/ i = 1 \/ i = 2) as [->|[->| ->]] by lia; assumption.
  - intros i Hi.
    assert (i = 0 \/ i = 1 \/ i = 2) as [->|[->| ->]] by lia;
      rewrite ?S0, ?S1, ?S2; lia.
Qed.

Lemma close_current_terminal_compacts_witness :
  terminal_count (terminal_manager (close_current_terminal sample_os three_sessions)) = 3 - 1 /\
  term_id (terminal_at 1 (close_current_terminal sample_os three_sessions)) = 1 /\
  same_session (terminal_at 2 three_sessions)
               (terminal_at 1 (close_current_terminal sample_os three_sessions)).
Proof.
  destruct three_sessions_shape as (Hc & Ha & _).
  destruct (close_current_terminal_compacts sample_os three_sessions three_sessions_ok)
    as [_ Hclose].
  rewrite Hc, Ha in Hclose.
  destruct Hclose as (Hcount & _ & Hcells); [lia|].
  split; [exact Hcount|].
  destruct (Hcells 1) as (Hid & Hsame & _); [lia|].
  split; [exact Hid|exact Hsame].
Defined.

(** Closing the second of three terminals whose first and third are
    split partners: the loop never visits the first terminal, whose
    reference to the third stays at 2 although only indices 0 and 1
    remain. *)
Lemma close_leaves_reference_above_closed :
  split_with (terminal_at 0 three_sessions) = 2 /\
  terminal_count (terminal_manager (close_current_terminal sample_os three_sessions)) = 2 /\
  split_with (terminal_at 0 (close_current_terminal sample_os three_sessions)) = 2.
Proof. repeat split; vm_compute; reflexivity. Qed.

(** C5.  close_current_terminal renumbers only the cells it moves down.
    A terminal [j] below the closed one (index [a]) that is split with a
    terminal [k] above it, and is not the partner of the closed one, is
    not visited by the loop that fills the gap: it keeps the reference
    [k], although the session it is split with now sits in cell [k - 1]
    with id [k - 1] (and still refers back to [j]).  The reference is one
    too high; when [k] was the last terminal it designates none of the
    [N - 1] terminals that remain.  The claim has such references
    decremented by one. *)
Theorem close_current_terminal_misses_references_from_below
    (os : OS) (w : World) (j : Z) :
  manager_ok w ->
  let N := terminal_count (terminal_manager w) in
  let a := active_terminal (terminal_manager w) in
  let k := split_with (terminal_at j w) in
  let w' := close_current_terminal os w in
  0 <= j < a -> a < k -> split_with (terminal_at a w) <> j ->
  terminal_count (terminal_manager w') = N - 1 /\
  term_id (terminal_at j w') = j /\
  split_with (terminal_at j w') = k /\
  split_with (terminal_at j w') <> k - 1 /\
  term_id (terminal_at (k - 1) w') = k - 1 /\
  same_session (terminal_at k w) (terminal_at (k - 1) w') /\
  (split_with (terminal_at a w) <> k -> split_with (terminal_at k w) = j ->
   split_with (terminal_at (k - 1) w') = j) /\
  (k = N - 1 -> terminal_count (terminal_manager w') <= split_with (terminal_at j w')).
Proof.
  intros Hok N a k w' Hj Hk Hpartner.
  pose proof (mo_count w Hok) as Hcount. pose proof (mo_active w Hok) as Hactive.
  fold N in Hcount, Hactive. fold a in Hactive.
  assert (Hkn : 0 <= k < N).
  { destruct (mo_partners w Hok j) as [Hnone|Hsome]; [fold N; lia| |exact Hsome].
    fold k in Hnone. lia. }
  destruct (close_current_terminal_compacts os w Hok) as [_ Hclose].
  fold N a w' in Hclose. cbv zeta in Hclose.
  destruct Hclose as (Hcnt & _ & Hcells); [lia|].
  destruct (Hcells j) as (Hid_j & _ & _ & _ & Hkeep); [lia|].
  replace (j <? a) with true in * by (symmetry; apply Z.ltb_lt; lia).
  specialize (Hkeep ltac:(intros E; apply Hpartner; symmetry; exact E) ltac:(lia)).
  fold k in Hkeep.
  destruct (Hcells (k - 1)) as (Hid_k & Hsame & _ & Hmoved & _); [lia|].
  replace (k - 1 <? a) with false in * by (symmetry; apply Z.ltb_ge; lia).
  replace (k - 1 + 1) with k in * by lia.
  split; [exact Hcnt|]. split; [exact Hid_j|]. split; [exact Hkeep|].
  split; [rewrite Hkeep; lia|]. split; [exact Hid_k|]. split; [exact Hsame|].
  split.
  - intros Hnp Hback.
    rewrite (Hmoved ltac:(intros E; apply Hnp; symmetry; exact E) ltac:(lia)).
    rewrite Hback. destruct (Z.gtb_spec j a); [lia|reflexivity].
  - intros Hlast. rewrite Hcnt, Hkeep. lia.
Qed.

Lemma close_current_terminal_misses_references_from_below_witness :
  let w := three_sessions in
  let j := 0 in
  let N := terminal_count (terminal_manager w) in
  let a := active_terminal (terminal_manager w) in
  let k := split_with (terminal_at j w) in
  let w' := close_current_terminal sample_os w in
  terminal_count (terminal_manager w') = N - 1 /\
  term_id (terminal_at j w') = j /\
  split_with (terminal_at j w') = k /\
  split_with (terminal_at j w') <> k - 1 /\
  term_id (terminal_at (k - 1) w') = k - 1 /\
  same_session (terminal_at k w) (terminal_at (k - 1) w') /\
  (split_with (terminal_at a w) <> k -> split_with (terminal_at k w) = j ->
   split_with (terminal_at (k - 1) w') = j) /\
  (k = N - 1 -> terminal_count (terminal_manager w') <= split_with (terminal_at j w')).
Proof.
  apply (close_current_terminal_misses_references_from_below sample_os three_sessions 0).
  - exact three_sessions_ok.
  - vm_compute. split; [intros H; discriminate H|reflexivity].
  - vm_compute. reflexivity.
  - vm_compute. intros H; discriminate H.
Defined.

(** ** Submissions return *)

(** A submission made with [enough_fuel] returns, and the session it
    returns is well formed. *)
Corollary submission_returns os cmd w :
  session_ok w ->
  exists w', execute_command os (enough_fuel w) cmd w = Some w' /\ session_ok w'.
Proof.
  intros Hok. unfold enough_fuel. apply execute_command_total; [exact Hok|lia].
Qed.

Corollary submit_all_returns os cmds : forall w,
  session_ok w -> exists w', submit_all os cmds w = Some w' /\ session_ok w'.
Proof.
  induction cmds as [|cmd cmds IH]; intros w Hok.
  - exists w. split; [reflexivity|exact Hok].
  - destruct (submission_returns os cmd w Hok) as (w1 & Hw1 & Hok1).
    change (submit_all os (cmd :: cmds) w)
      with (match execute_command os (enough_fuel w) cmd w with
            | Some w' => submit_all os cmds w'
            | None => None
            end).
    rewrite Hw1. apply IH, Hok1.
Qed.

(** * Further properties of the code *)

(** ** The history buffer grows and keeps what it holds *)

Lemma add_history_line_fields lbe now buf text ty :
  history_wf buf ->
  let buf' := add_history_line lbe now buf text ty in
  hb_count buf' = hb_count buf + 1 /\
  hb_scroll_offset buf' = hb_scroll_offset buf /\
  (hb_capacity buf' = hb_capacity buf \/
   (hb_count buf = hb_capacity buf /\ hb_capacity buf' = 2 * hb_capacity buf)).
Proof.
  intros [Hc Hcap _ _ _]. unfold add_history_line.
  destruct (Z.geb_spec (hb_count buf) (hb_capacity buf)); simpl.
  - split; [reflexivity|]. split; [reflexivity|]. right. lia.
  - split; [reflexivity|]. split; [reflexivity|]. left. reflexivity.
Qed.

Lemma add_history_lines_from lbe stamps items : forall buf k,
  history_wf buf ->
  let buf' := (foldl (fun (st : HistoryBuffer * nat) (item : string * Z) =>
                        (add_history_line lbe (stamps st.2) st.1 item.1 item.2, S st.2))
                     (buf, k) items).1 in
  history_wf buf' /\
  entries buf' = entries buf ++ ((fun item => (stored_text lbe item.1, item.2)) <$> items) /\
  hb_count buf' = hb_count buf + Z.of_nat (length items) /\
  hb_capacity buf <= hb_capacity buf' /\
  hb_scroll_offset buf' = hb_scroll_offset buf.
Proof.
  induction items as [|[text ty] items IH]; intros buf k Hwf; simpl.
  - rewrite app_nil_r, Z.add_0_r. repeat split; try apply Hwf; lia.
  - destruct (add_history_line_entries lbe (stamps k) buf text ty Hwf) as [Hwf1 He1].
    destruct (add_history_line_fields lbe (stamps k) buf text ty Hwf) as (Hc1 & Hs1 & Hcap1).
    destruct (IH _ (S k) Hwf1) as (Hwf' & He' & Hc' & Hcap' & Hs').
    split; [exact Hwf'|]. split; [rewrite He', He1, <- app_assoc; reflexivity|].
    split; [rewrite Hc', Hc1; lia|].
    split; [|congruence].
    pose proof (hw_capacity _ Hwf). destruct Hcap1 as [Heq|[_ Heq]]; lia.
Qed.

Lemma list_501_split {A} (l : list A) :
  length l = 501%nat ->
  exists firsts last, l = firsts ++ [last] /\ length firsts = 500%nat.
Proof.
  intros Hl. induction l as [|x f _] using rev_ind; [discriminate|].
  exists f, x. split; [reflexivity|]. rewrite length_app in Hl. simpl in Hl. lia.
Qed.

(** While no more lines have been appended to a fresh buffer than it has
    cells, its capacity is still 500. *)
Lemma full_buffer_capacity lbe stamps items :
  (length items <= 500)%nat ->
  hb_capacity (foldl (fun (st : HistoryBuffer * nat) (item : string * Z) =>
                        (add_history_line lbe (stamps st.2) st.1 item.1 item.2, S st.2))
                     (init_history_buffer, O) items).1 = 500.
Proof.
  induction items as [|item items IH] using rev_ind; intros Hlen; [reflexivity|].
  rewrite length_app in Hlen. simpl in Hlen.
  rewrite foldl_app. cbn [foldl fst].
  destruct (add_history_lines_from lbe stamps items init_history_buffer O
              init_history_buffer_wf) as (Hwf1 & _ & Hc1 & _).
  set (st := foldl _ (init_history_buffer, O) items) in *.
  specialize (IH ltac:(lia)).
  destruct (add_history_line_fields lbe (stamps st.2) st.1 item.1 item.2 Hwf1)
    as (_ & _ & [Hsame|[Hfull _]]).
  - rewrite Hsame. exact IH.
  - simpl in Hc1. lia.
Qed.

(** X1. However many lines are appended to a history buffer, none of the
    earlier entries is lost or reordered: the entries are the old ones
    followed by the new ones in order, each with its classification, the
    count grows by the number of appends, the capacity never shrinks and
    the scroll offset is not touched.  In particular 501 appends to a fresh
    buffer (capacity 500) leave 501 entries in a buffer of capacity 1000. *)
Theorem history_appends_keep_all_entries
    (lbe : Z) (stamps : nat -> Z) (buf : HistoryBuffer) (items : list (string * Z)) :
  history_wf buf ->
  let buf' := add_history_lines lbe stamps buf items in
  history_wf buf' /\
  entries buf' = entries buf ++ ((fun item => (stored_text lbe item.1, item.2)) <$> items) /\
  hb_count buf' = hb_count buf + Z.of_nat (length items) /\
  hb_capacity buf <= hb_capacity buf' /\
  hb_scroll_offset buf' = hb_scroll_offset buf /\
  (buf = init_history_buffer -> length items = 501%nat ->
   hb_capacity buf' = 1000 /\ length (entries buf') = 501%nat).
Proof.
  intros Hwf buf'.
  destruct (add_history_lines_from lbe stamps items buf O Hwf) as (Hwf' & He & Hc & Hcap & Hs).
  fold (add_history_lines lbe stamps buf items) in Hwf', He, Hc, Hcap, Hs. fold buf' in Hwf', He, Hc, Hcap, Hs.
  repeat (split; [assumption|]).
  intros -> Hlen.
  assert (length (entries buf') = 501%nat) as Hn.
  { rewrite He, length_app, length_fmap, Hlen. reflexivity. }
  split; [|exact Hn].
  (* the first 500 appends fill the buffer, the next one doubles it *)
  destruct (list_501_split items Hlen) as (firsts & last & -> & Hf).
  subst buf'. unfold add_history_lines. rewrite foldl_app.
  destruct (add_history_lines_from lbe stamps firsts init_history_buffer O
              init_history_buffer_wf) as (Hwf1 & _ & Hc1 & Hcap1 & _).
  set (st := foldl _ (init_history_buffer, O) firsts) in *.
  pose proof (full_buffer_capacity lbe stamps firsts) as Hfull.
  fold st in Hfull. rewrite Hf in Hfull, Hc1. simpl in Hc1.
  specialize (Hfull (Nat.le_refl _)).
  destruct last as [text ty]. cbn [foldl fst snd].
  destruct (add_history_line_fields lbe (stamps st.2) st.1 text ty Hwf1) as (_ & _ & [Hsame|[_ Hdbl]]).
  - exfalso.
    pose proof (add_history_line_entries lbe (stamps st.2) st.1 text ty Hwf1) as [Hwf2 _].
    destruct (add_history_line_fields lbe (stamps st.2) st.1 text ty Hwf1) as (Hc2 & _).
    pose proof (hw_count _ Hwf2). lia.
  - rewrite Hdbl, Hfull. reflexivity.
Qed.

Lemma history_appends_keep_all_entries_witness :
  entries (add_history_lines 0 (fun n => Z.of_nat n) init_history_buffer
             [("one"%string, HISTORY_TYPE_RAW); ("two"%string, HISTORY_TYPE_NORMAL)])
  = [("one"%string, HISTORY_TYPE_RAW); ("two"%string, HISTORY_TYPE_NORMAL)].
Proof.
  destruct (history_appends_keep_all_entries 0 (fun n => Z.of_nat n) init_history_buffer
              [("one"%string, HISTORY_TYPE_RAW); ("two"%string, HISTORY_TYPE_NORMAL)]
              init_history_buffer_wf) as (_ & He & _).
  rewrite He. reflexivity.
Defined.

(** ** Scrolling *)

Lemma scroll_terminal_up_range h :
  hb_count h < 2 ^ 31 ->
  0 <= hb_scroll_offset h <= Z.max 0 (hb_count h - 1) ->
  0 <= hb_scroll_offset (scroll_terminal_up h) <= Z.max 0 (hb_count h - 1) /\
  hb_count (scroll_terminal_up h) = hb_count h /\
  entries (scroll_terminal_up h) = entries h.
Proof.
  intros Hc Hr. unfold scroll_terminal_up.
  destruct (Z.ltb_spec (hb_scroll_offset h) (hb_count h - 1)); simpl.
  - rewrite int_wrap_small by lia. repeat split; try reflexivity; lia.
  - repeat split; try reflexivity; lia.
Qed.

Lemma scroll_terminal_down_range h :
  hb_count h < 2 ^ 31 ->
  0 <= hb_scroll_offset h <= Z.max 0 (hb_count h - 1) ->
  0 <= hb_scroll_offset (scroll_terminal_down h) <= Z.max 0 (hb_count h - 1) /\
  hb_count (scroll_terminal_down h) = hb_count h /\
  entries (scroll_terminal_down h) = entries h.
Proof.
  intros Hc Hr. unfold scroll_terminal_down.
  destruct (Z.gtb_spec (hb_scroll_offset h) 0); simpl.
  - rewrite int_wrap_small by lia. repeat split; try reflexivity; lia.
  - repeat split; try reflexivity; lia.
Qed.

(** X2. Scrolling never leaves the history: after any sequence of scroll
    ups and downs the offset is still between 0 (the newest lines) and
    count - 1, and the entries are untouched.  Scrolling down at offset 0
    and scrolling up at the oldest line do nothing, and below the oldest
    line a scroll up is undone by a scroll down. *)
Theorem scroll_offset_stays_in_history (h : HistoryBuffer) (ops : list scroll_op) :
  hb_count h < 2 ^ 31 ->
  0 <= hb_scroll_offset h <= Z.max 0 (hb_count h - 1) ->
  (0 <= hb_scroll_offset (foldl apply_scroll h ops) <= Z.max 0 (hb_count h - 1) /\
   entries (foldl apply_scroll h ops) = entries h) /\
  (hb_scroll_offset h = 0 -> scroll_terminal_down h = h) /\
  (hb_scroll_offset h = Z.max 0 (hb_count h - 1) -> scroll_terminal_up h = h) /\
  (hb_scroll_offset h < hb_count h - 1 ->
   hb_scroll_offset (scroll_terminal_up h) = hb_scroll_offset h + 1 /\
   scroll_terminal_down (scroll_terminal_up h) = h).
Proof.
  intros Hc Hr. split; [|split; [|split]].
  - revert h Hc Hr. induction ops as [|op ops IH]; intros h Hc Hr; simpl.
    + split; [exact Hr|reflexivity].
    + assert (0 <= hb_scroll_offset (apply_scroll h op) <= Z.max 0 (hb_count h - 1) /\
              hb_count (apply_scroll h op) = hb_count h /\
              entries (apply_scroll h op) = entries h) as (Hr1 & Hc1 & He1).
      { destruct op; [apply scroll_terminal_up_range|apply scroll_terminal_down_range];
          assumption. }
      destruct (IH (apply_scroll h op)) as [Hr' He']; [lia|rewrite Hc1; exact Hr1|].
      rewrite Hc1 in Hr'. split; [exact Hr'|congruence].
  - intros Hz. unfold scroll_terminal_down. rewrite Hz. reflexivity.
  - intros Hmax. unfold scroll_terminal_up.
    destruct (Z.ltb_spec (hb_scroll_offset h) (hb_count h - 1)); [lia|reflexivity].
  - intros Hlt. unfold scroll_terminal_up.
    destruct (Z.ltb_spec (hb_scroll_offset h) (hb_count h - 1)); [|lia].
    unfold scroll_terminal_down. simpl.
    rewrite !int_wrap_small by lia.
    destruct (Z.gtb_spec (hb_scroll_offset h + 1) 0); [|lia].
    rewrite ?int_wrap_small by lia.
    split; [reflexivity|].
    destruct h as [ls ts ss c cap off]. simpl. f_equal. lia.
Qed.

Lemma scroll_offset_stays_in_history_witness :
  hb_scroll_offset
    (foldl apply_scroll
       (add_history_lines 1 (fun _ => 0) init_history_buffer
          [("a"%string, 0); ("b"%string, 0); ("c"%string, 0)])
       [ScrollUp; ScrollUp; ScrollUp; ScrollUp; ScrollDown]) = 1.
Proof.
  pose proof (scroll_offset_stays_in_history
                (add_history_lines 1 (fun _ => 0) init_history_buffer
                   [("a"%string, 0); ("b"%string, 0); ("c"%string, 0)])
                [ScrollUp; ScrollUp; ScrollUp; ScrollUp; ScrollDown]) as H.
  destruct H as [[_ _] _]; [vm_compute; reflexivity|vm_compute; split; discriminate|].
  vm_compute. reflexivity.
Defined.

(** ** The command history *)

Lemma shift_rounds_lookup (h : list (option string)) n : forall k,
  (n < length h)%nat ->
  length (foldl (fun acc i => <[pred i := acc !!! i]> acc) h (seq 1 n)) = length h /\
  foldl (fun acc i => <[pred i := acc !!! i]> acc) h (seq 1 n) !! k
  = if decide (k < n)%nat then h !! S k else h !! k.
Proof.
  induction n as [|n IH]; intros k Hn.
  - simpl. split; [reflexivity|]. destruct (decide (k < 0)%nat); [lia|reflexivity].
  - rewrite seq_S, foldl_app. simpl.
    set (acc := foldl _ h (seq 1 n)) in *.
    assert (length acc = length h) as Hlen by (apply (IH 0%nat); lia).
    split; [rewrite length_insert; exact Hlen|].
    assert (acc !!! S n = h !!! S n) as Hnext.
    { apply list_lookup_total_correct.
      destruct (IH (S n)) as [_ Hk]; [lia|]. rewrite Hk.
      destruct (decide (S n < n)%nat); [lia|].
      apply list_lookup_lookup_total_lt. lia. }
    rewrite Hnext.
    destruct (decide (k = n)) as [->|Hne].
    + rewrite list_lookup_insert_eq by lia.
      destruct (decide (n < S n)%nat); [|lia].
      symmetry. apply list_lookup_lookup_total_lt. lia.
    + rewrite list_lookup_insert_ne by lia.
      destruct (IH k) as [_ Hk]; [lia|]. rewrite Hk.
      destruct (decide (k < n)%nat), (decide (k < S n)%nat); try reflexivity; lia.
Qed.

Lemma shift_cmd_history_lookup h :
  length h = 256%nat ->
  length (shift_cmd_history h) = 256%nat /\
  forall k, (k < 255)%nat -> shift_cmd_history h !! k = h !! S k.
Proof.
  intros Hl. unfold shift_cmd_history, MAX_CMD_HISTORY.
  replace (Z.to_nat 256 - 1)%nat with 255%nat by reflexivity.
  split.
  - rewrite <- Hl. apply (shift_rounds_lookup h 255 0). lia.
  - intros k Hk. destruct (shift_rounds_lookup h 255 k) as [_ H]; [lia|].
    rewrite H. destruct (decide (k < 255)%nat); [reflexivity|lia].
Qed.

#[local] Arguments shift_cmd_history : simpl never.

Lemma add_to_cmd_history_recorded i cmd :
  cmd_history_wf i ->
  let i' := add_to_cmd_history i cmd in
  cmd_history_wf i' /\
  recorded i'
  = drop (length (recorded i) + 1 - 256) (recorded i ++ [Some cmd]) /\
  cmd_history_pos i' = cmd_history_count i' /\
  cmd_history_count i' = Z.min 256 (cmd_history_count i + 1) /\
  input_text i' = input_text i /\ cursor_pos i' = cursor_pos i /\
  input_len i' = input_len i /\ is_locked i' = is_locked i.
Proof.
  intros [Hc Hl]. unfold MAX_CMD_HISTORY in *.
  assert (Z.to_nat 256 = 256%nat) as H256 by reflexivity.
  rewrite H256 in Hl.
  unfold add_to_cmd_history, recorded, MAX_CMD_HISTORY.
  destruct (Z.geb_spec (cmd_history_count i) 256) as [Hfull|Hroom];
    cbv beta iota zeta;
    cbn [cmd_history cmd_history_count cmd_history_pos input_text cursor_pos
         input_len is_locked].
  - assert (cmd_history_count i = 256) as Heq by lia.
    destruct (shift_cmd_history_lookup _ Hl) as [Hsl Hsk].
    rewrite Heq. rewrite !int_wrap_small by lia.
    replace (Z.to_nat (256 - 1)) with 255%nat by reflexivity.
    replace (Z.to_nat (256 - 1 + 1)) with 256%nat by reflexivity.
    rewrite H256.
    split; [split; cbn [cmd_history cmd_history_count];
            [unfold MAX_CMD_HISTORY; lia
            |rewrite length_insert, Hsl; unfold MAX_CMD_HISTORY; symmetry; exact H256]|].
    split; [|repeat split; reflexivity].
    rewrite (take_ge (cmd_history i)) by lia.
    rewrite take_ge by (rewrite length_insert; lia).
    rewrite Hl. replace (256 + 1 - 256)%nat with 1%nat by reflexivity.
    apply list_eq. intros k.
    rewrite lookup_drop.
    destruct (decide (k < 255)%nat) as [Hk|Hk].
    + rewrite list_lookup_insert_ne by lia. rewrite Hsk by exact Hk.
      rewrite lookup_app_l by lia. reflexivity.
    + destruct (decide (k = 255%nat)) as [->|Hne].
      * rewrite list_lookup_insert_eq by lia.
        rewrite lookup_app_r by lia. rewrite Hl. reflexivity.
      * rewrite !lookup_ge_None_2; [reflexivity| |].
        -- rewrite length_app. cbn [length]. lia.
        -- rewrite length_insert. lia.
  - rewrite !int_wrap_small by lia.
    split; [split; cbn [cmd_history cmd_history_count];
            [unfold MAX_CMD_HISTORY; lia
            |rewrite length_insert, Hl; unfold MAX_CMD_HISTORY; symmetry; exact H256]|].
    split; [|repeat split; try reflexivity; lia].
    rewrite length_take, Hl.
    replace (Z.to_nat (cmd_history_count i) `min` 256 + 1 - 256)%nat with 0%nat by lia.
    rewrite drop_0.
    replace (Z.to_nat (cmd_history_count i + 1)) with (S (Z.to_nat (cmd_history_count i))) by lia.
    apply take_insert_snoc. lia.
Qed.

Lemma last_256_snoc {A} (l : list A) (x : A) :
  let r := drop (length l - 256) l in
  drop (length r + 1 - 256) (r ++ [x]) = drop (length (l ++ [x]) - 256) (l ++ [x]).
Proof.
  intros r. subst r. rewrite length_drop, length_app. simpl.
  destruct (decide (length l <= 256)%nat) as [Hle|Hgt].
  - replace (length l - 256)%nat with 0%nat by lia. rewrite drop_0.
    f_equal. lia.
  - replace (length l - (length l - 256) + 1 - 256)%nat with 1%nat by lia.
    replace (length l + 1 - 256)%nat with (S (length l - 256)) by lia.
    rewrite (drop_app_le l [x] (S (length l - 256))) by lia.
    rewrite drop_app_le by (rewrite length_drop; lia).
    rewrite drop_drop. do 2 f_equal. lia.
Qed.

(** X3. The command history is a window on the last 256 commands added
    to it: after any commands are added, it holds, oldest first, the last
    256 of what it held followed by the additions; it never holds more
    than 256, and the navigation position points just past the newest
    entry.  The line being edited is not touched. *)
Theorem cmd_history_keeps_last_256 (i : InputState) (cmds : list string) :
  cmd_history_wf i ->
  let all := recorded i ++ (Some <$> cmds) in
  let i' := foldl add_to_cmd_history i cmds in
  cmd_history_wf i' /\
  recorded i' = drop (length all - 256) all /\
  cmd_history_count i' = Z.min 256 (Z.of_nat (length all)) /\
  (cmds <> [] -> cmd_history_pos i' = cmd_history_count i') /\
  input_text i' = input_text i /\ cursor_pos i' = cursor_pos i /\
  input_len i' = input_len i.
Proof.
  intros Hwf. revert i Hwf.
  induction cmds as [|cmd cmds IH] using rev_ind; intros i Hwf all i'.
  - subst all i'. simpl. rewrite app_nil_r.
    assert (length (recorded i) = Z.to_nat (cmd_history_count i)) as Hl.
    { unfold recorded. rewrite length_take.
      pose proof (ch_count _ Hwf). pose proof (ch_cells _ Hwf). lia. }
    pose proof (ch_count _ Hwf) as Hc. unfold MAX_CMD_HISTORY in Hc.
    split; [exact Hwf|]. split.
    { replace (length (recorded i) - 256)%nat with 0%nat by lia. reflexivity. }
    split; [lia|]. split; [intros H; contradiction|]. repeat split; reflexivity.
  - subst all i'. rewrite foldl_app. simpl.
    destruct (IH i Hwf) as (Hwf1 & Hr1 & Hc1 & _ & Ht1 & Hp1 & Hn1).
    destruct (add_to_cmd_history_recorded (foldl add_to_cmd_history i cmds) cmd Hwf1)
      as (Hwf2 & Hr2 & Hpos2 & Hc2 & Ht2 & Hp2 & Hn2 & _).
    split; [exact Hwf2|]. split.
    { rewrite Hr2, Hr1. rewrite fmap_app, app_assoc. simpl. apply last_256_snoc. }
    split.
    { rewrite Hc2, Hc1. rewrite fmap_app, !length_app, !length_fmap. simpl. lia. }
    split; [intros _; exact Hpos2|]. repeat split; congruence.
Qed.

Lemma cmd_history_keeps_last_256_witness :
  recorded (foldl add_to_cmd_history init_input_state ["ls"; "pwd"]%string)
  = [Some "ls"; Some "pwd"]%string.
Proof.
  assert (cmd_history_wf init_input_state) as Hwf by (split; vm_compute; [split; discriminate|reflexivity]).
  destruct (cmd_history_keeps_last_256 init_input_state ["ls"; "pwd"]%string Hwf)
    as (_ & Hr & _).
  rewrite Hr. reflexivity.
Defined.

Lemma recorded_length i :
  cmd_history_wf i -> length (recorded i) = Z.to_nat (cmd_history_count i).
Proof.
  intros [Hc Hl]. unfold recorded. rewrite length_take. lia.
Qed.

Lemma last_recorded i x :
  cmd_history_wf i ->
  last (recorded i) = Some x <->
  cmd_history_count i <> 0 /\
  cmd_history i !!! Z.to_nat (cmd_history_count i - 1) = x.
Proof.
  intros Hwf. pose proof (recorded_length i Hwf) as Hlen.
  destruct Hwf as [Hc Hl]. rewrite last_lookup, Hlen.
  destruct (Z.eq_dec (cmd_history_count i) 0) as [Hz|Hnz].
  - rewrite Hz. simpl. unfold recorded. rewrite Hz. simpl.
    split; [discriminate|intros [H _]; contradiction].
  - unfold recorded. rewrite lookup_take_lt by lia.
    replace (pred (Z.to_nat (cmd_history_count i)))
      with (Z.to_nat (cmd_history_count i - 1)) by lia.
    assert (Z.to_nat (cmd_history_count i - 1) < length (cmd_history i))%nat as Hlt by lia.
    rewrite (list_lookup_lookup_total_lt _ _ Hlt).
    split; [intros H; injection H as H; split; assumption|intros [_ ->]; reflexivity].
Qed.

(** X4. A command is not recorded twice in a row: after record_command
    the newest entry of the command history is the command, recording it
    again changes nothing, and a command that already is the newest entry
    leaves the world as it is.  Any other command is added as by
    add_to_cmd_history. *)
Theorem record_command_skips_repeat (cmd : string) (w : World) :
  active_ok w ->
  cmd_history_wf (input (get_active_terminal w)) ->
  let inp := input (get_active_terminal w) in
  let w1 := record_command cmd w in
  last (recorded (input (get_active_terminal w1))) = Some (Some cmd) /\
  record_command cmd w1 = w1 /\
  (last (recorded inp) = Some (Some cmd) -> w1 = w) /\
  (last (recorded inp) <> Some (Some cmd) ->
   input (get_active_terminal w1) = add_to_cmd_history inp cmd).
Proof.
  intros Hok Hwf inp w1.
  assert (forall v, cmd_history_wf (input (get_active_terminal v)) ->
            last (recorded (input (get_active_terminal v))) = Some (Some cmd) ->
            record_command cmd v = v) as Hskip.
  { intros v Hv Hlast. apply (last_recorded _ _ Hv) in Hlast as [Hnz Hent].
    unfold record_command. rewrite Hent.
    destruct (Z.eqb_spec (cmd_history_count (input (get_active_terminal v))) 0);
      [contradiction|].
    rewrite bool_decide_eq_true_2 by reflexivity. reflexivity. }
  assert (last (recorded inp) <> Some (Some cmd) ->
          w1 = update_active (fun t => set_input (add_to_cmd_history (input t) cmd) t) w)
    as Hadd.
  { intros Hne. subst w1. unfold record_command. fold inp.
    destruct (Z.eqb_spec (cmd_history_count inp) 0) as [Hz|Hnz]; [reflexivity|].
    destruct (bool_decide (cmd_history inp !!! Z.to_nat (cmd_history_count inp - 1)
                           = Some cmd)) eqn:Hd; [|reflexivity].
    exfalso. apply Hne. apply (last_recorded _ _ Hwf).
    split; [exact Hnz|]. apply bool_decide_eq_true_1 in Hd. exact Hd. }
  assert (last (recorded (input (get_active_terminal w1))) = Some (Some cmd)) as Hlast.
  { destruct (decide (last (recorded inp) = Some (Some cmd))) as [Hyes|Hno].
    - subst w1. rewrite (Hskip w Hwf Hyes). exact Hyes.
    - rewrite (Hadd Hno). rewrite get_active_update_active by exact Hok.
      cbn [input set_input]. fold inp.
      destruct (add_to_cmd_history_recorded inp cmd Hwf) as (_ & Hr & _).
      cbv zeta in Hr. rewrite Hr.
      pose proof (recorded_length inp Hwf) as Hlen.
      pose proof (ch_count _ Hwf) as Hc. unfold MAX_CMD_HISTORY in Hc.
      rewrite last_lookup, length_drop, length_app. cbn [length].
      rewrite lookup_drop.
      replace (length (recorded inp) + 1 - 256
               + pred (length (recorded inp) + 1 - (length (recorded inp) + 1 - 256)))%nat
        with (length (recorded inp)) by lia.
      apply list_lookup_middle. reflexivity. }
  assert (cmd_history_wf (input (get_active_terminal w1))) as Hwf1.
  { destruct (decide (last (recorded inp) = Some (Some cmd))) as [Hyes|Hno].
    - subst w1. rewrite (Hskip w Hwf Hyes). exact Hwf.
    - rewrite (Hadd Hno). rewrite get_active_update_active by exact Hok.
      cbn [input set_input]. apply (add_to_cmd_history_recorded inp cmd Hwf). }
  split; [exact Hlast|]. split; [apply Hskip; assumption|].
  split; [intros Hyes; apply Hskip; assumption|].
  intros Hno. rewrite (Hadd Hno). rewrite get_active_update_active by exact Hok.
  reflexivity.
Qed.

Lemma record_command_skips_repeat_witness :
  record_command "ls" (record_command "ls" sample_world) = record_command "ls" sample_world.
Proof.
  apply (record_command_skips_repeat "ls" sample_world).
  - apply sample_world_ok.
  - split; [vm_compute; split; discriminate|vm_compute; reflexivity].
Defined.

(** ** The line editor *)

Lemma strncpy_cons n c s : strncpy (S n) (String c s) = String c (strncpy n s).
Proof. reflexivity. Qed.

Lemma strncpy_zero s : strncpy 0 s = EmptyString.
Proof. reflexivity. Qed.

Lemma append_cons c (a b : string) : (String c a ++ b)%string = String c (a ++ b).
Proof. reflexivity. Qed.

Lemma string_drop_cons n c s : string_drop (S n) (String c s) = string_drop n s.
Proof. reflexivity. Qed.

Lemma append_length (a b : string) :
  String.length (a ++ b) = (String.length a + String.length b)%nat.
Proof.
  induction a as [|c a IH]; [reflexivity|].
  rewrite append_cons. cbn [String.length]. now rewrite IH.
Qed.

Lemma append_empty_r (a : string) : (a ++ EmptyString)%string = a.
Proof.
  induction a as [|c a IH]; [reflexivity|].
  rewrite append_cons. now rewrite IH.
Qed.

Lemma strncpy_string_drop n : forall s, (strncpy n s ++ string_drop n s)%string = s.
Proof.
  induction n as [|n IH]; intros [|c s]; try reflexivity.
  rewrite strncpy_cons, string_drop_cons, append_cons. now rewrite IH.
Qed.

Lemma string_drop_length n : forall s,
  String.length (string_drop n s) = (String.length s - n)%nat.
Proof. induction n as [|n IH]; intros [|c s]; simpl; auto. Qed.

Lemma strncpy_append (a b : string) : strncpy (String.length a) (a ++ b) = a.
Proof.
  induction a as [|c a IH].
  - apply strncpy_zero.
  - rewrite append_cons. cbn [String.length]. rewrite strncpy_cons. now rewrite IH.
Qed.

Lemma string_drop_append (a b : string) : string_drop (String.length a) (a ++ b) = b.
Proof.
  induction a as [|c a IH]; [now destruct b|].
  rewrite append_cons. cbn [String.length]. now rewrite string_drop_cons.
Qed.

Lemma string_drop_succ n : forall s,
  string_drop (S n) s = string_drop 1 (string_drop n s).
Proof.
  induction n as [|n IH]; intros [|c s]; try reflexivity.
  rewrite string_drop_cons, IH. reflexivity.
Qed.

Lemma insert_char_line_ok ch i : line_ok i -> line_ok (insert_char ch i).
Proof.
  intros [Hc Hl Hr]. unfold insert_char.
  destruct ((ch >=? 32) && (ch <=? 126) && (input_len i <? MAX_CMD_INPUT - 1)) eqn:E;
    [|now split].
  apply andb_true_iff in E as [_ E]. apply Z.ltb_lt in E.
  unfold MAX_CMD_INPUT in *.
  rewrite !int_wrap_small by lia.
  split; cbn [set_line cursor_pos input_len input_text]; unfold MAX_CMD_INPUT; try lia.
  unfold strlen in *. rewrite append_length. cbn [String.length].
  rewrite strncpy_length, string_drop_length. lia.
Qed.

Lemma backspace_line_ok i : line_ok i -> line_ok (backspace i).
Proof.
  intros [Hc Hl Hr]. unfold backspace.
  destruct (cursor_pos i >? 0) eqn:E; [|now split].
  apply Z.gtb_lt in E. unfold MAX_CMD_INPUT in *.
  rewrite !int_wrap_small by lia.
  split; cbn [set_line cursor_pos input_len input_text]; unfold MAX_CMD_INPUT; try lia.
  unfold strlen in *. rewrite append_length.
  rewrite strncpy_length, string_drop_length. lia.
Qed.

Lemma delete_char_line_ok i : line_ok i -> line_ok (delete_char i).
Proof.
  intros [Hc Hl Hr]. unfold delete_char.
  destruct (cursor_pos i <? input_len i) eqn:E; [|now split].
  apply Z.ltb_lt in E. unfold MAX_CMD_INPUT in *.
  rewrite !int_wrap_small by lia.
  split; cbn [set_line cursor_pos input_len input_text]; unfold MAX_CMD_INPUT; try lia.
  unfold strlen in *. rewrite append_length.
  rewrite strncpy_length, string_drop_length. lia.
Qed.

Lemma cursor_moves_line_ok i :
  line_ok i ->
  line_ok (cursor_left i) /\ line_ok (cursor_right i) /\
  line_ok (cursor_home i) /\ line_ok (cursor_end i).
Proof.
  intros [Hc Hl Hr]. unfold cursor_left, cursor_right, cursor_home, cursor_end.
  unfold MAX_CMD_INPUT in *.
  destruct (cursor_pos i >? 0) eqn:E1; destruct (cursor_pos i <? input_len i) eqn:E2;
    try apply Z.gtb_lt in E1; try apply Z.ltb_lt in E2;
    rewrite ?int_wrap_small by lia;
    repeat split; cbn; unfold MAX_CMD_INPUT; try lia; auto.
Qed.

Lemma editor_ok_same_history i i' :
  editor_ok i -> line_ok i' ->
  cmd_history i' = cmd_history i ->
  cmd_history_count i' = cmd_history_count i ->
  -1 <= cmd_history_pos i' <= cmd_history_count i ->
  editor_ok i'.
Proof.
  intros [Hl [Hn Hc] Hp He] Hl' Eh En Hp'.
  split; [assumption| split; rewrite ?Eh, ?En; assumption | rewrite En; assumption |].
  rewrite Eh, En. exact He.
Qed.

Lemma recall_editor_ok pos i :
  editor_ok i -> 0 <= pos < cmd_history_count i ->
  exists s, cmd_history i !! Z.to_nat pos = Some (Some s) /\
            recall pos i = set_line s (strlen s) (strlen s) (set_cmd_history_pos pos i) /\
            editor_ok (recall pos i).
Proof.
  intros Hok Hpos. destruct (eo_entries i Hok (Z.to_nat pos)) as (s & Hs & Hlen); [lia|].
  exists s. split; [assumption|].
  assert (E : recall pos i = set_line s (strlen s) (strlen s) (set_cmd_history_pos pos i)).
  { unfold recall. now rewrite (list_lookup_total_correct _ _ _ Hs). }
  split; [assumption|]. rewrite E.
  apply (editor_ok_same_history i);
    [assumption| | reflexivity | reflexivity | cbn; lia].
  split; cbn; unfold strlen in *; lia.
Qed.

Lemma history_prev_editor_ok i : editor_ok i -> editor_ok (history_prev i).
Proof.
  intros Hok. unfold history_prev.
  destruct (cmd_history_pos i >? 0) eqn:E; [|assumption].
  apply Z.gtb_lt in E. pose proof (eo_pos i Hok) as Hp.
  pose proof (ch_count i (eo_history i Hok)) as Hn. unfold MAX_CMD_HISTORY in Hn.
  rewrite int_wrap_small by lia.
  destruct (recall_editor_ok (cmd_history_pos i - 1) i Hok) as (s & _ & _ & H); [lia|exact H].
Qed.

Lemma history_next_editor_ok i : editor_ok i -> editor_ok (history_next i).
Proof.
  intros Hok. unfold history_next.
  pose proof (eo_pos i Hok) as Hp.
  pose proof (ch_count i (eo_history i Hok)) as Hn. unfold MAX_CMD_HISTORY in Hn.
  destruct (cmd_history_pos i <? cmd_history_count i - 1) eqn:E.
  - apply Z.ltb_lt in E. rewrite int_wrap_small by lia.
    destruct (recall_editor_ok (cmd_history_pos i + 1) i Hok) as (s & _ & _ & H); [lia|exact H].
  - destruct (cmd_history_pos i =? cmd_history_count i - 1) eqn:E'; [|assumption].
    apply (editor_ok_same_history i);
      [assumption| | reflexivity | reflexivity | cbn; lia].
    split; cbn; unfold MAX_CMD_INPUT; first [reflexivity | lia].
Qed.

Lemma history_keys_frame i :
  cmd_history (history_prev i) = cmd_history i /\
  cmd_history_count (history_prev i) = cmd_history_count i /\
  is_locked (history_prev i) = is_locked i /\
  cmd_history (history_next i) = cmd_history i /\
  cmd_history_count (history_next i) = cmd_history_count i /\
  is_locked (history_next i) = is_locked i.
Proof.
  unfold history_prev, history_next, recall.
  repeat match goal with |- context [if ?b then _ else _] => destruct b end;
    repeat match goal with |- context [match ?x with Some _ => _ | None => _ end] =>
             destruct x end;
    repeat split; reflexivity.
Qed.

Lemma apply_edit_frame i k :
  cmd_history (apply_edit i k) = cmd_history i /\
  cmd_history_count (apply_edit i k) = cmd_history_count i /\
  is_locked (apply_edit i k) = is_locked i.
Proof.
  destruct (history_keys_frame i) as (? & ? & ? & ? & ? & ?).
  destruct k; cbn [apply_edit]; auto;
    unfold insert_char, backspace, delete_char, cursor_left, cursor_right,
           cursor_home, cursor_end;
    repeat match goal with |- context [if ?b then _ else _] => destruct b end;
    repeat split; reflexivity.
Qed.

Lemma apply_edit_editor_ok i k : editor_ok i -> editor_ok (apply_edit i k).
Proof.
  intros Hok.
  destruct k; cbn [apply_edit];
    try apply history_prev_editor_ok; try apply history_next_editor_ok; try assumption.
  all: match goal with |- editor_ok ?x =>
         pose proof (apply_edit_frame i) as Hf;
         apply (editor_ok_same_history i); [assumption| | | |] end.
  all: try (pose proof (eo_pos i Hok)).
  all: pose proof (cursor_moves_line_ok i (eo_line i Hok)) as (? & ? & ? & ?).
  all: try (apply insert_char_line_ok, Hok).
  all: try (apply backspace_line_ok, Hok).
  all: try (apply delete_char_line_ok, Hok).
  all: try assumption.
  all: try (unfold insert_char, backspace, delete_char, cursor_left, cursor_right,
           cursor_home, cursor_end;
    repeat match goal with |- context [if ?b then _ else _] => destruct b end;
    cbn; first [reflexivity | lia]).
Qed.

Lemma init_input_state_ok : editor_ok init_input_state.
Proof.
  split; [split; cbn; unfold MAX_CMD_INPUT; first [reflexivity | lia]
         | split; cbn; unfold MAX_CMD_HISTORY; first [reflexivity | lia]
         | cbn; lia
         | intros k Hk; cbn in Hk; lia].
Qed.

(** X5. Whatever keys of the line editor are pressed (characters,
    Backspace, Delete, the cursor keys, Home, End, Shift+Up and
    Shift+Down), the cursor stays within the line and the length of the
    line stays within the 511 characters the buffer has room for before
    its terminator.  The keys neither change the command history nor the
    lock. *)
Theorem edit_keys_keep_line_in_buffer (i : InputState) (keys : list edit_key) :
  editor_ok i ->
  let i' := foldl apply_edit i keys in
  0 <= cursor_pos i' <= input_len i' /\
  input_len i' <= MAX_CMD_INPUT - 1 /\
  recorded i' = recorded i /\
  is_locked i' = is_locked i.
Proof.
  intros Hok. cbv zeta.
  assert (H : editor_ok (foldl apply_edit i keys) /\
              cmd_history (foldl apply_edit i keys) = cmd_history i /\
              cmd_history_count (foldl apply_edit i keys) = cmd_history_count i /\
              is_locked (foldl apply_edit i keys) = is_locked i).
  { revert i Hok. induction keys as [|k keys IH]; intros i Hok; [now cbn|].
    cbn [foldl].
    destruct (IH (apply_edit i k) (apply_edit_editor_ok i k Hok)) as (H1 & H2 & H3 & H4).
    destruct (apply_edit_frame i k) as (F1 & F2 & F3).
    repeat split; try apply H1; congruence. }
  destruct H as (H1 & H2 & H3 & H4).
  destruct (eo_line _ H1) as [Hc Hl Hr].
  split; [lia|]. split; [unfold MAX_CMD_INPUT in *; lia|].
  split; [unfold recorded; now rewrite H2, H3 | assumption].
Qed.

Lemma edit_keys_keep_line_in_buffer_witness :
  let i' := foldl apply_edit init_input_state
              [KeyChar 108; KeyChar 115; KeyLeft; KeyBackspace; KeyShiftDown; KeyChar 112] in
  0 <= cursor_pos i' <= input_len i' /\
  input_len i' <= MAX_CMD_INPUT - 1 /\
  recorded i' = recorded init_input_state /\
  is_locked i' = is_locked init_input_state.
Proof.
  apply (edit_keys_keep_line_in_buffer init_input_state).
  split; [split; cbn; unfold MAX_CMD_INPUT; first [reflexivity | lia]
         | split; cbn; unfold MAX_CMD_HISTORY; first [reflexivity | lia]
         | cbn; lia
         | intros k Hk; cbn in Hk; lia].
Defined.

Lemma strncpy_append_at n (a b : string) :
  String.length a = n -> strncpy n (a ++ b) = a.
Proof. intros <-. apply strncpy_append. Qed.

Lemma string_drop_append_at n (a b : string) :
  String.length a = n -> string_drop n (a ++ b) = b.
Proof. intros <-. apply string_drop_append. Qed.

Lemma insert_char_text ch i :
  line_ok i -> printable ch -> input_len i < MAX_CMD_INPUT - 1 ->
  insert_char ch i =
  set_line (strncpy (Z.to_nat (cursor_pos i)) (input_text i)
            ++ String (ascii_of_nat (Z.to_nat ch))
                      (string_drop (Z.to_nat (cursor_pos i)) (input_text i)))%string
           (cursor_pos i + 1) (input_len i + 1) i.
Proof.
  intros [Hc Hl Hr] [Hlo Hhi] Hroom. unfold insert_char, MAX_CMD_INPUT in *.
  replace (ch >=? 32) with true by (symmetry; apply Z.geb_le; lia).
  replace (ch <=? 126) with true by (symmetry; apply Z.leb_le; lia).
  replace (input_len i <? 512 - 1) with true by (symmetry; apply Z.ltb_lt; lia).
  cbn [andb]. rewrite !int_wrap_small by lia. reflexivity.
Qed.

Lemma input_state_eta i :
  i = mkInputState (input_text i) (cursor_pos i) (input_len i) (display_start i)
                   (cmd_history i) (cmd_history_count i) (cmd_history_pos i)
                   (is_locked i).
Proof. now destruct i. Qed.

(** In the model, where the input state holds the line and not the bytes
    behind it: a character typed and erased again leaves the state of
    before. *)
Lemma insert_then_erase (ch : Z) (i : InputState) :
  line_ok i -> printable ch -> input_len i < MAX_CMD_INPUT - 1 ->
  let pos := Z.to_nat (cursor_pos i) in
  input_text (insert_char ch i) =
    (strncpy pos (input_text i)
     ++ String (ascii_of_nat (Z.to_nat ch)) (string_drop pos (input_text i)))%string /\
  backspace (insert_char ch i) = i /\
  delete_char (cursor_left (insert_char ch i)) = i.
Proof.
  intros Hok Hch Hroom. cbv zeta.
  rewrite (insert_char_text ch i Hok Hch Hroom).
  destruct Hok as [Hc Hl Hr]. unfold MAX_CMD_INPUT in *.
  set (pos := Z.to_nat (cursor_pos i)).
  set (a := strncpy pos (input_text i)).
  set (b := string_drop pos (input_text i)).
  set (c := ascii_of_nat (Z.to_nat ch)).
  assert (Ha : String.length a = pos).
  { subst a. rewrite strncpy_length. unfold strlen in Hl. subst pos. lia. }
  assert (Hab : (a ++ b)%string = input_text i) by apply strncpy_string_drop.
  assert (Hpos : Z.to_nat (cursor_pos i + 1) = S pos) by (subst pos; lia).
  assert (Hdrop : string_drop (S pos) (a ++ String c b) = b).
  { rewrite string_drop_succ, (string_drop_append_at pos) by assumption. reflexivity. }
  split; [reflexivity|]. split.
  - unfold backspace. cbn [set_line cursor_pos input_len input_text display_start
                           cmd_history cmd_history_count cmd_history_pos is_locked].
    replace (cursor_pos i + 1 >? 0) with true by (symmetry; apply Z.gtb_lt; lia).
    rewrite !int_wrap_small by lia. rewrite Hpos. cbn [pred].
    rewrite (strncpy_append_at pos) by assumption. rewrite Hdrop, Hab.
    replace (cursor_pos i + 1 - 1) with (cursor_pos i) by lia.
    replace (input_len i + 1 - 1) with (input_len i) by lia.
    symmetry. apply input_state_eta.
  - unfold cursor_left. cbn [set_line cursor_pos input_len input_text display_start
                           cmd_history cmd_history_count cmd_history_pos is_locked].
    replace (cursor_pos i + 1 >? 0) with true by (symmetry; apply Z.gtb_lt; lia).
    rewrite !int_wrap_small by lia.
    replace (cursor_pos i + 1 - 1) with (cursor_pos i) by lia.
    unfold delete_char.
    cbn [set_cursor_pos set_line cursor_pos input_len input_text display_start
         cmd_history cmd_history_count cmd_history_pos is_locked].
    replace (cursor_pos i <? input_len i + 1) with true by (symmetry; apply Z.ltb_lt; lia).
    rewrite !int_wrap_small by lia. fold pos.
    rewrite (strncpy_append_at pos) by assumption. rewrite Hdrop, Hab.
    replace (input_len i + 1 - 1) with (input_len i) by lia.
    symmetry. apply input_state_eta.
Qed.

(** X6. Typing a printable character into a line that has room puts the
    character at the cursor, between the text before and the text behind
    it, and moves the cursor and the length up by one.  Pressing Backspace
    then gives back the line (the bytes before index input_len, which is
    what Enter submits), the cursor and the length as they were; so does
    moving left over the new character and pressing Delete.  The bytes the
    buffer holds behind the line are not the subject: the code does not
    put those back. *)
Theorem insert_then_erase_restores_line (ch : Z) (i : InputState) :
  line_ok i -> printable ch -> input_len i < MAX_CMD_INPUT - 1 ->
  let pos := Z.to_nat (cursor_pos i) in
  let typed := insert_char ch i in
  let erased := backspace typed in
  let deleted := delete_char (cursor_left typed) in
  input_text typed =
    (strncpy pos (input_text i)
     ++ String (ascii_of_nat (Z.to_nat ch)) (string_drop pos (input_text i)))%string /\
  cursor_pos typed = cursor_pos i + 1 /\ input_len typed = input_len i + 1 /\
  (input_text erased = input_text i /\ cursor_pos erased = cursor_pos i /\
   input_len erased = input_len i) /\
  (input_text deleted = input_text i /\ cursor_pos deleted = cursor_pos i /\
   input_len deleted = input_len i).
Proof.
  intros Hok Hch Hroom. cbv zeta.
  destruct (insert_then_erase ch i Hok Hch Hroom) as (H1 & H2 & H3).
  split; [exact H1|]. rewrite H2, H3.
  rewrite (insert_char_text ch i Hok Hch Hroom). cbn [set_line cursor_pos input_len].
  repeat split; reflexivity.
Qed.

Lemma insert_then_erase_restores_line_witness :
  let i := cursor_left (type_string "lsof" init_input_state) in
  input_text i = "lsof"%string /\ cursor_pos i = 3 /\
  input_text (insert_char 45 i) = "lso-f"%string /\
  cursor_pos (insert_char 45 i) = 4 /\ input_len (insert_char 45 i) = 5 /\
  input_text (backspace (insert_char 45 i)) = "lsof"%string /\
  input_text (delete_char (cursor_left (insert_char 45 i))) = "lsof"%string.
Proof.
  intros i.
  destruct (insert_then_erase_restores_line 45 i)
    as (H1 & H2 & H3 & (H4 & _) & (H5 & _)).
  - split; vm_compute; first [reflexivity | intros H; discriminate H | split; intros H; discriminate H].
  - unfold printable. lia.
  - vm_compute. reflexivity.
  - split; [reflexivity|]. split; [reflexivity|].
    split; [exact H1|]. split; [exact H2|]. split; [exact H3|].
    split; [exact H4|exact H5].
Defined.

Lemma append_snoc (a : string) c (s : string) :
  ((a ++ String c EmptyString) ++ s)%string = (a ++ String c s)%string.
Proof.
  induction a as [|x a IH]; [reflexivity|].
  rewrite !append_cons. now rewrite IH.
Qed.

Lemma string_drop_all n (s : string) : String.length s = n -> string_drop n s = EmptyString.
Proof.
  intros H. rewrite <- (append_empty_r s) at 1. now apply string_drop_append_at.
Qed.

Lemma type_string_text : forall (s : string) (i : InputState),
  line_ok i -> cursor_pos i = input_len i -> printable_string s ->
  line_ok (type_string s i) /\
  input_text (type_string s i) = strncpy 511 (input_text i ++ s) /\
  cursor_pos (type_string s i) = input_len (type_string s i).
Proof.
  induction s as [|c s IH]; intros i Hok Hend Hs.
  - cbn [type_string]. split; [assumption|]. split; [|assumption].
    rewrite append_empty_r. symmetry. apply strncpy_fits.
    destruct Hok as [Hc Hl Hr]. unfold strlen, MAX_CMD_INPUT in *. lia.
  - destruct Hs as [Hc Hs]. cbn [type_string].
    pose proof Hok as [Hcur Hl Hr]. unfold MAX_CMD_INPUT in Hr.
    destruct (Z_lt_dec (input_len i) 511) as [Hroom|Hfull].
    + assert (Hlen : String.length (input_text i) = Z.to_nat (cursor_pos i))
        by (unfold strlen in Hl; lia).
      assert (E : insert_char (Z.of_nat (nat_of_ascii c)) i =
                  set_line (input_text i ++ String c EmptyString)%string
                           (cursor_pos i + 1) (input_len i + 1) i).
      { rewrite insert_char_text by (try assumption; unfold MAX_CMD_INPUT; lia).
        rewrite strncpy_fits by lia. rewrite string_drop_all by assumption.
        now rewrite Nat2Z.id, ascii_nat_embedding. }
      destruct (IH (insert_char (Z.of_nat (nat_of_ascii c)) i)) as (H1 & H2 & H3);
        [now apply insert_char_line_ok | rewrite E; cbn; lia | assumption |].
      split; [assumption|]. split; [|assumption].
      rewrite H2, E. cbn [set_line input_text]. now rewrite append_snoc.
    + assert (Hlen : String.length (input_text i) = 511%nat)
        by (unfold strlen in Hl; lia).
      assert (E : insert_char (Z.of_nat (nat_of_ascii c)) i = i).
      { unfold insert_char, MAX_CMD_INPUT.
        replace (input_len i <? 512 - 1) with false by (symmetry; apply Z.ltb_ge; lia).
        now rewrite andb_false_r. }
      rewrite E. destruct (IH i Hok Hend Hs) as (H1 & H2 & H3).
      split; [assumption|]. split; [|assumption].
      rewrite H2. now rewrite !(strncpy_append_at 511) by assumption.
Qed.

(** X7. Typing a text of printable characters at the end of the line
    appends it, cut off where the line reaches 511 characters: the
    characters that no longer fit are dropped, and the cursor ends up at
    the end of the line. *)
Theorem typed_text_is_cut_at_511 (s : string) (i : InputState) :
  line_ok i -> cursor_pos i = input_len i -> printable_string s ->
  let i' := type_string s i in
  input_text i' = strncpy 511 (input_text i ++ s) /\
  input_len i' = Z.min 511 (input_len i + strlen s) /\
  cursor_pos i' = input_len i'.
Proof.
  intros Hok Hend Hs. cbv zeta.
  destruct (type_string_text s i Hok Hend Hs) as (H1 & H2 & H3).
  split; [assumption|]. split; [|assumption].
  rewrite (lo_len _ H1), H2, (lo_len _ Hok). unfold strlen.
  rewrite strncpy_length, append_length. lia.
Qed.

Lemma typed_text_is_cut_at_511_witness :
  let i' := type_string "make test" init_input_state in
  input_text i' = strncpy 511 (input_text init_input_state ++ "make test") /\
  input_len i' = Z.min 511 (input_len init_input_state + strlen "make test") /\
  cursor_pos i' = input_len i'.
Proof.
  apply (typed_text_is_cut_at_511 "make test" init_input_state).
  - split; vm_compute; first [reflexivity | intros H; discriminate H | split; intros H; discriminate H].
  - reflexivity.
  - unfold printable_string, printable. vm_compute.
    repeat split; intros H; discriminate H.
Defined.

(** ** Walking through the command history *)

Lemma recall_shows pos i :
  editor_ok i -> 0 <= pos < cmd_history_count i ->
  shows (recall pos i) /\ cmd_history_pos (recall pos i) = pos.
Proof.
  intros Hok Hpos. destruct (recall_editor_ok pos i Hok Hpos) as (s & Hs & E & _).
  rewrite E. split; [|reflexivity].
  split; [reflexivity|]. split; cbn; [now intros _|lia].
Qed.

Lemma history_prev_shows i :
  editor_ok i -> 0 <= cmd_history_pos i ->
  (cmd_history_pos i = 0 -> shows i) ->
  shows (history_prev i) /\
  cmd_history_pos (history_prev i) = Z.max 0 (cmd_history_pos i - 1).
Proof.
  intros Hok Hp H0. unfold history_prev.
  pose proof (eo_pos i Hok) as Hr.
  pose proof (ch_count i (eo_history i Hok)) as Hn. unfold MAX_CMD_HISTORY in Hn.
  destruct (cmd_history_pos i >? 0) eqn:E.
  - apply Z.gtb_lt in E. rewrite int_wrap_small by lia.
    destruct (recall_shows (cmd_history_pos i - 1) i Hok) as [H1 H2]; [lia|].
    split; [assumption|]. rewrite H2. lia.
  - assert (cmd_history_pos i = 0) by (destruct (Z.gtb_spec (cmd_history_pos i) 0); [discriminate|lia]).
    split; [auto|lia].
Qed.

Lemma history_next_shows i :
  editor_ok i -> 0 <= cmd_history_pos i -> shows i ->
  shows (history_next i) /\
  cmd_history_pos (history_next i) =
    Z.min (cmd_history_count i) (cmd_history_pos i + 1).
Proof.
  intros Hok Hp Hs. unfold history_next.
  pose proof (eo_pos i Hok) as Hr.
  pose proof (ch_count i (eo_history i Hok)) as Hn. unfold MAX_CMD_HISTORY in Hn.
  destruct (cmd_history_pos i <? cmd_history_count i - 1) eqn:E.
  - apply Z.ltb_lt in E. rewrite int_wrap_small by lia.
    destruct (recall_shows (cmd_history_pos i + 1) i Hok) as [H1 H2]; [lia|].
    split; [assumption|]. rewrite H2. lia.
  - apply Z.ltb_ge in E.
    destruct (cmd_history_pos i =? cmd_history_count i - 1) eqn:E'.
    + apply Z.eqb_eq in E'. split; [|cbn; lia].
      split; [reflexivity|]. split; cbn; [lia|reflexivity].
    + apply Z.eqb_neq in E'. split; [assumption|lia].
Qed.

Lemma history_prev_walk (k : nat) : forall i,
  editor_ok i -> cmd_history_pos i = cmd_history_count i ->
  1 <= cmd_history_count i ->
  let j := Nat.iter k history_prev i in
  editor_ok j /\ cmd_history j = cmd_history i /\
  cmd_history_count j = cmd_history_count i /\
  cmd_history_pos j = Z.max 0 (cmd_history_count i - Z.of_nat k) /\
  ((1 <= k)%nat -> shows j).
Proof.
  intros i Hok Hpos Hn. cbv zeta. induction k as [|k IH].
  - change (Nat.iter 0 history_prev i) with i.
    split; [assumption|]. split; [reflexivity|].
    split; [reflexivity|]. split; [lia|intros; lia].
  - rewrite Nat.iter_succ. destruct IH as (H1 & H2 & H3 & H4 & H5).
    set (j := Nat.iter k history_prev i) in *.
    destruct (history_keys_frame j) as (F1 & F2 & _).
    destruct (history_prev_shows j H1) as [S1 S2]; [lia| |].
    { intros E0. apply H5. lia. }
    split; [now apply history_prev_editor_ok|].
    split; [congruence|]. split; [congruence|]. split; [lia|auto].
Qed.

Lemma history_next_walk (m : nat) : forall i,
  editor_ok i -> 0 <= cmd_history_pos i -> shows i ->
  let j := Nat.iter m history_next i in
  editor_ok j /\ cmd_history j = cmd_history i /\
  cmd_history_count j = cmd_history_count i /\
  cmd_history_pos j = Z.min (cmd_history_count i) (cmd_history_pos i + Z.of_nat m) /\
  shows j.
Proof.
  intros i Hok Hpos Hs. cbv zeta.
  pose proof (eo_pos i Hok) as Hr.
  induction m as [|m IH].
  - change (Nat.iter 0 history_next i) with i.
    split; [assumption|]. split; [reflexivity|]. split; [reflexivity|].
    split; [lia|assumption].
  - rewrite Nat.iter_succ. destruct IH as (H1 & H2 & H3 & H4 & H5).
    set (j := Nat.iter m history_next i) in *.
    destruct (history_keys_frame j) as (_ & _ & _ & F1 & F2 & _).
    destruct (history_next_shows j H1) as [S1 S2]; [lia|assumption|].
    split; [now apply history_next_editor_ok|].
    split; [congruence|]. split; [congruence|]. split; [lia|assumption].
Qed.

(** X8. After a command has been submitted (the history position is
    behind the newest command), pressing Shift+Up [k] times and then
    Shift+Down [m] times leaves the history position at
    min(count, max(0, count - k) + m): Shift+Up stops at the oldest
    command and Shift+Down behind the newest.  The line shows the command
    recorded at that position with the cursor at its end, and an empty
    line once the position is behind the newest command again, so that
    what had been typed before Shift+Up is not brought back. *)
Theorem history_keys_walk_the_recorded_commands (i : InputState) (k m : nat) :
  editor_ok i ->
  cmd_history_pos i = cmd_history_count i ->
  1 <= cmd_history_count i -> (1 <= k)%nat ->
  let j := Nat.iter m history_next (Nat.iter k history_prev i) in
  let q := Z.min (cmd_history_count i)
                 (Z.max 0 (cmd_history_count i - Z.of_nat k) + Z.of_nat m) in
  cmd_history_pos j = q /\
  cursor_pos j = input_len j /\
  input_len j = strlen (input_text j) /\
  (q < cmd_history_count i ->
   cmd_history i !! Z.to_nat q = Some (Some (input_text j))) /\
  (q = cmd_history_count i -> input_text j = EmptyString).
Proof.
  intros Hok Hpos Hn Hk. cbv zeta.
  destruct (history_prev_walk k i Hok Hpos Hn) as (P1 & P2 & P3 & P4 & P5).
  set (i1 := Nat.iter k history_prev i) in *.
  destruct (history_next_walk m i1 P1) as (N1 & N2 & N3 & N4 & N5); [lia|auto|].
  set (j := Nat.iter m history_next i1) in *.
  rewrite P3, P4 in N4. destruct N5 as (S1 & S2 & S3).
  split; [assumption|]. split; [assumption|].
  split; [apply (lo_len _ (eo_line _ N1))|].
  rewrite <- N4. split.
  - intros Hq. rewrite <- P2, <- N2. apply S2. rewrite N3, P3. assumption.
  - intros Hq. apply S3. rewrite N3, P3. assumption.
Qed.

Lemma history_keys_walk_the_recorded_commands_witness :
  let i := add_to_cmd_history (add_to_cmd_history init_input_state "ls") "pwd" in
  let j := Nat.iter 1 history_next (Nat.iter 3 history_prev i) in
  let q := Z.min (cmd_history_count i)
                 (Z.max 0 (cmd_history_count i - Z.of_nat 3) + Z.of_nat 1) in
  cmd_history_pos j = q /\
  cursor_pos j = input_len j /\
  input_len j = strlen (input_text j) /\
  (q < cmd_history_count i ->
   cmd_history i !! Z.to_nat q = Some (Some (input_text j))) /\
  (q = cmd_history_count i -> input_text j = EmptyString).
Proof.
  apply (history_keys_walk_the_recorded_commands
           (add_to_cmd_history (add_to_cmd_history init_input_state "ls") "pwd") 3 1).
  - split.
    + split; vm_compute; first [reflexivity | intros H; discriminate H
                               | split; intros H; discriminate H].
    + split; vm_compute; first [reflexivity | intros H; discriminate H
                               | split; intros H; discriminate H].
    + vm_compute. split; intros H; discriminate H.
    + intros k Hk. vm_compute in Hk.
      destruct k as [|[|k]];
        [eexists; split; [reflexivity|vm_compute; reflexivity]..|lia].
  - reflexivity.
  - vm_compute. intros H; discriminate H.
  - lia.
Defined.

(** ** Steps that stay in the active terminal *)

Lemma tab_grows_refl t : tab_grows t t.
Proof.
  split; auto. intros Hwf. split; [assumption|]. split; [reflexivity|].
  exists []. now rewrite app_nil_r.
Qed.

Lemma tab_grows_trans t1 t2 t3 : tab_grows t1 t2 -> tab_grows t2 t3 -> tab_grows t1 t3.
Proof.
  intros [A1 A2 A3 A4 A5 A6] [B1 B2 B3 B4 B5 B6].
  split; try congruence. intros Hwf.
  destruct (A6 Hwf) as (W2 & S2 & a & E2). destruct (B6 W2) as (W3 & S3 & b & E3).
  split; [assumption|]. split; [congruence|].
  exists (a ++ b). rewrite E3, E2. now rewrite app_assoc.
Qed.

Lemma tab_runs_refl t : tab_runs t t.
Proof. split; [apply tab_grows_refl|left; auto]. Qed.

Lemma tab_runs_trans t1 t2 t3 : tab_runs t1 t2 -> tab_runs t2 t3 -> tab_runs t1 t3.
Proof.
  intros [G1 S1] [G2 S2]. split; [eapply tab_grows_trans; eassumption|].
  destruct S2 as [[E1 E2]|S2]; [|right; exact S2].
  destruct S1 as [[F1 F2]|[F1 F2]]; [left|right]; split; congruence.
Qed.

Section TabSteps.
Variable R : Terminal -> Terminal -> Prop.
Hypothesis R_refl : forall t, R t t.
Hypothesis R_trans : forall t1 t2 t3, R t1 t2 -> R t2 t3 -> R t1 t3.

Lemma tab_step_active w w' :
  active_ok w -> tab_step R w w' ->
  active_ok w' /\ active_id w' = active_id w /\
  R (get_active_terminal w) (get_active_terminal w') /\
  forall j, Z.to_nat j <> Z.to_nat (active_id w) -> terminal_at j w' = terminal_at j w.
Proof.
  intros [H0 Hlt] [Hc Ha Hl Hb (t' & Ht & Hcells)].
  assert (Hid : active_id w' = active_id w) by exact Ha.
  split; [|split; [exact Hid|split]].
  - unfold active_ok. rewrite Hid, Hcells, length_insert. split; assumption.
  - unfold get_active_terminal, terminal_at. rewrite Hid, Hcells.
    rewrite list_lookup_total_insert_eq by assumption. exact Ht.
  - intros j Hj. unfold terminal_at. rewrite Hcells.
    now rewrite list_lookup_total_insert_ne by congruence.
Qed.

Lemma tab_step_same_manager w w' :
  active_ok w ->
  terminal_manager w' = terminal_manager w ->
  line_break_enabled w' = line_break_enabled w ->
  tab_step R w w'.
Proof.
  intros [H0 Hlt] Hm Hb. split; try (rewrite Hm; reflexivity); try assumption.
  exists (get_active_terminal w). split; [apply R_refl|].
  rewrite Hm. symmetry. apply list_insert_id.
  unfold get_active_terminal, terminal_at.
  now apply list_lookup_lookup_total_lt.
Qed.

Lemma tab_step_trans w1 w2 w3 :
  active_ok w1 -> tab_step R w1 w2 -> tab_step R w2 w3 -> tab_step R w1 w3.
Proof.
  intros Hok H12 H23.
  destruct (tab_step_active w1 w2 Hok H12) as (Hok2 & Hid & HR & _).
  destruct H12 as [Hc Ha Hl Hb (t2 & Ht2 & Hcells2)].
  destruct H23 as [Hc' Ha' Hl' Hb' (t3 & Ht3 & Hcells3)].
  split; try congruence.
  exists t3. split; [eapply R_trans; eassumption|].
  rewrite Hcells3, Hid, Hcells2. apply list_insert_insert_eq.
Qed.

Lemma tab_step_update_active f w :
  R (get_active_terminal w) (f (get_active_terminal w)) ->
  tab_step R w (update_active f w).
Proof.
  intros HR. split; try reflexivity.
  exists (f (get_active_terminal w)). split; [exact HR|reflexivity].
Qed.
End TabSteps.

Lemma tab_step_mono (R R' : Terminal -> Terminal -> Prop) w w' :
  (forall t t', R t t' -> R' t t') -> tab_step R w w' -> tab_step R' w w'.
Proof.
  intros Hsub [Hc Ha Hl Hb (t' & Ht & Hcells)].
  split; try assumption. exists t'. split; [now apply Hsub|assumption].
Qed.

Lemma tab_runs_step_trans w1 w2 w3 :
  active_ok w1 -> tab_step tab_runs w1 w2 -> tab_step tab_runs w2 w3 ->
  tab_step tab_runs w1 w3.
Proof. apply tab_step_trans. exact tab_runs_trans. Qed.

Lemma tab_grows_step_trans w1 w2 w3 :
  active_ok w1 -> tab_step tab_grows w1 w2 -> tab_step tab_grows w2 w3 ->
  tab_step tab_grows w1 w3.
Proof. apply tab_step_trans. exact tab_grows_trans. Qed.

Lemma tab_runs_os_step w w' :
  active_ok w ->
  terminal_manager w' = terminal_manager w ->
  line_break_enabled w' = line_break_enabled w ->
  tab_step tab_runs w w'.
Proof. apply tab_step_same_manager. exact tab_runs_refl. Qed.

Lemma tab_runs_active_ok w w' : active_ok w -> tab_step tab_runs w w' -> active_ok w'.
Proof. intros Hok H. now destruct (tab_step_active tab_runs w w' Hok H). Qed.

Lemma tab_runs_set_history (h : HistoryBuffer) t :
  (history_wf (history t) ->
   history_wf h /\ hb_scroll_offset h = hb_scroll_offset (history t) /\
   exists added, entries h = entries (history t) ++ added) ->
  tab_runs t (set_history h t).
Proof. intros H. split; [split; try reflexivity; exact H|left; split; reflexivity]. Qed.

Lemma log_line_step os text ty w :
  active_ok w -> tab_step tab_runs w (log_line os text ty w).
Proof.
  intros Hok. split; try reflexivity. eexists. split; [|reflexivity].
  apply tab_runs_set_history. intros Hwf.
  destruct (add_history_line_entries (line_break_enabled w) (os_time os (os_tick w))
              _ text ty Hwf) as [W E].
  destruct (add_history_line_fields (line_break_enabled w) (os_time os (os_tick w))
              _ text ty Hwf) as (_ & S & _).
  split; [exact W|]. split; [exact S|]. eexists. exact E.
Qed.

Lemma log_lines_step os ty lines : forall w,
  active_ok w ->
  tab_step tab_runs w (foldl (fun w line => log_line os line ty w) w lines).
Proof.
  induction lines as [|l lines IH]; intros w Hok; cbn [foldl].
  - apply tab_runs_os_step; auto.
  - pose proof (log_line_step os l ty w Hok) as H1.
    eapply tab_runs_step_trans; [assumption|exact H1|].
    apply IH. eapply tab_runs_active_ok; eassumption.
Qed.

Lemma tick_step w : active_ok w -> tab_step tab_runs w (tick w).
Proof. intros. now apply tab_runs_os_step. Qed.

Lemma chdir_step os path w : active_ok w -> tab_step tab_runs w (chdir os path w).2.
Proof.
  intros. unfold chdir.
  destruct (os_chdir os (os_tick w) (os_cwd w) path); now apply tab_runs_os_step.
Qed.

Lemma set_current_directory_step dir w :
  tab_step tab_runs w (update_active (set_current_directory dir) w).
Proof.
  apply tab_step_update_active. split; [|left; split; reflexivity].
  split; try reflexivity. intros Hwf. split; [assumption|]. split; [reflexivity|].
  exists []. now rewrite app_nil_r.
Qed.

Lemma change_directory_step os target w :
  active_ok w -> tab_step tab_runs w (change_directory os target w).
Proof.
  intros Hok. unfold change_directory.
  pose proof (chdir_step os target w Hok) as H1.
  pose proof (tab_runs_active_ok _ _ Hok H1) as Hok1.
  destruct (chdir os target w) as [[errno|] w1]; cbn [snd] in *.
  - eapply tab_runs_step_trans; [assumption|exact H1|]. now apply log_line_step.
  - eapply tab_runs_step_trans; [assumption|exact H1|]. apply set_current_directory_step.
Qed.

Lemma echo_command_step os cmd w :
  active_ok w -> tab_step tab_runs w (echo_command os cmd w).
Proof.
  intros Hok. unfold echo_command.
  eapply tab_runs_step_trans; [assumption|apply tick_step; assumption|].
  apply log_line_step. eapply tab_runs_active_ok; [exact Hok|now apply tick_step].
Qed.

Lemma run_interactive_step os cmd w :
  active_ok w -> tab_step tab_runs w (run_interactive os cmd w).
Proof.
  intros Hok. unfold run_interactive.
  set (w1 := log_line os _ _ w).
  assert (H1 : tab_step tab_runs w w1) by now apply log_line_step.
  pose proof (tab_runs_active_ok _ _ Hok H1) as Hok1.
  set (w2 := log_line os _ _ w1).
  assert (H2 : tab_step tab_runs w1 w2) by now apply log_line_step.
  pose proof (tab_runs_active_ok _ _ Hok1 H2) as Hok2.
  assert (H3 : tab_step tab_runs w2 (child_started cmd w2)) by now apply tab_runs_os_step.
  pose proof (tab_runs_active_ok _ _ Hok2 H3) as Hok3.
  set (w4 := if negb (_ =? 0) then _ else _).
  assert (H4 : tab_step tab_runs (child_started cmd w2) w4).
  { subst w4. destruct (negb _); [now apply log_line_step|now apply tab_runs_os_step]. }
  pose proof (tab_runs_active_ok _ _ Hok3 H4) as Hok4.
  eapply tab_runs_step_trans; [assumption|exact H1|].
  eapply tab_runs_step_trans; [assumption|exact H2|].
  eapply tab_runs_step_trans; [assumption|exact H3|].
  eapply tab_runs_step_trans; [assumption|exact H4|].
  now apply log_line_step.
Qed.

Lemma read_pipe_step os reads : forall w,
  active_ok w -> tab_step tab_runs w (read_pipe os reads w).
Proof.
  induction reads as [|chunk more IH]; intros w Hok; cbn [read_pipe].
  - now apply tab_runs_os_step.
  - destruct (is_empty chunk); [now apply tab_runs_os_step|].
    pose proof (tick_step w Hok) as H1.
    pose proof (tab_runs_active_ok _ _ Hok H1) as Hok1.
    pose proof (log_lines_step os HISTORY_TYPE_NORMAL (chunk_lines chunk) (tick w) Hok1) as H2.
    pose proof (tab_runs_active_ok _ _ Hok1 H2) as Hok2.
    eapply tab_runs_step_trans; [assumption|exact H1|].
    eapply tab_runs_step_trans; [assumption|exact H2|].
    apply IH. exact Hok2.
Qed.

Lemma tab_step_settled w w' :
  active_ok w -> tab_step tab_grows w w' ->
  cmd_state (get_active_terminal w') = CMD_STATE_READY ->
  current_process (get_active_terminal w') = 0 ->
  tab_step tab_runs w w'.
Proof.
  intros Hok H Hs Hp.
  destruct (tab_step_active tab_grows w w' Hok H) as (_ & Hid & HR & _).
  destruct H as [Hc Ha Hl Hb (t' & Ht & Hcells)].
  assert (E : get_active_terminal w' = t').
  { unfold get_active_terminal, terminal_at. rewrite Hid, Hcells.
    apply list_lookup_total_insert_eq, Hok. }
  split; try assumption. exists t'. split; [|assumption].
  split; [assumption|]. right. rewrite <- E. now split.
Qed.

Lemma begin_command_step pid cmd w :
  active_ok w -> tab_step tab_grows w (begin_command pid cmd w).
Proof.
  intros Hok. unfold begin_command.
  eapply tab_grows_step_trans; [assumption| |].
  - apply (tab_step_same_manager tab_grows tab_grows_refl w (child_started cmd w));
      auto.
  - apply tab_step_update_active. split; try reflexivity.
    intros Hwf. split; [assumption|]. split; [reflexivity|].
    exists []. now rewrite app_nil_r.
Qed.

Lemma tab_grows_active_ok w w' : active_ok w -> tab_step tab_grows w w' -> active_ok w'.
Proof. intros Hok H. now destruct (tab_step_active tab_grows w w' Hok H). Qed.

Lemma reap_step os status w :
  active_ok w -> tab_step tab_runs w (reap os status w).
Proof.
  intros Hok. unfold reap.
  set (w1 := update_active _ (tick w)).
  assert (H1 : tab_step tab_grows w w1).
  { eapply tab_grows_step_trans; [assumption| |].
    - apply (tab_step_same_manager tab_grows tab_grows_refl w (tick w)); auto.
    - apply tab_step_update_active. split; try reflexivity.
      intros Hwf. split; [assumption|]. split; [reflexivity|].
      exists []. now rewrite app_nil_r. }
  pose proof (tab_grows_active_ok _ _ Hok H1) as Hok1.
  assert (Hs : cmd_state (get_active_terminal w1) = CMD_STATE_READY /\
               current_process (get_active_terminal w1) = 0).
  { subst w1. rewrite get_active_update_active; [split; reflexivity|].
    exact Hok. }
  destruct Hs as [Hs Hp].
  assert (H1' : tab_step tab_runs w w1) by now apply tab_step_settled.
  assert (Hlog : forall text, tab_step tab_runs w
                   (log_line os text HISTORY_TYPE_NORMAL w1)).
  { intros text. eapply tab_runs_step_trans; [assumption|exact H1'|].
    now apply log_line_step. }
  destruct (WIFEXITED status && negb (WEXITSTATUS status =? 0)); [apply Hlog|].
  destruct (WIFSIGNALED status); [apply Hlog|exact H1'].
Qed.

Lemma reap_settled os status w :
  active_ok w ->
  cmd_state (get_active_terminal (reap os status w)) = CMD_STATE_READY /\
  current_process (get_active_terminal (reap os status w)) = 0.
Proof.
  intros Hok. unfold reap.
  set (w1 := update_active _ (tick w)).
  assert (Hok1 : active_ok w1) by (apply active_ok_update_active; exact Hok).
  assert (Hs : cmd_state (get_active_terminal w1) = CMD_STATE_READY /\
               current_process (get_active_terminal w1) = 0).
  { subst w1. rewrite get_active_update_active; [split; reflexivity|exact Hok]. }
  assert (Hlog : forall text,
            cmd_state (get_active_terminal (log_line os text HISTORY_TYPE_NORMAL w1))
            = CMD_STATE_READY /\
            current_process (get_active_terminal (log_line os text HISTORY_TYPE_NORMAL w1))
            = 0).
  { intros text. rewrite get_active_log_line by exact Hok1. exact Hs. }
  destruct (WIFEXITED status && negb (WEXITSTATUS status =? 0)); [apply Hlog|].
  destruct (WIFSIGNALED status); [apply Hlog|exact Hs].
Qed.

Lemma tab_runs_grows w w' : tab_step tab_runs w w' -> tab_step tab_grows w w'.
Proof. apply tab_step_mono. now intros t t' [H _]. Qed.

Lemma spawned_step os pid cmd (stream_ok : bool) reads status w :
  active_ok w ->
  tab_step tab_runs w
    (reap os status (if stream_ok then read_pipe os reads (begin_command pid cmd w)
                     else begin_command pid cmd w)).
Proof.
  intros Hok.
  pose proof (begin_command_step pid cmd w Hok) as H1.
  pose proof (tab_grows_active_ok _ _ Hok H1) as Hok1.
  set (w2 := if stream_ok then _ else _).
  assert (H2 : tab_step tab_runs (begin_command pid cmd w) w2).
  { subst w2. destruct stream_ok; [now apply read_pipe_step|now apply tab_runs_os_step]. }
  pose proof (tab_runs_active_ok _ _ Hok1 H2) as Hok2.
  destruct (reap_settled os status w2 Hok2) as [Hs Hp].
  apply tab_step_settled; try assumption.
  eapply tab_grows_step_trans; [assumption|exact H1|].
  eapply tab_grows_step_trans; [assumption|apply tab_runs_grows, H2|].
  apply tab_runs_grows. now apply reap_step.
Qed.

Lemma tab_records_refl cmd t : tab_records cmd t t.
Proof. now left. Qed.

Lemma record_command_step cmd w :
  active_ok w -> tab_step (tab_records cmd) w (record_command cmd w).
Proof.
  intros Hok. unfold record_command.
  destruct (_ || _).
  - apply tab_step_update_active. now right.
  - apply tab_step_same_manager; auto. apply tab_records_refl.
Qed.

Lemma tab_records_active_ok cmd w w' :
  active_ok w -> tab_step (tab_records cmd) w w' -> active_ok w'.
Proof. intros Hok H. now destruct (tab_step_active _ w w' Hok H). Qed.

Lemma tab_records_fields cmd t t' :
  tab_records cmd t t' ->
  term_id t' = term_id t /\ split_with t' = split_with t /\
  split_direction t' = split_direction t /\
  cmd_queue t' = cmd_queue t /\ cmd_state t' = cmd_state t /\
  current_process t' = current_process t /\ history t' = history t /\
  current_directory t' = current_directory t /\
  (input t' = input t \/ input t' = add_to_cmd_history (input t) cmd).
Proof.
  intros [->| ->]; repeat split; auto.
Qed.

(** A submission while no command runs and nothing is queued, as two
    steps on the active terminal: the command is recorded, then it
    runs. *)
Lemma execute_command_body_idle os self cmd w :
  active_ok w ->
  cmd_state (get_active_terminal w) <> CMD_STATE_RUNNING ->
  cq_count (cmd_queue (get_active_terminal w)) = 0 ->
  exists w0 w', execute_command_body os self cmd w = Some w' /\
                w0 = (if (strlen cmd =? 0) || strcmp_eq cmd "stop" || strcmp_eq cmd "manual"
                      then w else record_command cmd w) /\
                tab_step (tab_records cmd) w w0 /\ tab_step tab_runs w0 w'.
Proof.
  intros Hok Hidle Hq.
  assert (Hrun : is_command_running w = false).
  { unfold is_command_running. now apply Z.eqb_neq. }
  pose proof (tab_step_same_manager (tab_records cmd) (tab_records_refl cmd) w w Hok
                eq_refl eq_refl) as Hsame.
  unfold execute_command_body.
  destruct (strlen cmd =? 0).
  { exists w, w. split; [reflexivity|]. split; [reflexivity|]. split; [assumption|now apply tab_runs_os_step]. }
  destruct (strcmp_eq cmd "stop").
  { exists w, (stop_current_command os w). split; [reflexivity|]. split; [reflexivity|]. split; [assumption|].
    unfold stop_current_command. fold (is_command_running w). rewrite Hrun.
    cbn [andb]. now apply log_line_step. }
  destruct (strcmp_eq cmd "manual").
  { exists w, (show_manual os w). split; [reflexivity|]. split; [reflexivity|]. split; [assumption|].
    now apply log_lines_step. }
  rewrite Hrun. cbv zeta.
  pose proof (record_command_step cmd w Hok) as H0.
  pose proof (tab_records_active_ok _ _ _ Hok H0) as Hok0.
  destruct (tab_step_active _ _ _ Hok H0) as (_ & _ & Hrec & _).
  apply tab_records_fields in Hrec as (_ & _ & _ & Hq0 & _).
  set (w0 := record_command cmd w) in *.
  exists w0.
  destruct (strncmp_eq cmd "cd ").
  { eexists. split; [reflexivity|]. split; [reflexivity|]. split; [assumption|].
    now apply change_directory_step. }
  destruct (strcmp_eq cmd "cd").
  { eexists. split; [reflexivity|]. split; [reflexivity|]. split; [assumption|].
    unfold cd_home. destruct (os_home os);
      [now apply change_directory_step|now apply tab_runs_os_step]. }
  pose proof (echo_command_step os cmd w0 Hok0) as He.
  pose proof (tab_runs_active_ok _ _ Hok0 He) as Hoke.
  set (we := echo_command os cmd w0) in *.
  destruct (is_interactive cmd).
  { eexists. split; [reflexivity|]. split; [reflexivity|]. split; [assumption|].
    eapply tab_runs_step_trans; [assumption|exact He|]. now apply run_interactive_step. }
  assert (Hfail : forall text,
            tab_step tab_runs w0 (log_line os text HISTORY_TYPE_NORMAL (tick we))).
  { intros text. eapply tab_runs_step_trans; [assumption|exact He|].
    eapply tab_runs_step_trans; [assumption|now apply tick_step|].
    apply log_line_step. eapply tab_runs_active_ok; [exact Hoke|now apply tick_step]. }
  destruct (os_run os (os_tick we) cmd) as [errno|errno|pid stream_ok reads status].
  - eexists. split; [reflexivity|]. split; [reflexivity|]. split; [assumption|apply Hfail].
  - eexists. split; [reflexivity|]. split; [reflexivity|]. split; [assumption|apply Hfail].
  - pose proof (spawned_step os pid cmd stream_ok reads status we Hoke) as H3.
    assert (H03 : tab_step tab_runs w0 _)
      by (eapply tab_runs_step_trans; [exact Hok0|exact He|exact H3]).
    eexists. split; [|split; [reflexivity|split; [assumption|exact H03]]].
    apply process_command_queue_with_empty.
    destruct (tab_step_active _ _ _ Hok0 H03) as (_ & _ & [HR _] & _).
    rewrite (tg_queue _ _ HR), Hq0. exact Hq.
Qed.

(** X9. A command is submitted while the active session runs nothing and
    has nothing queued.  Whenever execute_command returns from it (it does
    not return before the command it starts has ended), the number of
    terminals and the active index are unchanged, every other terminal is
    exactly as it was, the command queue is untouched, and the session is
    not left Running (its process fields are as before, or Ready with no
    process).  The input state is the old one or the old one
    with the command added to the command history, and the history of
    output only grows: the old entries are all still there, in order. *)
Theorem idle_submission_stays_in_its_terminal
    (os : OS) (fuel : nat) (cmd : string) (w w' : World) :
  active_ok w ->
  history_wf (history (get_active_terminal w)) ->
  cmd_state (get_active_terminal w) <> CMD_STATE_RUNNING ->
  cq_count (cmd_queue (get_active_terminal w)) = 0 ->
  execute_command os (S fuel) cmd w = Some w' ->
    terminal_count (terminal_manager w') = terminal_count (terminal_manager w) /\
    active_terminal (terminal_manager w') = active_terminal (terminal_manager w) /\
    (forall j, Z.to_nat j <> Z.to_nat (active_id w) ->
               terminal_at j w' = terminal_at j w) /\
    let t := get_active_terminal w in
    let t' := get_active_terminal w' in
    cmd_queue t' = cmd_queue t /\
    term_id t' = term_id t /\ split_with t' = split_with t /\
    cmd_state t' <> CMD_STATE_RUNNING /\ settles t t' /\
    (input t' = input t \/ input t' = add_to_cmd_history (input t) cmd) /\
    history_wf (history t') /\
    hb_scroll_offset (history t') = hb_scroll_offset (history t) /\
    exists added, entries (history t') = entries (history t) ++ added.
Proof.
  intros Hok Hwf Hidle Hq Hret.
  change (execute_command os (S fuel) cmd w)
    with (execute_command_body os (execute_command os fuel) cmd w) in Hret.
  destruct (execute_command_body_idle os (execute_command os fuel) cmd w Hok Hidle Hq)
    as (w0 & w1 & E & _ & H0 & H1).
  rewrite E in Hret. injection Hret as ->.
  destruct (tab_step_active _ _ _ Hok H0) as (Hok0 & Hid0 & Hrec & Hothers0).
  destruct (tab_step_active _ _ _ Hok0 H1) as (Hok1 & Hid1 & [Hg Hs] & Hothers1).
  apply tab_records_fields in Hrec
    as (R1 & R2 & R3 & R4 & R5 & R6 & R7 & R8 & R9).
  destruct Hg as [G1 G2 G3 G4 G5 G6].
  rewrite R7 in G6. destruct (G6 Hwf) as (W & S & added & Ea).
  split; [rewrite (ts_count _ _ _ H1); apply (ts_count _ _ _ H0)|].
  split; [rewrite (ts_active _ _ _ H1); apply (ts_active _ _ _ H0)|].
  split.
  { intros j Hj. rewrite Hothers1 by (rewrite Hid0; exact Hj). now apply Hothers0. }
  cbv zeta.
  split; [congruence|]. split; [congruence|]. split; [congruence|].
  assert (Hset : settles (get_active_terminal w) (get_active_terminal w')).
  { destruct Hs as [[S1 S2]|[S1 S2]]; [left|right]; split; congruence. }
  split.
  { destruct Hset as [[S1 _]|[S1 _]]; rewrite S1; [exact Hidle|discriminate]. }
  split; [exact Hset|].
  split; [rewrite G5; exact R9|].
  split; [exact W|]. split; [exact S|]. exists added. exact Ea.
Qed.

Lemma idle_submission_stays_in_its_terminal_witness :
  exists w',
    execute_command sample_os 1 "ls" sample_world = Some w' /\
    terminal_count (terminal_manager w') = terminal_count (terminal_manager sample_world) /\
    active_terminal (terminal_manager w')
    = active_terminal (terminal_manager sample_world) /\
    (forall j, Z.to_nat j <> Z.to_nat (active_id sample_world) ->
               terminal_at j w' = terminal_at j sample_world) /\
    let t := get_active_terminal sample_world in
    let t' := get_active_terminal w' in
    cmd_queue t' = cmd_queue t /\
    term_id t' = term_id t /\ split_with t' = split_with t /\
    cmd_state t' <> CMD_STATE_RUNNING /\ settles t t' /\
    (input t' = input t \/ input t' = add_to_cmd_history (input t) "ls") /\
    history_wf (history t') /\
    hb_scroll_offset (history t') = hb_scroll_offset (history t) /\
    exists added, entries (history t') = entries (history t) ++ added.
Proof.
  destruct (execute_command sample_os 1 "ls" sample_world) as [w'|] eqn:E;
    [|vm_compute in E; discriminate E].
  exists w'. split; [reflexivity|].
  apply (idle_submission_stays_in_its_terminal sample_os 0 "ls" sample_world w').
  - apply (so_active _ sample_world_ok).
  - apply (so_history _ sample_world_ok).
  - vm_compute. intros H; discriminate H.
  - reflexivity.
  - exact E.
Defined.

(** ** The states between two rounds of the control loop *)

Lemma calm_active_ok w : calm w -> active_ok w.
Proof.
  intros [Hc Hl Ha _ _]. unfold active_ok, active_id, MAX_TERMINALS in *.
  split; [lia|]. rewrite Hl. lia.
Qed.

Lemma calm_active_idle w : calm w -> tab_idle (get_active_terminal w).
Proof. intros H. apply (calm_tabs w H). apply (calm_active w H). Qed.

Lemma calm_manager_ok w : calm w -> manager_ok w.
Proof.
  intros [Hc Hl Ha Hi Ht]. split; try assumption.
  intros i Hi'. left. apply (ti_split _ (Ht i Hi')).
Qed.

Lemma calm_same_manager w w' :
  terminal_manager w' = terminal_manager w -> calm w -> calm w'.
Proof.
  intros Hm [Hc Hl Ha Hi Ht].
  split; unfold terminal_at in *; rewrite Hm; assumption.
Qed.

(** Writing one cell with a terminal at rest that carries the cell's id. *)
Lemma calm_update_terminal i f w :
  calm w -> 0 <= i ->
  (i < terminal_count (terminal_manager w) ->
   tab_idle (f (terminal_at i w)) /\ term_id (f (terminal_at i w)) = i) ->
  calm (update_terminal i f w).
Proof.
  intros [Hc Hl Ha Hi Ht] H0 Hf.
  assert (Hcell : forall j, 0 <= j < terminal_count (terminal_manager w) ->
            (j = i /\ terminal_at j (update_terminal i f w) = f (terminal_at i w)) \/
            (j <> i /\ terminal_at j (update_terminal i f w) = terminal_at j w)).
  { intros j Hj. destruct (Z.eq_dec j i) as [->|E].
    - left. split; [reflexivity|]. apply terminal_at_update_eq.
      rewrite Hl. unfold MAX_TERMINALS in *. lia.
    - right. split; [assumption|]. apply terminal_at_update_ne. lia. }
  split; try assumption.
  - cbn. now rewrite length_insert.
  - intros j Hj. destruct (Hcell j Hj) as [[-> E]|[_ E]]; rewrite E.
    + apply Hf. apply Hj.
    + now apply Hi.
  - intros j Hj. destruct (Hcell j Hj) as [[-> E]|[_ E]]; rewrite E.
    + apply Hf. apply Hj.
    + now apply Ht.
Qed.

Lemma calm_on_input f w :
  calm w ->
  (forall i, editor_ok i -> editor_ok (f i) /\ is_locked (f i) = is_locked i) ->
  calm (on_input f w).
Proof.
  intros Hc Hf. apply calm_update_terminal; [assumption|apply (calm_active w Hc)|].
  intros Hi. fold (get_active_terminal w).
  pose proof (calm_active_idle w Hc) as [T1 T2 T3 T4 T5 T6 T7].
  destruct (Hf _ T6) as [F1 F2].
  split; [split; cbn; try assumption; congruence|].
  cbn. apply (calm_ids w Hc), (calm_active w Hc).
Qed.

Lemma calm_on_history f w :
  calm w ->
  (forall h, history_wf h -> history_wf (f h)) ->
  calm (on_history f w).
Proof.
  intros Hc Hf. apply calm_update_terminal; [assumption|apply (calm_active w Hc)|].
  intros Hi. fold (get_active_terminal w).
  pose proof (calm_active_idle w Hc) as [T1 T2 T3 T4 T5 T6 T7].
  split; [split; cbn; try assumption; now apply Hf|].
  cbn. apply (calm_ids w Hc), (calm_active w Hc).
Qed.

Lemma scroll_keeps_history_wf h :
  history_wf h -> history_wf (scroll_terminal_up h) /\ history_wf (scroll_terminal_down h).
Proof.
  intros [H1 H2 H3 H4 H5]. unfold scroll_terminal_up, scroll_terminal_down.
  split; [destruct (_ <? _)|destruct (_ >? _)]; split; assumption.
Qed.

Lemma calm_set_active id w :
  calm w -> 0 <= id < terminal_count (terminal_manager w) ->
  calm (set_terminal_manager (set_active_terminal id (terminal_manager w)) w).
Proof. intros [Hc Hl Ha Hi Ht] Hid. split; assumption. Qed.

Lemma calm_chdir os path w : calm w -> calm (chdir os path w).2.
Proof.
  intros Hc. unfold chdir.
  destruct (os_chdir os (os_tick w) (os_cwd w) path); cbn [snd];
    now apply (calm_same_manager w).
Qed.

Lemma tab_idle_set_current_directory dir t :
  tab_idle t -> tab_idle (set_current_directory dir t).
Proof. intros [T1 T2 T3 T4 T5 T6 T7]. split; assumption. Qed.

Lemma calm_switch_terminal os id w : calm w -> calm (switch_terminal os id w).
Proof.
  intros Hc. unfold switch_terminal.
  destruct ((id >=? 0) && (id <? terminal_count (terminal_manager w))) eqn:E;
    [|assumption].
  apply andb_true_iff in E as [E1 E2]. apply Z.geb_le in E1. apply Z.ltb_lt in E2.
  apply calm_chdir. apply calm_set_active; [|cbn; lia].
  apply calm_update_terminal; [assumption|apply (calm_active w Hc)|].
  intros _. fold (get_active_terminal w). split.
  - apply tab_idle_set_current_directory, calm_active_idle, Hc.
  - cbn. apply (calm_ids w Hc), (calm_active w Hc).
Qed.

Lemma calm_handle_escape os keys w : calm w -> calm (handle_escape os keys w).2.
Proof.
  intros Hc. unfold handle_escape.
  destruct (getch keys) as [next_ch keys1].
  destruct (next_ch =? -1); [assumption|].
  destruct ((next_ch >=? 49) && (next_ch <=? 57)).
  { cbn [snd]. unfold switch_to_terminal.
    destruct (_ && _); [now apply calm_switch_terminal|assumption]. }
  destruct ((next_ch =? 61) || (next_ch =? 43)).
  { cbn [snd]. now apply calm_switch_terminal. }
  destruct (next_ch =? 45).
  { cbn [snd]. now apply calm_switch_terminal. }
  destruct (next_ch =? 91); [|assumption].
  destruct (getch keys1) as [next_ch2 keys2].
  destruct (_ || _); [|assumption].
  cbn [snd]. unfold switch_split_pane.
  destruct (negb _); [now apply calm_switch_terminal|assumption].
Qed.

Lemma calm_log_at os i text ty w : calm w -> 0 <= i -> calm (log_at os i text ty w).
Proof.
  intros Hc Hi. unfold log_at.
  match goal with |- calm (tick ?x) => apply (calm_same_manager x); [reflexivity|] end.
  apply calm_update_terminal; [assumption|assumption|].
  intros Hlt. destruct (calm_tabs w Hc i) as [T1 T2 T3 T4 T5 T6 T7]; [lia|].
  split; [|cbn; apply (calm_ids w Hc); lia].
  split; cbn; try assumption.
  now apply add_history_line_entries.
Qed.

Lemma calm_log_at_lines os i ty lines : forall w,
  calm w -> 0 <= i -> calm (foldl (fun w line => log_at os i line ty w) w lines).
Proof.
  induction lines as [|l lines IH]; intros w Hc Hi; cbn [foldl]; [assumption|].
  apply IH; [|assumption]. now apply calm_log_at.
Qed.

Lemma calm_show_welcome_message os i w :
  calm w -> 0 <= i -> calm (show_welcome_message os i w).
Proof. intros Hc Hi. now apply calm_log_at_lines. Qed.

Lemma fresh_terminal_idle new_id cell dir :
  tab_idle (set_current_directory dir (fresh_terminal new_id (-1) cell)) /\
  term_id (set_current_directory dir (fresh_terminal new_id (-1) cell)) = new_id.
Proof.
  split; [|reflexivity].
  split; try reflexivity.
  - apply init_input_state_ok.
  - apply init_history_buffer_wf.
Qed.

(** One more terminal, once the cell behind the last one has been set
    up. *)
Lemma calm_grow w :
  calm w ->
  terminal_count (terminal_manager w) < MAX_TERMINALS ->
  tab_idle (terminal_at (terminal_count (terminal_manager w)) w) ->
  term_id (terminal_at (terminal_count (terminal_manager w)) w)
  = terminal_count (terminal_manager w) ->
  calm (set_terminal_manager
          (set_terminal_count (int_wrap (terminal_count (terminal_manager w) + 1))
                              (terminal_manager w)) w).
Proof.
  intros [Hc Hl Ha Hi Ht] Hroom Hidle Hid. unfold MAX_TERMINALS in *.
  rewrite int_wrap_small by lia.
  split; cbn [set_terminal_manager set_terminal_count terminal_manager terminal_count
              active_terminal terminals]; unfold MAX_TERMINALS; try assumption; try lia.
  - intros i Hi'. destruct (Z.eq_dec i (terminal_count (terminal_manager w))) as [->|E].
    + exact Hid.
    + apply Hi. lia.
  - intros i Hi'. destruct (Z.eq_dec i (terminal_count (terminal_manager w))) as [->|E].
    + exact Hidle.
    + apply Ht. lia.
Qed.

Lemma calm_create_new_terminal os w : calm w -> calm (create_new_terminal os w).
Proof.
  intros Hc. unfold create_new_terminal.
  destruct (terminal_count (terminal_manager w) >=? MAX_TERMINALS) eqn:E; [assumption|].
  assert (Hroom : terminal_count (terminal_manager w) < MAX_TERMINALS).
  { destruct (Z.geb_spec (terminal_count (terminal_manager w)) MAX_TERMINALS);
      [discriminate|lia]. }
  cbv zeta.
  set (n := terminal_count (terminal_manager w)) in *.
  pose proof (calm_count w Hc) as Hn. fold n in Hn.
  set (w0 := update_terminal n (fresh_terminal n (-1)) w).
  assert (Hc0 : calm w0).
  { apply calm_update_terminal; [assumption|lia|]. fold n. lia. }
  set (dir := current_directory (get_active_terminal w0)).
  set (w1 := update_terminal n (set_current_directory dir) w0).
  assert (Hc1 : calm w1).
  { apply calm_update_terminal; [assumption|lia|].
    change (terminal_count (terminal_manager w0)) with n. lia. }
  assert (Hcell : terminal_at n w1
                  = set_current_directory dir (fresh_terminal n (-1) (terminal_at n w))).
  { subst w1 w0. rewrite !terminal_at_update_eq; [reflexivity| |].
    - rewrite (calm_cells w Hc). unfold MAX_TERMINALS in *. lia.
    - cbn. rewrite length_insert, (calm_cells w Hc). unfold MAX_TERMINALS in *. lia. }
  apply calm_chdir. apply calm_show_welcome_message; [|lia].
  change (terminal_manager w1) with (terminal_manager w1).
  change n with (terminal_count (terminal_manager w1)).
  apply calm_grow; [assumption|exact Hroom| |];
    change (terminal_count (terminal_manager w1)) with n; rewrite Hcell;
    apply fresh_terminal_idle.
Qed.

Lemma boot_calm os cwd : calm (boot os cwd).
Proof.
  unfold boot. apply calm_show_welcome_message; [|lia].
  split; cbn [init_terminal_manager set_terminal_manager terminal_manager terminal_count
              active_terminal terminals]; unfold MAX_TERMINALS; try lia.
  - reflexivity.
  - intros i Hi. assert (i = 0) as -> by lia. reflexivity.
  - intros i Hi. assert (i = 0) as -> by lia.
    apply (fresh_terminal_idle 0).
Qed.

Lemma renumbered_idle a i t :
  tab_idle t -> tab_idle (renumbered a i t) /\ term_id (renumbered a i t) = i.
Proof.
  intros [T1 T2 T3 T4 T5 T6 T7]. unfold renumbered.
  cbn [set_term_id split_with]. rewrite T5. cbn [Z.eqb negb andb].
  split; [split; assumption|reflexivity].
Qed.

Lemma calm_close_current_terminal os w : calm w -> calm (close_current_terminal os w).
Proof.
  intros Hc. unfold close_current_terminal.
  destruct (terminal_count (terminal_manager w) <=? 1) eqn:E; [assumption|].
  apply Z.leb_gt in E. cbv zeta.
  pose proof (calm_active_idle w Hc) as Hidle.
  unfold get_active_terminal, active_id in Hidle.
  rewrite (ti_state _ Hidle). cbn [Z.eqb CMD_STATE_READY CMD_STATE_RUNNING].
  change (CMD_STATE_READY =? CMD_STATE_RUNNING) with false. cbv iota.
  rewrite (ti_split _ Hidle). change (negb (-1 =? -1)) with false. cbv iota.
  destruct Hc as [Hn Hl Ha Hi Ht]. unfold MAX_TERMINALS in *.
  set (n := terminal_count (terminal_manager w)) in *.
  set (a := active_terminal (terminal_manager w)) in *.
  rewrite !int_wrap_small by lia.
  assert (Hcell : forall j, 0 <= j < n - 1 ->
            exists t, tab_idle t /\
              shift_terminals a n (terminals (terminal_manager w)) !!! Z.to_nat j
              = (if (a <=? j) && (j <? n - 1) then renumbered a j t else t) /\
              ((a <=? j) && (j <? n - 1) = false -> term_id t = j)).
  { intros j Hj. rewrite shift_terminals_lookup by (try rewrite Hl; lia).
    destruct ((a <=? j) && (j <? n - 1)) eqn:Ej.
    - exists (terminal_at (j + 1) w). split; [apply Ht; lia|].
      split; [reflexivity|discriminate].
    - exists (terminal_at j w). split; [apply Ht; lia|].
      split; [reflexivity|]. intros _. apply Hi. lia. }
  split; cbn [set_terminal_manager terminal_manager terminal_count active_terminal
              terminals]; unfold MAX_TERMINALS.
  - lia.
  - unfold shift_terminals. now rewrite shift_loop_length.
  - destruct (Z.geb_spec a (n - 1)); lia.
  - intros j Hj. unfold terminal_at.
    cbn [set_terminal_manager terminal_manager terminals].
    destruct (Hcell j Hj) as (t & Hidle_t & -> & Hid).
    destruct ((a <=? j) && (j <? n - 1)); [apply renumbered_idle, Hidle_t|now apply Hid].
  - intros j Hj. unfold terminal_at.
    cbn [set_terminal_manager terminal_manager terminals].
    destruct (Hcell j Hj) as (t & Hidle_t & -> & Hid).
    destruct ((a <=? j) && (j <? n - 1)); [apply renumbered_idle, Hidle_t|exact Hidle_t].
Qed.

Lemma editor_entries_recorded i :
  cmd_history_wf i ->
  (forall k, (k < Z.to_nat (cmd_history_count i))%nat ->
             exists s, cmd_history i !! k = Some (Some s) /\ strlen s < MAX_CMD_INPUT) <->
  Forall (fun e => exists s, e = Some s /\ strlen s < MAX_CMD_INPUT) (recorded i).
Proof.
  intros Hwf. pose proof (recorded_length i Hwf) as Hlen.
  rewrite Forall_lookup. unfold recorded in *. split.
  - intros H k x Hk. pose proof (lookup_lt_Some _ _ _ Hk) as Hlt.
    rewrite Hlen in Hlt. rewrite lookup_take_lt in Hk by assumption.
    destruct (H k Hlt) as (s & Hs & Hfit). exists s. split; [congruence|assumption].
  - intros H k Hk.
    destruct (lookup_lt_is_Some_2 (take (Z.to_nat (cmd_history_count i)) (cmd_history i)) k)
      as [x Hx]; [rewrite Hlen; exact Hk|].
    destruct (H k x Hx) as (s & -> & Hfit). exists s. split; [|assumption].
    now rewrite lookup_take_lt in Hx by assumption.
Qed.

Lemma add_to_cmd_history_editor_ok i cmd :
  editor_ok i -> strlen cmd < MAX_CMD_INPUT ->
  editor_ok (add_to_cmd_history i cmd) /\
  is_locked (add_to_cmd_history i cmd) = is_locked i.
Proof.
  intros [[L1 L2 L3] Hwf Hp He] Hfit.
  destruct (add_to_cmd_history_recorded i cmd Hwf)
    as (W & Hrec & Hpos & Hcnt & E1 & E2 & E3 & E4).
  split; [|exact E4]. split.
  - split; rewrite ?E1, ?E2, ?E3; assumption.
  - exact W.
  - rewrite Hpos. pose proof (ch_count _ W). lia.
  - apply (editor_entries_recorded _ W). rewrite Hrec.
    apply Forall_drop, Forall_app. split.
    + now apply (editor_entries_recorded i Hwf).
    + constructor; [|constructor]. exists cmd. split; [reflexivity|assumption].
Qed.

Lemma reset_line_editor_ok i :
  editor_ok i -> editor_ok (reset_line i) /\ is_locked (reset_line i) = is_locked i.
Proof.
  intros [L Hwf Hp He]. split; [|reflexivity].
  split; [split; cbn; unfold MAX_CMD_INPUT; first [reflexivity|lia]
         | destruct Hwf; split; assumption
         | cbn; destruct Hwf as [Hc _]; lia
         | exact He].
Qed.

Lemma tab_records_idle cmd t t' :
  strlen cmd < MAX_CMD_INPUT -> tab_idle t -> tab_records cmd t t' ->
  tab_idle t' /\ term_id t' = term_id t.
Proof.
  intros Hfit [T1 T2 T3 T4 T5 T6 T7] [->| ->]; [split; [split; assumption|reflexivity]|].
  destruct (add_to_cmd_history_editor_ok _ cmd T6 Hfit) as [E1 E2].
  split; [|reflexivity]. split; cbn; try assumption. congruence.
Qed.

Lemma tab_runs_idle t t' :
  tab_idle t -> tab_runs t t' -> tab_idle t' /\ term_id t' = term_id t.
Proof.
  intros [T1 T2 T3 T4 T5 T6 T7] [[G1 G2 G3 G4 G5 G6] S].
  split; [|assumption]. split; try congruence.
  - destruct S as [[S1 _]|[S1 _]]; congruence.
  - destruct S as [[_ S2]|[_ S2]]; congruence.
  - apply (G6 T7).
Qed.

Lemma calm_tab_step (R : Terminal -> Terminal -> Prop) w w' :
  calm w -> tab_step R w w' ->
  (forall t t', tab_idle t -> R t t' -> tab_idle t' /\ term_id t' = term_id t) ->
  calm w'.
Proof.
  intros Hc [Hn Ha Hl Hb (t' & Ht & Hcells)] HR.
  pose proof (calm_active_idle w Hc) as Hidle.
  destruct (HR _ _ Hidle Ht) as [Hidle' Hid'].
  pose proof (calm_active w Hc) as Hact.
  pose proof (calm_count w Hc) as Hcount. unfold MAX_TERMINALS in *.
  assert (Hcell : forall j, 0 <= j < terminal_count (terminal_manager w) ->
            (j = active_id w /\ terminal_at j w' = t') \/
            (j <> active_id w /\ terminal_at j w' = terminal_at j w)).
  { intros j Hj. unfold terminal_at. rewrite Hcells.
    destruct (Z.eq_dec j (active_id w)) as [->|E].
    - left. split; [reflexivity|]. apply list_lookup_total_insert_eq.
      rewrite (calm_cells w Hc). unfold active_id, MAX_TERMINALS. lia.
    - right. split; [assumption|]. apply list_lookup_total_insert_ne.
      unfold active_id in *. lia. }
  split; rewrite ?Hn, ?Ha; try assumption.
  - rewrite Hcells, length_insert. apply (calm_cells w Hc).
  - intros j Hj. destruct (Hcell j Hj) as [[-> E]|[_ E]]; rewrite E.
    + rewrite Hid'. apply (calm_ids w Hc). exact Hact.
    + now apply (calm_ids w Hc).
  - intros j Hj. destruct (Hcell j Hj) as [[-> E]|[_ E]]; rewrite E.
    + exact Hidle'.
    + now apply (calm_tabs w Hc).
Qed.

Lemma calm_execute_command os fuel cmd w :
  calm w -> strlen cmd < MAX_CMD_INPUT ->
  exists w', execute_command os (S fuel) cmd w = Some w' /\ calm w'.
Proof.
  intros Hc Hfit.
  pose proof (calm_active_idle w Hc) as Hidle.
  change (execute_command os (S fuel) cmd w)
    with (execute_command_body os (execute_command os fuel) cmd w).
  destruct (execute_command_body_idle os (execute_command os fuel) cmd w)
    as (w0 & w' & E & _ & H0 & H1).
  - now apply calm_active_ok.
  - rewrite (ti_state _ Hidle). discriminate.
  - apply (ti_queue _ Hidle).
  - exists w'. split; [exact E|].
    apply (calm_tab_step tab_runs w0); [|exact H1|exact tab_runs_idle].
    apply (calm_tab_step (tab_records cmd) w); [exact Hc|exact H0|].
    intros t t'. now apply tab_records_idle.
Qed.

Lemma calm_submit_line os w :
  calm w -> exists r w', submit_line os w = Some (r, w') /\ calm w'.
Proof.
  intros Hc. unfold submit_line.
  destruct (input_len (input (get_active_terminal w)) >? 0); [|now exists 0, w].
  set (cmd := strncpy _ _).
  destruct (strcmp_eq cmd "exit"); [now exists 1, w|].
  assert (Hfit : strlen cmd < MAX_CMD_INPUT).
  { pose proof (eo_line _ (ti_input _ (calm_active_idle w Hc))) as [L1 L2 L3].
    subst cmd. unfold strlen in *. rewrite strncpy_length. lia. }
  unfold enough_fuel.
  destruct (calm_execute_command
              os (Z.to_nat (cq_count (cmd_queue (get_active_terminal w)))) cmd w Hc Hfit)
    as (w' & -> & Hc').
  exists 0, (on_input reset_line w'). split; [reflexivity|].
  apply calm_on_input; [assumption|apply reset_line_editor_ok].
Qed.

Lemma edit_key_keeps_editor (k : edit_key) i :
  editor_ok i ->
  editor_ok (apply_edit i k) /\ is_locked (apply_edit i k) = is_locked i.
Proof.
  intros H. split; [now apply apply_edit_editor_ok|apply apply_edit_frame].
Qed.

Lemma calm_handle_input os keys w :
  calm w ->
  exists r keys' w', handle_input os keys w = Some (r, keys', w') /\ calm w'.
Proof.
  intros Hc. unfold handle_input.
  destruct (getch keys) as [ch keys1].
  rewrite (ti_unlocked _ (calm_active_idle w Hc)).
  change (negb (0 =? 0)) with false. cbv iota.
  destruct (ch =? 20).
  { eexists _, _, _. split; [reflexivity|now apply calm_create_new_terminal]. }
  destruct (ch =? 23).
  { eexists _, _, _. split; [reflexivity|now apply calm_close_current_terminal]. }
  destruct (ch =? KEY_UP).
  { eexists _, _, _. split; [reflexivity|].
    apply calm_on_history; [assumption|apply scroll_keeps_history_wf]. }
  destruct (ch =? KEY_DOWN).
  { eexists _, _, _. split; [reflexivity|].
    apply calm_on_history; [assumption|apply scroll_keeps_history_wf]. }
  destruct (ch =? KEY_SR).
  { eexists _, _, _. split; [reflexivity|].
    apply calm_on_input; [assumption|apply (edit_key_keeps_editor KeyShiftUp)]. }
  destruct (ch =? KEY_SF).
  { eexists _, _, _. split; [reflexivity|].
    apply calm_on_input; [assumption|apply (edit_key_keeps_editor KeyShiftDown)]. }
  destruct (ch =? 27).
  { pose proof (calm_handle_escape os keys1 w Hc) as He.
    destruct (handle_escape os keys1 w) as [keys2 w2].
    eexists _, _, _. split; [reflexivity|exact He]. }
  destruct (ch =? 10).
  { destruct (calm_submit_line os w Hc) as (r & w' & -> & Hc').
    eexists _, _, _. split; [reflexivity|exact Hc']. }
  destruct ((ch =? KEY_BACKSPACE) || (ch =? 127)).
  { eexists _, _, _. split; [reflexivity|].
    apply calm_on_input; [assumption|apply (edit_key_keeps_editor KeyBackspace)]. }
  destruct (ch =? KEY_LEFT).
  { eexists _, _, _. split; [reflexivity|].
    apply calm_on_input; [assumption|apply (edit_key_keeps_editor KeyLeft)]. }
  destruct (ch =? KEY_RIGHT).
  { eexists _, _, _. split; [reflexivity|].
    apply calm_on_input; [assumption|apply (edit_key_keeps_editor KeyRight)]. }
  destruct (ch =? KEY_HOME).
  { eexists _, _, _. split; [reflexivity|].
    apply calm_on_input; [assumption|apply (edit_key_keeps_editor KeyHome)]. }
  destruct (ch =? KEY_END).
  { eexists _, _, _. split; [reflexivity|].
    apply calm_on_input; [assumption|apply (edit_key_keeps_editor KeyEnd)]. }
  destruct (ch =? KEY_DC).
  { eexists _, _, _. split; [reflexivity|].
    apply calm_on_input; [assumption|apply (edit_key_keeps_editor KeyDelete)]. }
  eexists _, _, _. split; [reflexivity|].
  apply calm_on_input; [assumption|apply (edit_key_keeps_editor (KeyChar ch))].
Qed.

Lemma scroll_input_window_editor_ok width i :
  editor_ok i ->
  editor_ok (scroll_input_window width i) /\
  is_locked (scroll_input_window width i) = is_locked i.
Proof.
  intros Hok.
  assert (Hset : forall v j, editor_ok j -> editor_ok (set_display_start v j)).
  { intros v j [[L1 L2 L3] [W1 W2] Hp He]. split; [split| split| |]; assumption. }
  unfold scroll_input_window.
  destruct (negb (is_locked i =? 0)); [now split|].
  cbv zeta.
  set (i1 := if input_len i <=? width then i else _).
  assert (H1 : editor_ok i1 /\ is_locked i1 = is_locked i).
  { subst i1. destruct (input_len i <=? width); [now split|].
    split; [now apply Hset|reflexivity]. }
  destruct H1 as [H1 H1']. clearbody i1.
  destruct (_ <? 0); [split; [now apply Hset|exact H1']|].
  destruct (_ >=? width); [split; [now apply Hset|exact H1']|now split].
Qed.

Lemma calm_process_command_queue os fuel w :
  calm w -> process_command_queue os fuel w = Some w.
Proof.
  intros Hc. apply process_command_queue_with_empty.
  apply (ti_queue _ (calm_active_idle w Hc)).
Qed.

Lemma calm_loop_step os w w' : calm w -> loop_step os w w' -> calm w'.
Proof.
  intros Hc Hs. revert Hc.
  destruct Hs as [width w0 _|keys r keys' w0 w1 E|fuel w0 w1 E]; intros Hc.
  - apply calm_on_input; [assumption|apply scroll_input_window_editor_ok].
  - destruct (calm_handle_input os keys w0 Hc) as (r0 & keys0 & w2 & E2 & Hc2).
    rewrite E2 in E. now injection E as <- <- <-.
  - rewrite (calm_process_command_queue os fuel w0 Hc) in E.
    now injection E as <-.
Qed.

Lemma calm_loop_steps os w w' : calm w -> loop_steps os w w' -> calm w'.
Proof.
  intros Hc Hs. revert Hc. induction Hs as [|w w1 w2 H1 _ IH]; intros Hc; [assumption|].
  apply IH, (calm_loop_step os w w1 Hc H1).
Qed.

(** X10. Start in the state main enters its loop with, and let the calls
    of the loop that change the state be made any number of times, in any
    order: the write to display_start when the input line is drawn (on a
    display with at least one column for it), handle_input with whatever
    keys arrive, process_command_queue.  After calls that have all
    returned, every terminal is at rest: there are between one and eight
    terminals with the active index among them, each carries its index as
    id, is Ready with no process, has an empty command queue and an
    unlocked input, has no split partner, and its cursor lies within a
    line that fits the buffer.  A command is waited for inside the call
    that submits it, so no terminal is found Running, with a queued
    command or locked between two calls.  Nothing is said of a call that
    does not return, nor of what drawing does besides. *)
Theorem loop_steps_leave_every_terminal_at_rest
    (os : OS) (cwd : string) (w' : World) :
  loop_steps os (boot os cwd) w' ->
  1 <= terminal_count (terminal_manager w') <= MAX_TERMINALS /\
  0 <= active_terminal (terminal_manager w') < terminal_count (terminal_manager w') /\
  forall i, 0 <= i < terminal_count (terminal_manager w') ->
    let t := terminal_at i w' in
    term_id t = i /\ cmd_state t = CMD_STATE_READY /\ current_process t = 0 /\
    cq_count (cmd_queue t) = 0 /\ is_locked (input t) = 0 /\ split_with t = -1 /\
    0 <= cursor_pos (input t) <= input_len (input t) /\
    input_len (input t) < MAX_CMD_INPUT.
Proof.
  intros Hs.
  pose proof (calm_loop_steps os _ w' (boot_calm os cwd) Hs) as Hc.
  split; [apply (calm_count w' Hc)|]. split; [apply (calm_active w' Hc)|].
  intros i Hi. cbv zeta.
  destruct (calm_tabs w' Hc i Hi) as [T1 T2 T3 T4 T5 T6 T7].
  destruct (eo_line _ T6) as [L1 L2 L3].
  split; [apply (calm_ids w' Hc i Hi)|].
  repeat split; try assumption; apply L1.
Qed.

Lemma loop_steps_leave_every_terminal_at_rest_witness :
  let w0 := boot sample_os "/home/user" in
  let w1 := on_input (scroll_input_window 66) w0 in
  let w2 := on_input (insert_char 108) w1 in
  let w3 := create_new_terminal sample_os w2 in
  handle_input sample_os [108; 20] w1 = Some (0, [20], w2) /\
  handle_input sample_os [20] w2 = Some (0, [], w3) /\
  terminal_count (terminal_manager w3) = 2 /\
  forall i, 0 <= i < terminal_count (terminal_manager w3) ->
    let t := terminal_at i w3 in
    term_id t = i /\ cmd_state t = CMD_STATE_READY /\ current_process t = 0 /\
    cq_count (cmd_queue t) = 0 /\ is_locked (input t) = 0 /\ split_with t = -1 /\
    0 <= cursor_pos (input t) <= input_len (input t) /\
    input_len (input t) < MAX_CMD_INPUT.
Proof.
  intros w0 w1 w2 w3.
  assert (E1 : handle_input sample_os [108; 20] w1 = Some (0, [20], w2))
    by (vm_compute; reflexivity).
  assert (E2 : handle_input sample_os [20] w2 = Some (0, [], w3))
    by (vm_compute; reflexivity).
  assert (E3 : process_command_queue sample_os 1 w3 = Some w3)
    by (vm_compute; reflexivity).
  split; [exact E1|]. split; [exact E2|]. split; [vm_compute; reflexivity|].
  apply (loop_steps_leave_every_terminal_at_rest sample_os "/home/user" w3).
  apply (steps_more sample_os w0 w1 w3); [apply step_draw; lia|].
  apply (steps_more sample_os w1 w2 w3); [exact (step_input _ _ _ _ _ _ E1)|].
  apply (steps_more sample_os w2 w3 w3); [exact (step_input _ _ _ _ _ _ E2)|].
  apply (steps_more sample_os w3 w3 w3); [exact (step_queue _ _ _ _ E3)|].
  apply steps_none.
Defined.

(** ** Opening a terminal *)

Lemma log_at_lines_cell os i ty lines : forall w,
  0 <= i -> (Z.to_nat i < length (terminals (terminal_manager w)))%nat ->
  history_wf (history (terminal_at i w)) ->
  let w' := foldl (fun w line => log_at os i line ty w) w lines in
  terminal_count (terminal_manager w') = terminal_count (terminal_manager w) /\
  active_terminal (terminal_manager w') = active_terminal (terminal_manager w) /\
  length (terminals (terminal_manager w')) = length (terminals (terminal_manager w)) /\
  line_break_enabled w' = line_break_enabled w /\
  os_cwd w' = os_cwd w /\
  (forall j, Z.to_nat j <> Z.to_nat i -> terminal_at j w' = terminal_at j w) /\
  exists h, terminal_at i w' = set_history h (terminal_at i w) /\
            history_wf h /\
            entries h = entries (history (terminal_at i w))
                        ++ ((fun l => (stored_text (line_break_enabled w) l, ty)) <$> lines).
Proof.
  induction lines as [|l lines IH]; intros w Hi Hlt Hwf; cbn [foldl].
  - repeat split; auto. exists (history (terminal_at i w)).
    split; [now destruct (terminal_at i w)|]. split; [assumption|].
    cbn. now rewrite app_nil_r.
  - set (w1 := log_at os i l ty w).
    destruct (add_history_line_entries (line_break_enabled w) (os_time os (os_tick w))
                (history (terminal_at i w)) l ty Hwf) as [W1 E1].
    assert (Hcell : terminal_at i w1
                    = set_history (add_history_line (line_break_enabled w)
                                     (os_time os (os_tick w))
                                     (history (terminal_at i w)) l ty) (terminal_at i w)).
    { subst w1. unfold log_at.
      change (terminal_at i (tick ?x)) with (terminal_at i x).
      now rewrite terminal_at_update_eq. }
    assert (Hothers : forall j, Z.to_nat j <> Z.to_nat i -> terminal_at j w1 = terminal_at j w).
    { intros j Hj. subst w1. unfold log_at.
      change (terminal_at j (tick ?x)) with (terminal_at j x).
      apply terminal_at_update_ne. congruence. }
    assert (Hlen : length (terminals (terminal_manager w1))
                   = length (terminals (terminal_manager w))).
    { subst w1. cbn. apply length_insert. }
    destruct (IH w1 Hi) as (H1 & H2 & H3 & H4 & H5 & H6 & h & H7 & H8 & H9).
    { rewrite Hlen. exact Hlt. }
    { rewrite Hcell. exact W1. }
    split; [exact H1|]. split; [exact H2|]. split; [congruence|].
    split; [exact H4|]. split; [exact H5|].
    split; [intros j Hj; rewrite H6 by exact Hj; now apply Hothers|].
    exists h. split; [rewrite H7, Hcell; reflexivity|]. split; [exact H8|].
    rewrite H9, Hcell. cbn [history set_history]. rewrite E1.
    change (line_break_enabled w1) with (line_break_enabled w).
    rewrite <- app_assoc. reflexivity.
Qed.

Lemma chdir_manager os path w :
  terminal_manager (chdir os path w).2 = terminal_manager w.
Proof. unfold chdir. now destruct (os_chdir os (os_tick w) (os_cwd w) path). Qed.

Lemma show_welcome_message_cell os i w :
  0 <= i -> (Z.to_nat i < length (terminals (terminal_manager w)))%nat ->
  history (terminal_at i w) = init_history_buffer ->
  let w' := show_welcome_message os i w in
  terminal_count (terminal_manager w') = terminal_count (terminal_manager w) /\
  active_terminal (terminal_manager w') = active_terminal (terminal_manager w) /\
  (forall j, Z.to_nat j <> Z.to_nat i -> terminal_at j w' = terminal_at j w) /\
  exists h, terminal_at i w' = set_history h (terminal_at i w) /\
            entries h = welcome_entries.
Proof.
  intros Hi Hlt Hinit. cbv zeta. unfold show_welcome_message.
  match goal with |- context [foldl _ w ?lines] =>
    destruct (log_at_lines_cell os i HISTORY_TYPE_RAW lines w Hi Hlt)
      as (H1 & H2 & _ & _ & _ & H6 & h & H7 & _ & H9) end.
  { rewrite Hinit. apply init_history_buffer_wf. }
  split; [exact H1|]. split; [exact H2|]. split; [exact H6|].
  exists h. split; [exact H7|]. rewrite H9, Hinit.
  unfold stored_text. destruct (line_break_enabled w =? 0); reflexivity.
Qed.

(** X11. create_new_terminal does nothing when all eight terminals are in
    use.  Otherwise it sets up the cell behind the last terminal and
    counts it in: the terminals that were there are untouched and the
    active one stays active; the new terminal carries its index as id, has
    no split partner, is Ready with no process, has an empty queue and a
    fresh input state, starts in the directory recorded for the active
    terminal, and its history holds exactly the nine lines of the welcome
    message. *)
Theorem create_new_terminal_opens_a_fresh_tab (os : OS) (w : World) :
  1 <= terminal_count (terminal_manager w) <= MAX_TERMINALS ->
  length (terminals (terminal_manager w)) = Z.to_nat MAX_TERMINALS ->
  0 <= active_terminal (terminal_manager w) < terminal_count (terminal_manager w) ->
  let n := terminal_count (terminal_manager w) in
  let w' := create_new_terminal os w in
  (n = MAX_TERMINALS -> w' = w) /\
  (n < MAX_TERMINALS ->
   terminal_count (terminal_manager w') = n + 1 /\
   active_terminal (terminal_manager w') = active_terminal (terminal_manager w) /\
   (forall j, 0 <= j < n -> terminal_at j w' = terminal_at j w) /\
   let t := terminal_at n w' in
   term_id t = n /\ split_with t = -1 /\
   cmd_state t = CMD_STATE_READY /\ current_process t = 0 /\
   cq_count (cmd_queue t) = 0 /\ input t = init_input_state /\
   current_directory t = current_directory (get_active_terminal w) /\
   entries (history t) = welcome_entries).
Proof.
  intros Hn Hl Ha. cbv zeta. unfold MAX_TERMINALS in *.
  set (n := terminal_count (terminal_manager w)) in *.
  set (a := active_terminal (terminal_manager w)) in *.
  unfold create_new_terminal. fold n. unfold MAX_TERMINALS. split.
  - intros E. rewrite E. reflexivity.
  - intros Hroom.
    replace (n >=? 8) with false by (destruct (Z.geb_spec n 8); [lia|reflexivity]).
    cbv zeta. rewrite int_wrap_small by lia.
    set (w0 := update_terminal n (fresh_terminal n (-1)) w).
    set (dir := current_directory (get_active_terminal w0)).
    set (w1 := update_terminal n (set_current_directory dir) w0).
    set (w2 := set_terminal_manager _ w1).
    assert (Hdir : dir = current_directory (get_active_terminal w)).
    { subst dir w0. unfold get_active_terminal.
      change (active_id (update_terminal n _ w)) with (active_id w).
      rewrite terminal_at_update_ne; [reflexivity|]. unfold active_id. fold a. lia. }
    assert (Hcell : terminal_at n w2
                    = set_current_directory dir (fresh_terminal n (-1) (terminal_at n w))).
    { subst w2 w1 w0. change (terminal_at n (set_terminal_manager ?m ?x))
        with (terminals m !!! Z.to_nat n).
      cbn [set_terminal_count terminals].
      change (terminals (terminal_manager ?x) !!! Z.to_nat n) with (terminal_at n x).
      rewrite !terminal_at_update_eq; [reflexivity| |].
      - rewrite Hl. lia.
      - cbn. rewrite length_insert, Hl. lia. }
    assert (Hothers : forall j, 0 <= j < n -> terminal_at j w2 = terminal_at j w).
    { intros j Hj. subst w2 w1 w0.
      change (terminal_at j (set_terminal_manager ?m ?x))
        with (terminals m !!! Z.to_nat j).
      cbn [set_terminal_count terminals].
      change (terminals (terminal_manager ?x) !!! Z.to_nat j) with (terminal_at j x).
      rewrite !terminal_at_update_ne by lia. reflexivity. }
    destruct (show_welcome_message_cell os n w2) as (H1 & H2 & H3 & h & H4 & H5).
    { lia. }
    { subst w2 w1 w0. cbn. rewrite !length_insert, Hl. lia. }
    { rewrite Hcell. reflexivity. }
    set (w3 := show_welcome_message os n w2) in *.
    assert (Hat : forall j, terminal_at j (chdir os (current_directory (terminal_at n w3)) w3).2
                            = terminal_at j w3).
    { intros j. unfold terminal_at. now rewrite chdir_manager. }
    rewrite !chdir_manager. rewrite Hat.
    split; [rewrite H1; reflexivity|]. split; [rewrite H2; reflexivity|].
    split.
    { intros j Hj. rewrite Hat, H3 by lia. now apply Hothers. }
    rewrite H4, Hcell. cbn.
    repeat split; try reflexivity; assumption.
Qed.

Lemma create_new_terminal_opens_a_fresh_tab_witness :
  let w := boot sample_os "/home/user" in
  let n := terminal_count (terminal_manager w) in
  let w' := create_new_terminal sample_os w in
  (n = MAX_TERMINALS -> w' = w) /\
  (n < MAX_TERMINALS ->
   terminal_count (terminal_manager w') = n + 1 /\
   active_terminal (terminal_manager w') = active_terminal (terminal_manager w) /\
   (forall j, 0 <= j < n -> terminal_at j w' = terminal_at j w) /\
   let t := terminal_at n w' in
   term_id t = n /\ split_with t = -1 /\
   cmd_state t = CMD_STATE_READY /\ current_process t = 0 /\
   cq_count (cmd_queue t) = 0 /\ input t = init_input_state /\
   current_directory t = current_directory (get_active_terminal w) /\
   entries (history t) = welcome_entries).
Proof.
  apply (create_new_terminal_opens_a_fresh_tab sample_os (boot sample_os "/home/user")).
  - vm_compute. split; intros H; discriminate H.
  - reflexivity.
  - vm_compute. split; [intros H; discriminate H|reflexivity].
Defined.

(** ** Switching between terminals *)

Lemma switch_terminal_in_range os id w :
  0 <= id < terminal_count (terminal_manager w) ->
  let w' := switch_terminal os id w in
  active_terminal (terminal_manager w') = id /\
  terminal_count (terminal_manager w') = terminal_count (terminal_manager w) /\
  terminals (terminal_manager w')
  = <[Z.to_nat (active_id w) := set_current_directory (os_cwd w) (get_active_terminal w)]>
      (terminals (terminal_manager w)).
Proof.
  intros Hid. cbv zeta. unfold switch_terminal.
  replace (id >=? 0) with true by (symmetry; apply Z.geb_le; lia).
  replace (id <? terminal_count (terminal_manager w)) with true
    by (symmetry; apply Z.ltb_lt; lia).
  cbn [andb]. rewrite chdir_manager. repeat split; reflexivity.
Qed.

Lemma switch_terminal_out_of_range os id w :
  ~ 0 <= id < terminal_count (terminal_manager w) -> switch_terminal os id w = w.
Proof.
  intros Hid. unfold switch_terminal.
  destruct (Z.geb_spec id 0); destruct (Z.ltb_spec id (terminal_count (terminal_manager w)));
    cbn [andb]; try reflexivity. lia.
Qed.

Lemma next_terminal_active os w :
  1 <= terminal_count (terminal_manager w) <= MAX_TERMINALS ->
  0 <= active_terminal (terminal_manager w) < terminal_count (terminal_manager w) ->
  active_terminal (terminal_manager (next_terminal os w))
  = (active_terminal (terminal_manager w) + 1) `mod` terminal_count (terminal_manager w) /\
  terminal_count (terminal_manager (next_terminal os w))
  = terminal_count (terminal_manager w).
Proof.
  intros Hn Ha. unfold next_terminal, MAX_TERMINALS in *. cbv zeta.
  rewrite int_wrap_small by lia. rewrite Z.rem_mod_nonneg by lia.
  destruct (switch_terminal_in_range os
              ((active_terminal (terminal_manager w) + 1)
                 `mod` terminal_count (terminal_manager w)) w) as (H1 & H2 & _).
  { apply Z.mod_pos_bound. lia. }
  split; assumption.
Qed.

Lemma prev_terminal_active os w :
  1 <= terminal_count (terminal_manager w) <= MAX_TERMINALS ->
  0 <= active_terminal (terminal_manager w) < terminal_count (terminal_manager w) ->
  active_terminal (terminal_manager (prev_terminal os w))
  = (active_terminal (terminal_manager w) - 1) `mod` terminal_count (terminal_manager w) /\
  terminal_count (terminal_manager (prev_terminal os w))
  = terminal_count (terminal_manager w).
Proof.
  intros Hn Ha. unfold prev_terminal, MAX_TERMINALS in *. cbv zeta.
  rewrite !int_wrap_small by (rewrite ?int_wrap_small by lia; lia).
  rewrite Z.rem_mod_nonneg by lia.
  set (n := terminal_count (terminal_manager w)) in *.
  set (a := active_terminal (terminal_manager w)) in *.
  replace ((a - 1 + n) `mod` n) with ((a - 1) `mod` n)
    by (rewrite <- (Z.mod_add (a - 1) 1 n) by lia; f_equal; lia).
  destruct (switch_terminal_in_range os ((a - 1) `mod` n) w) as (H1 & H2 & _).
  { apply Z.mod_pos_bound. lia. }
  split; assumption.
Qed.

Lemma next_terminal_iter os (k : nat) w :
  1 <= terminal_count (terminal_manager w) <= MAX_TERMINALS ->
  0 <= active_terminal (terminal_manager w) < terminal_count (terminal_manager w) ->
  active_terminal (terminal_manager (Nat.iter k (next_terminal os) w))
  = (active_terminal (terminal_manager w) + Z.of_nat k)
      `mod` terminal_count (terminal_manager w) /\
  terminal_count (terminal_manager (Nat.iter k (next_terminal os) w))
  = terminal_count (terminal_manager w).
Proof.
  intros Hn Ha. induction k as [|k [IH1 IH2]].
  - change (Nat.iter 0 (next_terminal os) w) with w.
    rewrite Z.add_0_r, Z.mod_small by lia. split; reflexivity.
  - rewrite Nat.iter_succ.
    destruct (next_terminal_active os (Nat.iter k (next_terminal os) w)) as [H1 H2].
    { rewrite IH2. exact Hn. }
    { rewrite IH1, IH2. apply Z.mod_pos_bound. lia. }
    rewrite H1, H2, IH1, IH2. split; [|reflexivity].
    rewrite Zplus_mod_idemp_l. f_equal. lia.
Qed.

(** X12. With n terminals open and terminal a active, next_terminal makes
    terminal (a + 1) mod n active and prev_terminal terminal (a - 1) mod n,
    so that the last terminal is followed by the first and the first
    preceded by the last.  Each undoes the other, and n times
    next_terminal leads back to the terminal one started from.  Switching
    changes no terminal except that the directory the process is in is
    recorded in the terminal that is left. *)
Theorem next_and_prev_terminal_cycle (os : OS) (w : World) :
  1 <= terminal_count (terminal_manager w) <= MAX_TERMINALS ->
  0 <= active_terminal (terminal_manager w) < terminal_count (terminal_manager w) ->
  let n := terminal_count (terminal_manager w) in
  let a := active_terminal (terminal_manager w) in
  let active w := active_terminal (terminal_manager w) in
  active (next_terminal os w) = (a + 1) `mod` n /\
  active (prev_terminal os w) = (a - 1) `mod` n /\
  active (prev_terminal os (next_terminal os w)) = a /\
  active (next_terminal os (prev_terminal os w)) = a /\
  active (Nat.iter (Z.to_nat n) (next_terminal os) w) = a /\
  terminal_count (terminal_manager (next_terminal os w)) = n /\
  terminal_count (terminal_manager (prev_terminal os w)) = n /\
  terminals (terminal_manager (next_terminal os w))
  = <[Z.to_nat a := set_current_directory (os_cwd w) (terminal_at a w)]>
      (terminals (terminal_manager w)).
Proof.
  intros Hn Ha. cbv zeta.
  set (n := terminal_count (terminal_manager w)) in *.
  set (a := active_terminal (terminal_manager w)) in *.
  destruct (next_terminal_active os w Hn Ha) as [N1 N2].
  destruct (prev_terminal_active os w Hn Ha) as [P1 P2].
  fold n a in N1, N2, P1, P2. unfold MAX_TERMINALS in *.
  assert (Hmod1 : 0 <= (a + 1) `mod` n < n) by (apply Z.mod_pos_bound; lia).
  assert (Hmod2 : 0 <= (a - 1) `mod` n < n) by (apply Z.mod_pos_bound; lia).
  destruct (prev_terminal_active os (next_terminal os w)) as [PN _];
    [rewrite N2; unfold MAX_TERMINALS; lia|rewrite N1, N2; lia|].
  destruct (next_terminal_active os (prev_terminal os w)) as [NP _];
    [rewrite P2; unfold MAX_TERMINALS; lia|rewrite P1, P2; lia|].
  destruct (next_terminal_iter os (Z.to_nat n) w Hn Ha) as [I1 _]. fold n a in I1.
  split; [exact N1|]. split; [exact P1|].
  split.
  { rewrite PN, N1, N2. rewrite Zminus_mod_idemp_l.
    replace (a + 1 - 1) with a by lia. apply Z.mod_small. lia. }
  split.
  { rewrite NP, P1, P2. rewrite Zplus_mod_idemp_l.
    replace (a - 1 + 1) with a by lia. apply Z.mod_small. lia. }
  split.
  { rewrite I1. rewrite Z2Nat.id by lia.
    rewrite <- (Z.mul_1_l n) at 1. rewrite Z.mod_add by lia. apply Z.mod_small. lia. }
  split; [exact N2|]. split; [exact P2|].
  unfold next_terminal. cbv zeta. fold n a.
  rewrite int_wrap_small by lia. rewrite Z.rem_mod_nonneg by lia.
  destruct (switch_terminal_in_range os ((a + 1) `mod` n) w Hmod1) as (_ & _ & H3).
  exact H3.
Qed.

Lemma next_and_prev_terminal_cycle_witness :
  let w := three_sessions in
  let n := terminal_count (terminal_manager w) in
  let a := active_terminal (terminal_manager w) in
  let active w := active_terminal (terminal_manager w) in
  active (next_terminal sample_os w) = (a + 1) `mod` n /\
  active (prev_terminal sample_os w) = (a - 1) `mod` n /\
  active (prev_terminal sample_os (next_terminal sample_os w)) = a /\
  active (next_terminal sample_os (prev_terminal sample_os w)) = a /\
  active (Nat.iter (Z.to_nat n) (next_terminal sample_os) w) = a /\
  terminal_count (terminal_manager (next_terminal sample_os w)) = n /\
  terminal_count (terminal_manager (prev_terminal sample_os w)) = n /\
  terminals (terminal_manager (next_terminal sample_os w))
  = <[Z.to_nat a := set_current_directory (os_cwd w) (terminal_at a w)]>
      (terminals (terminal_manager w)).
Proof.
  apply (next_and_prev_terminal_cycle sample_os three_sessions).
  - vm_compute. split; intros H; discriminate H.
  - vm_compute. split; [intros H; discriminate H|reflexivity].
Defined.

(** ** Closing a terminal and the working directory *)

Lemma close_calm_unfold os w :
  calm w -> 1 < terminal_count (terminal_manager w) ->
  let m := terminal_manager w in
  close_current_terminal os w
  = set_terminal_manager
      (mkTerminalManager
         (shift_terminals (active_terminal m) (terminal_count m) (terminals m))
         (terminal_count m - 1)
         (if active_terminal m >=? terminal_count m - 1
          then terminal_count m - 2 else active_terminal m)
         (split_layout m)) w.
Proof.
  intros Hc Hn. cbv zeta. unfold close_current_terminal.
  replace (terminal_count (terminal_manager w) <=? 1) with false
    by (symmetry; apply Z.leb_gt; lia).
  cbv zeta.
  pose proof (calm_active_idle w Hc) as Hidle.
  unfold get_active_terminal, active_id in Hidle.
  rewrite (ti_state _ Hidle).
  change (CMD_STATE_READY =? CMD_STATE_RUNNING) with false. cbv iota.
  rewrite (ti_split _ Hidle). change (negb (-1 =? -1)) with false. cbv iota.
  pose proof (calm_count w Hc) as Hcount. unfold MAX_TERMINALS in Hcount.
  rewrite !int_wrap_small by lia.
  replace (terminal_count (terminal_manager w) - 1 - 1)
    with (terminal_count (terminal_manager w) - 2) by lia.
  reflexivity.
Qed.

(** X13. close_current_terminal never changes the directory the process
    is in, sends no signal and starts nothing when no command runs.  The
    terminal that becomes active is the right neighbour of the closed one
    (the left one when the last terminal was closed), with its own
    recorded directory; but the process is still in the directory of the
    closed terminal, and the next switch_terminal records that directory
    in the neighbour. *)
Theorem close_leaves_the_process_directory (os : OS) (w : World) (id : Z) :
  calm w ->
  let n := terminal_count (terminal_manager w) in
  let a := active_terminal (terminal_manager w) in
  let w1 := close_current_terminal os w in
  os_cwd w1 = os_cwd w /\
  os_signals w1 = os_signals w /\ os_children w1 = os_children w /\
  (1 < n -> same_session (terminal_at (if a >=? n - 1 then a - 1 else a + 1) w)
                         (get_active_terminal w1)) /\
  (0 <= id < terminal_count (terminal_manager w1) ->
   current_directory (terminal_at (active_id w1) (switch_terminal os id w1)) = os_cwd w).
Proof.
  intros Hc. cbv zeta.
  pose proof (calm_close_current_terminal os w Hc) as Hc1.
  pose proof (calm_count w Hc) as Hn. pose proof (calm_active w Hc) as Ha.
  unfold MAX_TERMINALS in *.
  assert (Hos : os_cwd (close_current_terminal os w) = os_cwd w /\
                os_signals (close_current_terminal os w) = os_signals w /\
                os_children (close_current_terminal os w) = os_children w).
  { destruct (Z_le_gt_dec (terminal_count (terminal_manager w)) 1) as [Hle|Hgt].
    - unfold close_current_terminal.
      replace (terminal_count (terminal_manager w) <=? 1) with true
        by (symmetry; apply Z.leb_le; lia).
      repeat split; reflexivity.
    - rewrite close_calm_unfold by (try assumption; lia). repeat split; reflexivity. }
  destruct Hos as (O1 & O2 & O3).
  split; [exact O1|]. split; [exact O2|]. split; [exact O3|]. split.
  - intros Hgt. rewrite close_calm_unfold by assumption. cbv zeta.
    unfold get_active_terminal, active_id, terminal_at.
    cbn [set_terminal_manager terminal_manager terminals active_terminal].
    set (n := terminal_count (terminal_manager w)) in *.
    set (a := active_terminal (terminal_manager w)) in *.
    pose proof (calm_cells w Hc) as Hl.
    destruct (Z.geb_spec a (n - 1)) as [Hlast|Hmid].
    + rewrite shift_terminals_lookup by (try rewrite Hl; unfold MAX_TERMINALS; lia).
      replace ((a <=? n - 2) && (n - 2 <? n - 1)) with false
        by (symmetry; apply andb_false_iff; left; apply Z.leb_gt; lia).
      replace (a - 1) with (n - 2) by lia. apply same_session_refl.
    + rewrite shift_terminals_lookup by (try rewrite Hl; unfold MAX_TERMINALS; lia).
      replace ((a <=? a) && (a <? n - 1)) with true
        by (symmetry; apply andb_true_iff; split; [apply Z.leb_le|apply Z.ltb_lt]; lia).
      apply same_session_renumbered, same_session_refl.
  - intros Hid.
    destruct (switch_terminal_in_range os id (close_current_terminal os w) Hid)
      as (_ & _ & H3).
    unfold terminal_at at 1. rewrite H3.
    rewrite list_lookup_total_insert_eq by apply (calm_active_ok _ Hc1).
    cbn [set_current_directory current_directory]. exact O1.
Qed.

Lemma close_leaves_the_process_directory_witness :
  let w := create_new_terminal sample_os (boot sample_os "/home/user") in
  let n := terminal_count (terminal_manager w) in
  let a := active_terminal (terminal_manager w) in
  let w1 := close_current_terminal sample_os w in
  os_cwd w1 = os_cwd w /\
  os_signals w1 = os_signals w /\ os_children w1 = os_children w /\
  (1 < n -> same_session (terminal_at (if a >=? n - 1 then a - 1 else a + 1) w)
                         (get_active_terminal w1)) /\
  (0 <= 0 < terminal_count (terminal_manager w1) ->
   current_directory (terminal_at (active_id w1) (switch_terminal sample_os 0 w1))
   = os_cwd w).
Proof.
  apply (close_leaves_the_process_directory
           sample_os (create_new_terminal sample_os (boot sample_os "/home/user")) 0).
  apply calm_create_new_terminal, boot_calm.
Defined.

(** ** Escape sequences *)

Lemma strip_escape_from_no_escape s : forall b,
  mentions ESC (strip_escape_from b s) = false.
Proof.
  induction s as [|c s IH]; intros b; cbn [strip_escape_from]; [reflexivity|].
  destruct (Ascii.eqb c ESC) eqn:Ec; [apply IH|].
  destruct (b && Ascii.eqb c "m"); [apply IH|].
  destruct b; [apply IH|].
  cbn [mentions]. rewrite Ec. apply IH.
Qed.

Lemma strip_escape_from_plain s :
  mentions ESC s = false -> strip_escape_from false s = s.
Proof.
  induction s as [|c s IH]; cbn [mentions strip_escape_from]; [reflexivity|].
  intros H. apply orb_false_iff in H as [Ec Hs]. rewrite Ec. cbn [andb].
  now rewrite IH.
Qed.

Lemma strip_escape_from_length s : forall b,
  (String.length (strip_escape_from b s) <= String.length s)%nat.
Proof.
  induction s as [|c s IH]; intros b; cbn [strip_escape_from String.length]; [lia|].
  destruct (Ascii.eqb c ESC); [specialize (IH true); lia|].
  destruct (b && Ascii.eqb c "m"); [specialize (IH false); lia|].
  destruct b; [specialize (IH true); lia|].
  cbn [String.length]. specialize (IH false). lia.
Qed.

Lemma strip_escape_from_open s :
  mentions "m" s = false -> strip_escape_from true s = EmptyString.
Proof.
  induction s as [|c s IH]; cbn [mentions strip_escape_from]; [reflexivity|].
  intros H. apply orb_false_iff in H as [Em Hs].
  destruct (Ascii.eqb c ESC); [now apply IH|].
  rewrite Em. cbn [andb]. now apply IH.
Qed.

Lemma strip_escape_from_app (before rest : string) :
  mentions ESC before = false ->
  strip_escape_from false (before ++ rest)
  = (before ++ strip_escape_from false rest)%string.
Proof.
  induction before as [|c s IH]; cbn [mentions]; [reflexivity|].
  intros H. apply orb_false_iff in H as [Ec Hs].
  rewrite !append_cons. cbn [strip_escape_from]. rewrite Ec. cbn [andb].
  now rewrite IH.
Qed.

Lemma strip_escape_from_close (params rest : string) :
  mentions "m" params = false ->
  strip_escape_from true (params ++ String "m" rest) = strip_escape_from false rest.
Proof.
  induction params as [|c ps IH]; cbn [mentions]; intros H.
  - change (EmptyString ++ String "m" rest)%string with (String "m"%char rest).
    reflexivity.
  - apply orb_false_iff in H as [Em Hs]. rewrite append_cons.
    cbn [strip_escape_from]. rewrite Em. cbn [andb].
    destruct (Ascii.eqb c ESC); now apply IH.
Qed.

(** X14. strip_escape_codes leaves no ESC character in its result, leaves
    a text without ESC as it is, never makes a text longer, and applying
    it twice is the same as applying it once.  What it removes runs from
    an ESC to the next letter m, whatever lies between: after the text
    before the first ESC, the ESC and everything up to and including the
    first m that follows are dropped and the stripping goes on with what
    comes after that m; when no m follows (as in the sequence that clears
    a line), the rest of the text goes with the ESC. *)
Theorem strip_escape_codes_removes_to_the_next_m
    (s before params after rest : string) :
  mentions ESC (strip_escape_codes s) = false /\
  (mentions ESC s = false -> strip_escape_codes s = s) /\
  (String.length (strip_escape_codes s) <= String.length s)%nat /\
  strip_escape_codes (strip_escape_codes s) = strip_escape_codes s /\
  (mentions ESC before = false -> mentions "m" params = false ->
   strip_escape_codes (before ++ String ESC (params ++ String "m" after))
   = (before ++ strip_escape_codes after)%string) /\
  (mentions ESC before = false -> mentions "m" rest = false ->
   strip_escape_codes (before ++ String ESC rest) = before).
Proof.
  unfold strip_escape_codes.
  split; [apply strip_escape_from_no_escape|].
  split; [apply strip_escape_from_plain|].
  split; [apply strip_escape_from_length|].
  split; [apply strip_escape_from_plain, strip_escape_from_no_escape|].
  split; intros Hb Hr; rewrite strip_escape_from_app by assumption;
    cbn [strip_escape_from]; change (Ascii.eqb ESC ESC) with true; cbv iota.
  - now rewrite strip_escape_from_close by assumption.
  - rewrite strip_escape_from_open by assumption. apply append_empty_r.
Qed.

Lemma strip_escape_codes_removes_to_the_next_m_witness :
  let tail := ("12" ++ String ESC "[0m files")%string in
  strip_escape_codes ("total " ++ String ESC ("[1;31" ++ String "m" tail))
  = ("total " ++ strip_escape_codes tail)%string /\
  strip_escape_codes ("total " ++ String ESC ("[1;31" ++ String "m" tail))
  = "total 12 files"%string /\
  strip_escape_codes ("total 12" ++ String ESC "[K 4 files") = "total 12"%string.
Proof.
  destruct (strip_escape_codes_removes_to_the_next_m
              (String ESC "[0m") "total " "[1;31"
              ("12" ++ String ESC "[0m files") "[K 4 files")
    as (_ & _ & _ & _ & Hm & _).
  destruct (strip_escape_codes_removes_to_the_next_m
              (String ESC "[0m") "total 12" "[1;31"
              ("12" ++ String ESC "[0m files") "[K 4 files")
    as (_ & _ & _ & _ & _ & Hopen).
  split; [exact (Hm eq_refl eq_refl)|].
  split; [exact (Hm eq_refl eq_refl)|exact (Hopen eq_refl eq_refl)].
Defined.

(** ** The window on the input line *)

Lemma set_display_start_same i : set_display_start (display_start i) i = i.
Proof. now destruct i. Qed.

Lemma set_display_start_twice u v i :
  set_display_start u (set_display_start v i) = set_display_start u i.
Proof. reflexivity. Qed.

(** X15. When the interface has been drawn for an unlocked input line in
    a window of at least one column, the window starts at or before the
    cursor and the cursor lies inside it; nothing but the start of the
    window is changed. *)
Theorem drawn_input_window_holds_the_cursor (width : Z) (i : InputState) :
  line_ok i -> is_locked i = 0 ->
  0 <= display_start i < MAX_CMD_INPUT ->
  1 <= width < 2 ^ 30 ->
  let i' := scroll_input_window width i in
  0 <= display_start i' <= cursor_pos i' /\
  cursor_pos i' < display_start i' + width /\
  i' = set_display_start (display_start i') i.
Proof.
  intros [Hc Hl Hr] Hlock Hds Hw. cbv zeta. unfold MAX_CMD_INPUT in *.
  unfold scroll_input_window. rewrite Hlock. change (negb (0 =? 0)) with false.
  cbv iota zeta.
  assert (Hfinish : forall ds1, 0 <= ds1 < 512 ->
    let i1 := set_display_start ds1 i in
    let i' := if int_wrap (cursor_pos i1 - display_start i1) <? 0
              then set_display_start (cursor_pos i1) i1
              else if int_wrap (cursor_pos i1 - display_start i1) >=? width
                   then set_display_start
                          (int_wrap (int_wrap (cursor_pos i1 - width) + 1)) i1
                   else i1 in
    0 <= display_start i' <= cursor_pos i' /\
    cursor_pos i' < display_start i' + width /\
    i' = set_display_start (display_start i') i).
  { intros ds1 Hds1. cbv zeta.
    cbn [set_display_start cursor_pos display_start].
    rewrite !int_wrap_small by (rewrite ?int_wrap_small by lia; lia).
    destruct (Z.ltb_spec (cursor_pos i - ds1) 0);
      [cbn [set_display_start cursor_pos display_start];
       split; [lia|split; [lia|reflexivity]]|].
    destruct (Z.geb_spec (cursor_pos i - ds1) width);
      cbn [set_display_start cursor_pos display_start];
      split; try lia; split; try lia; reflexivity. }
  destruct (Z.leb_spec (input_len i) width) as [Hfit|Hlong].
  - pose proof (Hfinish (display_start i) Hds) as H. cbv zeta in H.
    rewrite set_display_start_same in H. exact H.
  - destruct (Z.gtb_spec (display_start i + width) (input_len i)) as [Hend|Hin].
    + rewrite (int_wrap_small (input_len i - width)) by lia.
      replace (input_len i - width <? 0) with false by (symmetry; apply Z.ltb_ge; lia).
      apply Hfinish. lia.
    + replace (display_start i <? 0) with false by (symmetry; apply Z.ltb_ge; lia).
      apply Hfinish. lia.
Qed.

Lemma drawn_input_window_holds_the_cursor_witness :
  let i := type_string "find / -name core -mtime +30" init_input_state in
  let i' := scroll_input_window 10 i in
  0 <= display_start i' <= cursor_pos i' /\
  cursor_pos i' < display_start i' + 10 /\
  i' = set_display_start (display_start i') i.
Proof.
  apply (drawn_input_window_holds_the_cursor
           10 (type_string "find / -name core -mtime +30" init_input_state)).
  - split; vm_compute; first [reflexivity | intros H; discriminate H
                             | split; intros H; discriminate H].
  - reflexivity.
  - vm_compute. split; [intros H; discriminate H|reflexivity].
  - lia.
Defined.

(** ** Enter *)

Lemma record_command_newest cmd w :
  active_ok w -> cmd_history_wf (input (get_active_terminal w)) ->
  let inp' := input (get_active_terminal (record_command cmd w)) in
  cmd_history_wf inp' /\ last (recorded inp') = Some (Some cmd).
Proof.
  intros Hok Hwf. cbv zeta. unfold record_command.
  set (inp := input (get_active_terminal w)) in *.
  destruct (Z.eqb_spec (cmd_history_count inp) 0) as [Hz|Hnz]; cbn [orb].
  2: destruct (bool_decide (cmd_history inp !!! Z.to_nat (cmd_history_count inp - 1)
                            = Some cmd)) eqn:Hd; cbn [negb].
  2: { fold inp. split; [exact Hwf|]. apply (last_recorded _ _ Hwf).
       split; [exact Hnz|]. now apply bool_decide_eq_true_1 in Hd. }
  all: rewrite get_active_update_active by exact Hok; cbn [input set_input]; fold inp.
  all: destruct (add_to_cmd_history_recorded inp cmd Hwf) as (W & Hr & _).
  all: split; [exact W|]; cbv zeta in Hr; rewrite Hr.
  all: pose proof (recorded_length inp Hwf) as Hlen.
  all: rewrite last_lookup, length_drop, length_app; cbn [length].
  all: rewrite lookup_drop.
  all: replace (length (recorded inp) + 1 - 256
               + pred (length (recorded inp) + 1 - (length (recorded inp) + 1 - 256)))%nat
        with (length (recorded inp)) by lia.
  all: apply list_lookup_middle; reflexivity.
Qed.

Lemma handle_input_enter os keys w :
  is_locked (input (get_active_terminal w)) = 0 ->
  handle_input os (10 :: keys) w
  = match submit_line os w with
    | Some (r, w') => Some (r, keys, w')
    | None => None
    end.
Proof. intros H. unfold handle_input. cbn [getch]. rewrite H. reflexivity. Qed.

(** X16. Enter on an empty line does nothing, and on the line [exit] it
    makes handle_input return 1 with the state untouched.  Any other line
    is passed to execute_command; whenever handle_input returns after
    that (it does not return before the command has ended), it returns 0
    with the line cleared, the cursor and the window at 0 and the history
    position behind the newest command.  The line is then the newest
    recorded command, so that Shift+Up brings it back; [stop] and [manual]
    are not recorded. *)
Theorem enter_runs_the_line_and_clears_it (os : OS) (keys : list Z) (w : World) :
  calm w ->
  let inp := input (get_active_terminal w) in
  let line := input_text inp in
  (line = EmptyString -> handle_input os (10 :: keys) w = Some (0, keys, w)) /\
  (line = "exit"%string -> handle_input os (10 :: keys) w = Some (1, keys, w)) /\
  (line <> EmptyString -> line <> "exit"%string ->
   forall r keys' w',
     handle_input os (10 :: keys) w = Some (r, keys', w') ->
     r = 0 /\ keys' = keys /\
     let inp' := input (get_active_terminal w') in
     input_text inp' = EmptyString /\ cursor_pos inp' = 0 /\ input_len inp' = 0 /\
     display_start inp' = 0 /\ cmd_history_pos inp' = cmd_history_count inp' /\
     (line = "stop"%string \/ line = "manual"%string -> recorded inp' = recorded inp) /\
     (line <> "stop"%string -> line <> "manual"%string ->
      last (recorded inp') = Some (Some line) /\
      input_text (history_prev inp') = line)).
Proof.
  intros Hc. cbv zeta.
  pose proof (calm_active_idle w Hc) as Hidle.
  pose proof (calm_active_ok w Hc) as Hok.
  destruct (eo_line _ (ti_input _ Hidle)) as [L1 L2 L3].
  set (inp := input (get_active_terminal w)) in *.
  rewrite (handle_input_enter os keys w (ti_unlocked _ Hidle)).
  unfold submit_line. fold inp.
  assert (Hcmd : strncpy (Z.to_nat (input_len inp)) (input_text inp) = input_text inp).
  { apply strncpy_fits. unfold strlen in L2. lia. }
  rewrite Hcmd. split; [|split].
  - intros E. rewrite L2, E. reflexivity.
  - intros E. rewrite L2, E. reflexivity.
  - intros Hne Hexit r keys' w'.
    assert (Hpos : (input_len inp >? 0) = true).
    { apply Z.gtb_lt. rewrite L2. unfold strlen.
      destruct (input_text inp); [contradiction|cbn; lia]. }
    rewrite Hpos.
    assert (Hx : strcmp_eq (input_text inp) "exit" = false)
      by (apply String.eqb_neq; exact Hexit).
    rewrite Hx. unfold enough_fuel.
    set (cmd := input_text inp) in *.
    change (execute_command os (S ?f) cmd w)
      with (execute_command_body os (execute_command os f) cmd w).
    match goal with |- context [execute_command_body os ?self cmd w] =>
      destruct (execute_command_body_idle os self cmd w Hok) as (w0 & w1 & E & E0 & H0 & H1)
    end.
    { rewrite (ti_state _ Hidle). discriminate. }
    { apply (ti_queue _ Hidle). }
    rewrite E.
    destruct (tab_step_active _ _ _ Hok H0) as (Hok0 & _ & _ & _).
    destruct (tab_step_active _ _ _ Hok0 H1) as (Hok1 & _ & [HR _] & _).
    intros Hret. injection Hret as <- <- <-.
    split; [reflexivity|]. split; [reflexivity|].
    unfold on_input. rewrite get_active_update_active by exact Hok1.
    cbn [input set_input]. rewrite (tg_input _ _ HR).
    assert (Hlen0 : (strlen cmd =? 0) = false).
    { apply Z.eqb_neq. unfold strlen. destruct cmd; [contradiction|cbn; lia]. }
    rewrite Hlen0 in E0. cbn [orb] in E0.
    split; [reflexivity|]. split; [reflexivity|]. split; [reflexivity|].
    split; [reflexivity|]. split; [reflexivity|]. split.
    + intros [Es|Em]; rewrite E0; [rewrite Es|rewrite Em]; reflexivity.
    + intros Hs Hm.
      assert (Ts : strcmp_eq cmd "stop" = false) by (apply String.eqb_neq; exact Hs).
      assert (Tm : strcmp_eq cmd "manual" = false) by (apply String.eqb_neq; exact Hm).
      rewrite Ts, Tm in E0. cbn [orb] in E0. rewrite E0.
      destruct (record_command_newest cmd w Hok (eo_history _ (ti_input _ Hidle)))
        as [W Hlast].
      set (i0 := input (get_active_terminal (record_command cmd w))) in *.
      split; [exact Hlast|].
      apply (last_recorded _ _ W) in Hlast as [Hnz Hent].
      pose proof (ch_count _ W) as Hcount. unfold MAX_CMD_HISTORY in Hcount.
      unfold history_prev. cbn [reset_line cmd_history_pos].
      replace (cmd_history_count i0 >? 0) with true by (symmetry; apply Z.gtb_lt; lia).
      rewrite int_wrap_small by lia.
      unfold recall. cbn [reset_line cmd_history set_cmd_history_pos].
      rewrite Hent. reflexivity.
Qed.

Lemma enter_runs_the_line_and_clears_it_witness :
  let w := on_input (type_string "make") (boot sample_os "/home/user") in
  exists w',
    handle_input sample_os (10 :: [104]) w = Some (0, [104], w') /\
    let inp' := input (get_active_terminal w') in
    input_text inp' = EmptyString /\ cursor_pos inp' = 0 /\ input_len inp' = 0 /\
    last (recorded inp') = Some (Some "make"%string) /\
    input_text (history_prev inp') = "make"%string.
Proof.
  intros w.
  assert (Hc : calm w).
  { apply calm_on_input; [apply boot_calm|].
    intros i Hi.
    change (type_string "make" i)
      with (foldl apply_edit i [KeyChar 109; KeyChar 97; KeyChar 107; KeyChar 101]).
    generalize [KeyChar 109; KeyChar 97; KeyChar 107; KeyChar 101].
    intros ks. revert i Hi. induction ks as [|k ks IH]; intros i Hi; cbn [foldl].
    - split; [exact Hi|reflexivity].
    - destruct (IH (apply_edit i k) (apply_edit_editor_ok i k Hi)) as [H1 H2].
      split; [exact H1|]. rewrite H2. apply apply_edit_frame. }
  destruct (enter_runs_the_line_and_clears_it sample_os [104] w Hc) as (_ & _ & Hrun).
  destruct (handle_input sample_os (10 :: [104]) w) as [[[r ks] w']|] eqn:E;
    [|vm_compute in E; discriminate E].
  destruct (Hrun ltac:(vm_compute; discriminate) ltac:(vm_compute; discriminate)
                 r ks w' eq_refl)
    as (-> & -> & H1 & H2 & H3 & _ & _ & _ & H6).
  exists w'. split; [reflexivity|].
  destruct (H6 ltac:(vm_compute; discriminate) ltac:(vm_compute; discriminate))
    as [H7 H8].
  cbv zeta. split; [exact H1|]. split; [exact H2|]. split; [exact H3|].
  split; [exact H7|exact H8].
Defined.

(** ** The directory of cd *)

Lemma skip_spaces_blanks n (s : string) :
  skip_spaces (repeat_char n space ++ s) = skip_spaces s.
Proof.
  induction n as [|n IH]; [reflexivity|].
  cbn [repeat_char]. rewrite append_cons. cbn [skip_spaces].
  change (Ascii.eqb space space) with true. cbv iota. exact IH.
Qed.

Lemma leading_spaces_blanks n (s : string) :
  skip_spaces s = s ->
  leading_spaces (repeat_char n space ++ s) = repeat_char n space.
Proof.
  intros Hs. induction n as [|n IH].
  - cbn [repeat_char]. change (EmptyString ++ s)%string with s.
    destruct s as [|c s]; [reflexivity|].
    cbn [leading_spaces]. cbn [skip_spaces] in Hs.
    destruct (Ascii.eqb c space) eqn:E; [|reflexivity].
    exfalso. pose proof (f_equal String.length Hs) as Hl. cbn [String.length] in Hl.
    assert (Hle : forall t, (String.length (skip_spaces t) <= String.length t)%nat).
    { clear. induction t as [|d t IHt]; cbn [skip_spaces String.length]; [lia|].
      destruct (Ascii.eqb d space); cbn [String.length]; lia. }
    specialize (Hle s). lia.
  - cbn [repeat_char]. rewrite append_cons. cbn [leading_spaces].
    change (Ascii.eqb space space) with true. cbv iota. now rewrite IH.
Qed.

Lemma rstrip_app (a b : string) :
  rstrip (a ++ b) = if is_empty (rstrip b) then rstrip a else (a ++ rstrip b)%string.
Proof.
  induction a as [|c a IH].
  - change (EmptyString ++ b)%string with b.
    change (EmptyString ++ rstrip b)%string with (rstrip b).
    cbn [rstrip]. now destruct (rstrip b).
  - rewrite append_cons. cbn [rstrip]. rewrite IH.
    destruct (is_empty (rstrip b)) eqn:E; [reflexivity|].
    rewrite append_cons.
    destruct (a ++ rstrip b)%string eqn:Eab.
    + destruct a; [|discriminate].
      change (EmptyString ++ rstrip b)%string with (rstrip b) in Eab.
      rewrite Eab in E. discriminate.
    + cbn [is_empty]. now rewrite andb_false_r.
Qed.

Lemma trim_end_app (p trail : string) :
  p <> EmptyString -> trim_end p = p -> rstrip trail = EmptyString ->
  trim_end (p ++ trail) = p.
Proof.
  intros Hne Hp Ht. destruct p as [|c p]; [contradiction|].
  rewrite append_cons. cbn [trim_end] in *.
  rewrite rstrip_app, Ht. cbn [is_empty]. exact Hp.
Qed.

Lemma skip_spaces_app (p trail : string) :
  p <> EmptyString -> skip_spaces p = p -> skip_spaces (p ++ trail) = (p ++ trail)%string.
Proof.
  intros Hne Hp. destruct p as [|c p]; [contradiction|].
  rewrite append_cons. cbn [skip_spaces] in *.
  destruct (Ascii.eqb c space) eqn:E; [|reflexivity].
  exfalso. pose proof (f_equal String.length Hp) as Hl. cbn [String.length] in Hl.
  assert (Hle : forall t, (String.length (skip_spaces t) <= String.length t)%nat).
  { clear. induction t as [|d t IHt]; cbn [skip_spaces String.length]; [lia|].
    destruct (Ascii.eqb d space); cbn [String.length]; lia. }
  specialize (Hle p). lia.
Qed.

Lemma repeat_char_length n c : String.length (repeat_char n c) = n.
Proof. induction n as [|n IH]; cbn [repeat_char String.length]; congruence. Qed.

(** X17. The directory that [cd <path>] hands to chdir: blanks and
    newlines behind the path are dropped, but blanks in front of it are
    kept, so that a path typed after more than one blank is looked up with
    blanks in front.  A path that is [~] is replaced by HOME and one that
    begins with [~/] has the [~] replaced by HOME, cut to what fits
    PATH_MAX; with HOME unset neither is expanded. *)
Theorem cd_target_keeps_leading_blanks
    (home : option string) (n : nat) (p trail : string) :
  p <> EmptyString -> skip_spaces p = p -> trim_end p = p ->
  rstrip trail = EmptyString ->
  (n + String.length p + String.length trail <= 4095)%nat ->
  let blanks := repeat_char n space in
  cd_target home ("cd " ++ blanks ++ p ++ trail)
  = match home with
    | Some h =>
        if strcmp_eq p "~" then h
        else if strncmp_eq p "~/" then strncpy 4095 (h ++ string_drop 1 p)
        else (blanks ++ p)%string
    | None => (blanks ++ p)%string
    end.
Proof.
  intros Hne Hskip Htrim Htrail Hlen. cbv zeta. unfold cd_target.
  change (string_drop 3 ("cd " ++ repeat_char n space ++ p ++ trail))
    with (repeat_char n space ++ p ++ trail)%string.
  change (Z.to_nat (PATH_MAX - 1)) with 4095%nat.
  rewrite strncpy_fits
    by (rewrite !append_length, repeat_char_length; lia).
  rewrite skip_spaces_blanks, (skip_spaces_app p trail Hne Hskip).
  rewrite (trim_end_app p trail Hne Htrim Htrail).
  rewrite (leading_spaces_blanks n (p ++ trail) (skip_spaces_app p trail Hne Hskip)).
  unfold snprintf. change (pred (Z.to_nat PATH_MAX)) with 4095%nat.
  destruct home as [h|]; [reflexivity|].
  destruct (strcmp_eq p "~"); [reflexivity|].
  destruct (strncmp_eq p "~/"); reflexivity.
Qed.

Lemma cd_target_keeps_leading_blanks_witness :
  let blanks := repeat_char 2 space in
  cd_target (Some "/home/user"%string) ("cd " ++ blanks ++ "~/src" ++ " ")
  = match Some "/home/user"%string with
    | Some h =>
        if strcmp_eq "~/src" "~" then h
        else if strncmp_eq "~/src" "~/" then strncpy 4095 (h ++ string_drop 1 "~/src")
        else (blanks ++ "~/src")%string
    | None => (blanks ++ "~/src")%string
    end.
Proof.
  apply (cd_target_keeps_leading_blanks (Some "/home/user"%string) 2 "~/src" " ").
  - intros H; discriminate H.
  - reflexivity.
  - reflexivity.
  - reflexivity.
  - vm_compute. lia.
Defined.

(** ** shorten_path *)

Lemma skip_slashes_component (c s : string) :
  component c -> skip_slashes (c ++ s) = (c ++ s)%string.
Proof.
  intros [Hne Hs]. destruct c as [|a c]; [contradiction|].
  rewrite append_cons. cbn [skip_slashes mentions] in *.
  apply orb_false_iff in Hs as [Ha _]. now rewrite Ha.
Qed.

Lemma split_slash_end (c : string) :
  mentions slash c = false -> split_slash c = (c, EmptyString).
Proof.
  induction c as [|a c IH]; cbn [mentions split_slash]; [reflexivity|].
  intros H. apply orb_false_iff in H as [Ha Hc]. rewrite Ha, (IH Hc). reflexivity.
Qed.

Lemma split_slash_component (c s : string) :
  mentions slash c = false -> split_slash (c ++ String slash s) = (c, s).
Proof.
  induction c as [|a c IH]; cbn [mentions]; intros H.
  - change (EmptyString ++ String slash s)%string with (String slash s).
    cbn [split_slash]. change (Ascii.eqb slash slash) with true. reflexivity.
  - apply orb_false_iff in H as [Ha Hc]. rewrite append_cons. cbn [split_slash].
    rewrite Ha, (IH Hc). reflexivity.
Qed.

Lemma path_components_rel_path cs : forall fuel,
  Forall component cs -> (length cs <= fuel)%nat ->
  path_components fuel (rel_path cs) = cs.
Proof.
  induction cs as [|c rest IH]; intros fuel Hcs Hfuel.
  - destruct fuel; reflexivity.
  - destruct fuel as [|fuel]; [cbn in Hfuel; lia|].
    apply Forall_cons in Hcs as [Hc Hrest]. cbn [length] in Hfuel.
    cbn [path_components rel_path]. destruct rest as [|d rest'].
    + rewrite <- (append_empty_r c) at 1. rewrite skip_slashes_component by exact Hc.
      rewrite append_empty_r. destruct Hc as [Hne Hs].
      destruct c as [|a c]; [contradiction|].
      rewrite (split_slash_end _ Hs). destruct fuel; reflexivity.
    + rewrite skip_slashes_component by exact Hc.
      pose proof Hc as [Hne Hs]. destruct c as [|a c]; [contradiction|].
      rewrite append_cons. rewrite <- append_cons.
      rewrite (split_slash_component _ _ Hs).
      rewrite IH by (try assumption; lia). reflexivity.
Qed.

Lemma rel_path_length cs :
  Forall component cs -> (length cs <= String.length (rel_path cs))%nat.
Proof.
  induction cs as [|c rest IH]; intros Hcs; [cbn; lia|].
  apply Forall_cons in Hcs as [[Hne _] Hrest]. specialize (IH Hrest).
  destruct rest as [|d rest'].
  - destruct c; [contradiction|cbn; lia].
  - change (rel_path (c :: d :: rest'))
      with (c ++ String slash (rel_path (d :: rest')))%string.
    rewrite append_length. cbn [String.length length] in *. lia.
Qed.

Lemma append_assoc (a b c : string) : ((a ++ b) ++ c)%string = (a ++ (b ++ c))%string.
Proof.
  induction a as [|x a IH]; [reflexivity|].
  rewrite !append_cons. now rewrite IH.
Qed.

Lemma strncat_fits (out src : string) n :
  (String.length src <= n)%nat -> strncat out src n = (out ++ src)%string.
Proof. intros H. unfold strncat. now rewrite strncpy_fits. Qed.

Lemma first_letter_component c :
  component c -> String.length (first_letter c) = 1%nat /\ (strlen c >? 0) = true.
Proof.
  intros [Hne _]. destruct c as [|a c]; [contradiction|].
  split; [reflexivity|]. apply Z.gtb_lt. unfold strlen. cbn [String.length]. lia.
Qed.

Lemma shortened_length c :
  (String.length (shortened c) <= String.length c + 3)%nat.
Proof.
  unfold shortened, strlen. destruct (Z.gtb_spec (Z.of_nat (String.length c)) 12).
  - rewrite append_length, strncpy_length. cbn [String.length]. lia.
  - lia.
Qed.

Lemma shorten_loop_fits size cs : forall out,
  Forall component cs ->
  (String.length out + String.length (initials_then_last cs) < size)%nat ->
  shorten_loop size cs out = (out ++ initials_then_last cs)%string.
Proof.
  induction cs as [|c rest IH]; intros out Hcs Hfit.
  - cbn. now rewrite append_empty_r.
  - apply Forall_cons in Hcs as [Hc Hrest]. destruct rest as [|d rest'].
    + cbn [shorten_loop initials_then_last] in *.
      apply strncat_fits. unfold room. lia.
    + change (initials_then_last (c :: d :: rest'))
        with (first_letter c ++ String slash (initials_then_last (d :: rest')))%string
        in *.
      change (shorten_loop size (c :: d :: rest') out)
        with (shorten_loop size (d :: rest')
                (if strlen c >? 0
                 then strncat (strncat out (first_letter c) (room size out)) "/"
                              (room size (strncat out (first_letter c) (room size out)))
                 else out)).
      destruct (first_letter_component c Hc) as [Hfl ->].
      rewrite append_length in Hfit. cbn [String.length] in Hfit.
      rewrite (strncat_fits out (first_letter c)) by (unfold room; lia).
      rewrite strncat_fits
        by (unfold room; rewrite append_length; cbn [String.length]; lia).
      rewrite IH; [|exact Hrest|rewrite !append_length; cbn [String.length]; lia].
      rewrite !append_assoc. reflexivity.
Qed.

Lemma initials_then_last_length cs :
  Forall component cs ->
  (String.length (initials_then_last cs) <= String.length (rel_path cs) + 3)%nat.
Proof.
  induction cs as [|c rest IH]; intros Hcs; [cbn; lia|].
  apply Forall_cons in Hcs as [Hc Hrest]. specialize (IH Hrest).
  destruct rest as [|d rest'].
  - cbn [initials_then_last rel_path]. apply shortened_length.
  - change (initials_then_last (c :: d :: rest'))
      with (first_letter c ++ String slash (initials_then_last (d :: rest')))%string.
    change (rel_path (c :: d :: rest'))
      with (c ++ String slash (rel_path (d :: rest')))%string.
    rewrite !append_length. cbn [String.length].
    destruct (first_letter_component c Hc) as [Hfl _].
    destruct Hc as [Hne _]. destruct c; [contradiction|].
    cbn [String.length] in *. lia.
Qed.

(** The part of shorten_path behind the replacement of HOME, for a
    modified path written from its components. *)
Lemma shorten_loop_rel_path size cs (lead : string) :
  Forall component cs -> cs <> [] -> (length cs <= 63)%nat ->
  (String.length lead + String.length (rel_path cs) + 4 <= size)%nat ->
  shorten_loop size
    (take 63 (path_components (S (String.length (lead ++ rel_path cs))) (rel_path cs)))
    lead
  = (lead ++ initials_then_last cs)%string.
Proof.
  intros Hcs Hne Hn Hsize.
  pose proof (rel_path_length cs Hcs) as Hlen.
  rewrite path_components_rel_path by (try assumption; rewrite append_length; lia).
  rewrite take_ge by lia.
  apply shorten_loop_fits; [assumption|].
  pose proof (initials_then_last_length cs Hcs). lia.
Qed.

Lemma prefix_append (h rest : string) : String.prefix h (h ++ rest) = true.
Proof.
  induction h as [|a h IH].
  - now destruct rest.
  - rewrite append_cons. cbn [String.prefix].
    destruct (ascii_dec a a); [exact IH|contradiction].
Qed.

(** X18. The tab of a terminal whose directory is not under HOME shows
    the first letter of every directory on the way and the last one in
    full, or its first twelve characters and three dots when it is longer:
    for the path written from the components [cs], shorten_path gives a
    slash followed by the initials and the last component. *)
Theorem shorten_path_shows_initials_and_last
    (home : option string) (cs : list string) (size : nat) :
  Forall component cs -> cs <> [] -> (length cs <= 63)%nat ->
  match home with
  | Some h => strncmp_eq (String slash (rel_path cs)) h = false
  | None => True
  end ->
  (String.length (rel_path cs) + 1 < 4096)%nat ->
  (String.length (rel_path cs) + 5 <= size)%nat ->
  shorten_path home (String slash (rel_path cs)) size
  = String slash (initials_then_last cs).
Proof.
  intros Hcs Hne Hn Hhome Hlen Hsize. unfold shorten_path.
  replace (strlen (String slash (rel_path cs)) =? 0) with false
    by (symmetry; apply Z.eqb_neq; unfold strlen; cbn [String.length]; lia).
  change (Z.to_nat PATH_MAX) with 4096%nat.
  assert (Hmod : match home with
                 | Some h =>
                     if strncmp_eq (String slash (rel_path cs)) h
                     then snprintf 4096 ("~" ++ string_drop (String.length h)
                                                  (String slash (rel_path cs)))
                     else strncpy 4096 (String slash (rel_path cs))
                 | None => strncpy 4096 (String slash (rel_path cs))
                 end = String slash (rel_path cs)).
  { destruct home as [h|]; [rewrite Hhome|];
      apply strncpy_fits; cbn [String.length]; lia. }
  rewrite Hmod. cbv zeta.
  change (Ascii.eqb slash slash) with true. cbv iota.
  rewrite strncat_fits by (cbn [String.length]; lia).
  change (path_components (S (String.length (String slash (rel_path cs))))
                          (String slash (rel_path cs)))
    with (path_components (S (String.length ("/" ++ rel_path cs))) (rel_path cs)).
  change (EmptyString ++ "/")%string with "/"%string.
  rewrite shorten_loop_rel_path by (try assumption; cbn [String.length]; lia).
  reflexivity.
Qed.

Lemma shorten_path_shows_initials_and_last_witness :
  shorten_path (Some "/home/user"%string)
               (String slash (rel_path ["var"; "log"; "parrot-terminal-sessions"]%string))
               4096
  = String slash (initials_then_last ["var"; "log"; "parrot-terminal-sessions"]%string).
Proof.
  apply (shorten_path_shows_initials_and_last
           (Some "/home/user"%string) ["var"; "log"; "parrot-terminal-sessions"]%string 4096).
  - repeat constructor; first [intros H; discriminate H | idtac].
  - intros H; discriminate H.
  - cbn [length]. lia.
  - reflexivity.
  - vm_compute. lia.
  - vm_compute. lia.
Defined.

(** X19. HOME is replaced textually: when the directory begins with the
    characters of HOME, the tab shows a tilde and what follows those
    characters, shortened component by component.  The directory need not
    lie under HOME for that: with HOME /home/user the directory
    /home/username2 is shown as ~name2. *)
Theorem shorten_path_replaces_home_textually
    (h rest : string) (cs : list string) (size : nat) :
  String "~" rest = rel_path cs ->
  Forall component cs -> (length cs <= 63)%nat ->
  (h ++ rest)%string <> EmptyString ->
  (String.length h + String.length rest < 4095)%nat ->
  (String.length rest + 6 <= size)%nat ->
  shorten_path (Some h) (h ++ rest) size = initials_then_last cs.
Proof.
  intros Hshown Hcs Hn Hne Hlen Hsize. unfold shorten_path.
  replace (strlen (h ++ rest) =? 0) with false.
  2: { symmetry. apply Z.eqb_neq. unfold strlen.
       destruct (h ++ rest)%string; [contradiction|cbn [String.length]; lia]. }
  unfold strncmp_eq. rewrite prefix_append, string_drop_append.
  unfold snprintf. change (pred (Z.to_nat PATH_MAX)) with 4095%nat.
  rewrite strncpy_fits by (rewrite append_length; cbn [String.length]; lia).
  change ("~" ++ rest)%string with (String "~" rest). cbv zeta. cbv iota.
  change (Ascii.eqb "~" slash) with false. cbv iota.
  assert (Hcs_ne : cs <> []) by (intros ->; discriminate Hshown).
  assert (Hl : String.length (rel_path cs) = S (String.length rest))
    by (rewrite <- Hshown; reflexivity).
  rewrite Hshown.
  change (path_components (S (String.length (rel_path cs))) (rel_path cs))
    with (path_components (S (String.length (EmptyString ++ rel_path cs))) (rel_path cs)).
  rewrite shorten_loop_rel_path by (try assumption; cbn [String.length]; lia).
  reflexivity.
Qed.

Lemma shorten_path_replaces_home_textually_witness :
  shorten_path (Some "/home/user"%string) ("/home/user" ++ "name2") 4096
  = initials_then_last ["~name2"%string].
Proof.
  apply (shorten_path_replaces_home_textually "/home/user" "name2" ["~name2"%string] 4096).
  - reflexivity.
  - repeat constructor; first [intros H; discriminate H | idtac].
  - cbn [length]. lia.
  - intros H; discriminate H.
  - vm_compute. lia.
  - vm_compute. lia.
Defined.

(** ** The labels of the tabs *)

Lemma tab_width_range max_x count :
  0 < max_x -> 1 <= count -> 15 <= tab_width max_x count <= Z.max 15 max_x.
Proof.
  intros Hx Hc. unfold tab_width. cbv zeta.
  destruct (Z.ltb_spec (max_x ÷ count) 15); [lia|].
  split; [lia|]. rewrite Z.quot_div_nonneg by lia.
  assert (max_x / count <= max_x) by (apply Z.div_le_upper_bound; nia). lia.
Qed.

Lemma tab_text_length home i t : 4 <= strlen (tab_text home i t) <= 127.
Proof.
  unfold tab_text, snprintf, strlen. cbv zeta. rewrite strncpy_length.
  change (pred 128) with 127%nat.
  rewrite !append_length. cbn [String.length]. lia.
Qed.

(** X20. The label of a tab on a screen of [max_x] columns.  Every tab
    but the last is at least 15 columns wide; the last one takes what is
    left of the screen.  In a tab of at least 7 columns the label fits: it
    is the text of the tab when that leaves four columns free, and else
    its first [width - 7] characters followed by three dots and a blank,
    [width - 3] characters in all.  A tab of fewer than 7 columns can only
    be the last one, and there the dots are written at a negative index,
    before the buffer of the text. *)
Theorem tab_label_fits_or_is_cut_before_the_buffer
    (home : option string) (max_x : Z) (w : World) (i start width : Z) :
  let count := terminal_count (terminal_manager w) in
  let text := tab_text home i (terminal_at i w) in
  1 <= count <= MAX_TERMINALS -> 0 <= i < count -> 0 < max_x < 2 ^ 20 ->
  tab_span max_x count i = Some (start, width) ->
  (i < count - 1 -> 15 <= width) /\
  1 <= width /\
  (7 <= width ->
   exists label, cut_tab_text width text = Some label /\
                 strlen label <= width - 3 /\
                 (strlen text <= width - 4 -> label = text) /\
                 (strlen text > width - 4 ->
                  label = (strncpy (Z.to_nat (width - 7)) text ++ "... ")%string)) /\
  (width < 7 -> i = count - 1 /\ cut_tab_text width text = None).
Proof.
  cbv zeta. intros Hc Hi Hx Hspan. unfold MAX_TERMINALS in Hc.
  pose proof (tab_width_range max_x (terminal_count (terminal_manager w))) as Hw.
  specialize (Hw ltac:(lia) ltac:(lia)).
  set (count := terminal_count (terminal_manager w)) in *.
  set (tw := tab_width max_x count) in *.
  set (text := tab_text home i (terminal_at i w)).
  pose proof (tab_text_length home i (terminal_at i w)) as Ht. fold text in Ht.
  unfold tab_span in Hspan. fold tw in Hspan. cbv zeta in Hspan.
  assert (Hprod : 0 <= i * tw < 2 ^ 24) by nia.
  rewrite !int_wrap_small in Hspan by lia.
  destruct (Z.geb_spec (i * tw) max_x) as [|Hlt]; [discriminate|].
  rewrite ?int_wrap_small in Hspan by lia.
  injection Hspan as <- Hwidth.
  assert (Hcases : (i = count - 1 /\ width = max_x - i * tw) \/
                   (i < count - 1 /\ width = tw)).
  { destruct (Z.eqb_spec i (count - 1)); [left|right]; split; lia. }
  clear Hwidth.
  split; [intros Hnl; destruct Hcases as [[? ?]|[? ?]]; lia|].
  split; [destruct Hcases as [[? ?]|[? ?]]; lia|].
  split.
  - intros H7. unfold cut_tab_text.
    destruct (Z.gtb_spec (strlen text) (width - 4)) as [Hlong|Hfits].
    + replace (width - 7 <? 0) with false by (symmetry; apply Z.ltb_ge; lia).
      eexists. split; [reflexivity|].
      split; [|split; [lia|reflexivity]].
      unfold strlen in *. rewrite append_length, strncpy_length.
      cbn [String.length]. lia.
    + exists text. split; [reflexivity|]. split; [lia|]. split; [reflexivity|lia].
  - intros Hnarrow. split; [destruct Hcases as [[? ?]|[? ?]]; lia|].
    unfold cut_tab_text.
    replace (strlen text >? width - 4) with true by (symmetry; apply Z.gtb_lt; lia).
    replace (width - 7 <? 0) with true by (symmetry; apply Z.ltb_lt; lia).
    reflexivity.
Qed.

Lemma tab_label_fits_or_is_cut_before_the_buffer_witness :
  let w := three_sessions in
  let i := 2 in
  let max_x := 32 in
  let start := 30 in
  let width := 2 in
  let home := Some "/home/user"%string in
  let count := terminal_count (terminal_manager w) in
  let text := tab_text home i (terminal_at i w) in
  (i < count - 1 -> 15 <= width) /\
  1 <= width /\
  (7 <= width ->
   exists label, cut_tab_text width text = Some label /\
                 strlen label <= width - 3 /\
                 (strlen text <= width - 4 -> label = text) /\
                 (strlen text > width - 4 ->
                  label = (strncpy (Z.to_nat (width - 7)) text ++ "... ")%string)) /\
  (width < 7 -> i = count - 1 /\ cut_tab_text width text = None).
Proof.
  apply (tab_label_fits_or_is_cut_before_the_buffer
           (Some "/home/user"%string) 32 three_sessions 2 30 2).
  - vm_compute. split; intros H; discriminate H.
  - vm_compute. split; [intros H; discriminate H|reflexivity].
  - lia.
  - reflexivity.
Defined.

(** ** A command that cannot be started *)

(** X21. When pipe() or fork() fails for a command that is to be run with
    its output captured, execute_command returns after logging the echo of
    the command and one line that reports the failure.  No child is
    started and no signal sent, the session keeps its state, process and
    queue, and the command has been recorded in the command history. *)
Theorem failed_start_is_logged_and_nothing_runs
    (os : OS) (fuel : nat) (cmd : string) (w : World) (msg : string) :
  session_ok w ->
  cmd_state (get_active_terminal w) <> CMD_STATE_RUNNING ->
  captured_command cmd ->
  start_failure os (os_run os (os_tick (echo_command os cmd (record_command cmd w))) cmd)
  = Some msg ->
  exists w',
    execute_command os (S fuel) cmd w = Some w' /\
    active_entries w'
    = active_entries w
      ++ [(stored_text (line_break_enabled w) (echo_line os cmd w), HISTORY_TYPE_COMMAND);
          (stored_text (line_break_enabled w) msg, HISTORY_TYPE_NORMAL)] /\
    os_children w' = os_children w /\ os_signals w' = os_signals w /\
    cmd_state (get_active_terminal w') = cmd_state (get_active_terminal w) /\
    current_process (get_active_terminal w') = current_process (get_active_terminal w) /\
    cmd_queue (get_active_terminal w') = cmd_queue (get_active_terminal w) /\
    input (get_active_terminal w') = input (get_active_terminal (record_command cmd w)).
Proof.
  intros Hok Hidle (Hord & Hcd1 & Hcd2 & Hint) Hfail.
  change (execute_command os (S fuel) cmd w)
    with (execute_command_body os (execute_command os fuel) cmd w).
  rewrite (not_running_tests os _ cmd w Hord Hidle). cbv zeta.
  rewrite Hcd1, Hcd2, Hint.
  destruct (record_command_frame cmd w Hok) as (Hok0 & (i0 & Hi0) & Hb0 & Ht0 & _ & Hs0 & Hc0).
  pose proof (record_command_entries cmd w Hok) as He0.
  set (w0 := record_command cmd w) in *.
  pose proof (echo_command_logged os cmd w0 Hok0) as L1.
  set (we := echo_command os cmd w0) in *.
  pose proof (logged_tick we (lg_ok _ _ _ L1)) as L2.
  assert (Hlog : forall text,
            logged w0 (log_line os text HISTORY_TYPE_NORMAL (tick we))
                   ([(stored_text (line_break_enabled w0)
                        (snprintf 512 (os_clock os (os_time os (os_tick w0)) ++ " " ++ cmd)),
                      HISTORY_TYPE_COMMAND)]
                    ++ [] ++ [(stored_text (line_break_enabled (tick we)) text,
                               HISTORY_TYPE_NORMAL)])).
  { intros text. eapply logged_trans; [exact L1|].
    eapply logged_trans; [exact L2|].
    apply logged_log_line. apply (lg_ok _ _ _ L2). }
  assert (Hlbe : line_break_enabled (tick we) = line_break_enabled w).
  { rewrite (lg_lbe _ _ _ L2), (lg_lbe _ _ _ L1). exact Hb0. }
  assert (Hdone : forall text, msg = text ->
            exists w', Some (log_line os text HISTORY_TYPE_NORMAL (tick we)) = Some w' /\
              active_entries w'
              = active_entries w
                ++ [(stored_text (line_break_enabled w) (echo_line os cmd w),
                     HISTORY_TYPE_COMMAND);
                    (stored_text (line_break_enabled w) msg, HISTORY_TYPE_NORMAL)] /\
              os_children w' = os_children w /\ os_signals w' = os_signals w /\
              cmd_state (get_active_terminal w') = cmd_state (get_active_terminal w) /\
              current_process (get_active_terminal w')
              = current_process (get_active_terminal w) /\
              cmd_queue (get_active_terminal w') = cmd_queue (get_active_terminal w) /\
              input (get_active_terminal w') = input (get_active_terminal w0)).
  { intros text ->. eexists. split; [reflexivity|].
    specialize (Hlog text).
    destruct (logged_fields _ _ _ Hlog) as (F1 & F2 & F3 & F4 & _).
    split.
    { rewrite (lg_entries _ _ _ Hlog), He0, Hlbe, Hb0, Ht0. reflexivity. }
    split; [rewrite (lg_children _ _ _ Hlog); exact Hc0|].
    split; [rewrite (lg_signals _ _ _ Hlog); exact Hs0|].
    rewrite F1, F2, F3, F4, Hi0. repeat split; reflexivity. }
  destruct (os_run os (os_tick we) cmd) as [errno|errno|pid stream_ok reads status];
    cbn [start_failure] in Hfail; [| |discriminate].
  - injection Hfail as Hmsg. apply Hdone. symmetry. exact Hmsg.
  - injection Hfail as Hmsg. apply Hdone. symmetry. exact Hmsg.
Qed.

Lemma failed_start_is_logged_and_nothing_runs_witness :
  let msg := "Failed to fork process: Resource temporarily unavailable"%string in
  exists w',
    execute_command exhausted_os 1 "ls" sample_world = Some w' /\
    active_entries w'
    = active_entries sample_world
      ++ [(stored_text (line_break_enabled sample_world)
             (echo_line exhausted_os "ls" sample_world), HISTORY_TYPE_COMMAND);
          (stored_text (line_break_enabled sample_world) msg, HISTORY_TYPE_NORMAL)] /\
    os_children w' = os_children sample_world /\
    os_signals w' = os_signals sample_world /\
    cmd_state (get_active_terminal w') = cmd_state (get_active_terminal sample_world) /\
    current_process (get_active_terminal w')
    = current_process (get_active_terminal sample_world) /\
    cmd_queue (get_active_terminal w') = cmd_queue (get_active_terminal sample_world) /\
    input (get_active_terminal w')
    = input (get_active_terminal (record_command "ls" sample_world)).
Proof.
  apply (failed_start_is_logged_and_nothing_runs exhausted_os 0 "ls" sample_world).
  - exact sample_world_ok.
  - vm_compute. intros H; discriminate H.
  - split; [|split; [|split]]; try reflexivity.
    repeat split; intros H; discriminate H.
  - reflexivity.
Defined.

(** ** manual *)

(** X22. [manual] is answered in every state of the session, also while
    a command runs: execute_command appends the thirteen lines of the
    usage text to the history and returns.  The command is neither queued
    nor recorded in the command history, and the session's state, process
    and children are as they were. *)
Theorem manual_is_answered_in_every_state (os : OS) (fuel : nat) (w : World) :
  session_ok w ->
  exists w',
    execute_command os (S fuel) "manual" w = Some w' /\
    active_entries w' = active_entries w ++ manual_entries /\
    cmd_queue (get_active_terminal w') = cmd_queue (get_active_terminal w) /\
    input (get_active_terminal w') = input (get_active_terminal w) /\
    cmd_state (get_active_terminal w') = cmd_state (get_active_terminal w) /\
    current_process (get_active_terminal w') = current_process (get_active_terminal w) /\
    os_children w' = os_children w /\ os_signals w' = os_signals w.
Proof.
  intros Hok. exists (show_manual os w). split; [reflexivity|].
  unfold show_manual.
  match goal with |- context [foldl _ w ?lines] =>
    pose proof (logged_foldl_log_line os HISTORY_TYPE_RAW lines w Hok) as L end.
  destruct (logged_fields _ _ _ L) as (F1 & F2 & F3 & F4 & _).
  split.
  { rewrite (lg_entries _ _ _ L). f_equal.
    unfold stored_text. destruct (line_break_enabled w =? 0); reflexivity. }
  split; [exact F1|]. split; [exact F2|]. split; [exact F3|]. split; [exact F4|].
  split; [apply (lg_children _ _ _ L)|apply (lg_signals _ _ _ L)].
Qed.

Lemma manual_is_answered_in_every_state_witness :
  exists w',
    execute_command sample_os 1 "manual" running_world = Some w' /\
    active_entries w' = active_entries running_world ++ manual_entries /\
    cmd_queue (get_active_terminal w') = cmd_queue (get_active_terminal running_world) /\
    input (get_active_terminal w') = input (get_active_terminal running_world) /\
    cmd_state (get_active_terminal w') = cmd_state (get_active_terminal running_world) /\
    current_process (get_active_terminal w')
    = current_process (get_active_terminal running_world) /\
    os_children w' = os_children running_world /\
    os_signals w' = os_signals running_world.
Proof.
  apply (manual_is_answered_in_every_state sample_os 0 running_world).
  exact running_world_ok.
Defined.

(** ** Captured output, line by line *)












